(** * The render-hardware interface: pipeline state, pipeline objects, device

    A shallow embedding of three pieces of the engine's RHI layer and the
    properties of them that the specification states, with further
    properties of the same code, of the constant buffer and of the model
    importer:

    - [Directus.RHI_PipelineState] (Runtime/RHI/RHI_PipelineState.cpp): the
      dirty-flag tracking state object of the immediate-context backend, its
      setters and [Bind];
    - [Spartan.Vulkan.RHI_Pipeline] (Runtime/RHI/Vulkan/Vulkan_Pipeline.cpp): the
      constructor and destructor of the explicit pipeline object;
    - [Spartan.D3D11.RHI_Device] (Runtime/RHI/D3D11/D3D11_Device.cpp): the
      constructor of the Direct3D 11 device;
    - [Spartan.ConstantBuffer] (Runtime/RHI/RHI_ConstantBuffer.h): the size and
      the offsets of a constant buffer;
    - [ModelImporter] (Directus3D/AssetImporting/ModelImporter.cpp): the search
      for the texture files of a model and the indices of a mesh.

    Methods are functions of the object they run on. What they send to the
    graphics backend and to the log is collected, in order, in a list of
    events. Dereferencing a null pointer has no defined result. *)

From Stdlib Require Import ZArith Ascii String SpecFloat.
From stdpp Require Import base decidable option list gmap.

Local Open Scope Z_scope.

(** ** Values shared by the three files *)

(** A raw pointer ([void*], a native handle): its address; 0 is [nullptr]. *)
Definition ptr := N.
Definition nullptr : ptr := 0%N.

(** A [float], with IEEE comparison ([SFeqb]: a NaN differs from itself,
    the two zeros are equal). *)
Definition float := spec_float.

(** The literals [0.0f] and [1.0f] in binary32. *)
Definition float_0 : float := S754_zero false.
Definition float_1 : float := S754_finite false 8388608 (-23).

(** [unsigned int], [uint32_t]: a value below 2^32; [(unsigned int) n]
    wraps around. *)
Definition to_uint32 (n : Z) : Z := n mod 2 ^ 32.

(** The log macros. *)
Inductive Log_Level := Log_Info | Log_Warning | Log_Error.

(** * Directus: RHI_PipelineState *)

Module Directus.

(** Modelled from the spec: the enumerations of RHI_Definition.h, which is
    not among the sources. The code compares their values and names only the
    [..._NotAssigned] enumerators and [Buffer_Global]; the spec names
    triangle lists, back-face culling and the global scope. *)
Inductive PrimitiveTopology_Mode :=
  PrimitiveTopology_TriangleList | PrimitiveTopology_LineList | PrimitiveTopology_NotAssigned.
Inductive Input_Layout :=
  Input_Position | Input_PositionColor | Input_PositionTexture | Input_PositionTextureTBN
  | Input_NotAssigned.
Inductive Cull_Mode := Cull_None | Cull_Front | Cull_Back | Cull_NotAssigned.
Inductive Fill_Mode := Fill_Solid | Fill_Wireframe | Fill_NotAssigned.
Inductive Buffer_Scope := Buffer_VertexShader | Buffer_PixelShader | Buffer_Global.

#[global] Instance PrimitiveTopology_Mode_eq_dec : EqDecision PrimitiveTopology_Mode.
Proof. solve_decision. Defined.
#[global] Instance Input_Layout_eq_dec : EqDecision Input_Layout.
Proof. solve_decision. Defined.
#[global] Instance Cull_Mode_eq_dec : EqDecision Cull_Mode.
Proof. solve_decision. Defined.
#[global] Instance Fill_Mode_eq_dec : EqDecision Fill_Mode.
Proof. solve_decision. Defined.
#[global] Instance Buffer_Scope_eq_dec : EqDecision Buffer_Scope.
Proof. solve_decision. Defined.

(** [RHI_Viewport(x, y, width, height, minDepth, maxDepth)]. *)
Record RHI_Viewport := mkViewport {
  vp_x : float; vp_y : float; GetWidth : float; GetHeight : float;
  vp_minDepth : float; vp_maxDepth : float
}.

(** The objects the setters receive through a [shared_ptr] (an [option]:
    [None] is the null pointer). Each is given by what its accessors
    return. *)
Record RHI_Device := { device_id : N }.
Record RHI_IndexBuffer := { index_buffer : ptr }.
Record RHI_VertexBuffer := { vertex_buffer : ptr }.
Record RHI_Sampler := { sampler_GetBuffer : ptr }.
Record RHI_ConstantBuffer := { constant_GetBuffer : ptr }.
Record D3D11_InputLayout := {
  GetInputLayout : Input_Layout;
  GetInputLayoutBuffer : ptr
}.
Record RHI_Shader := {
  shader_GetInputLayout : option D3D11_InputLayout;
  GetConstantBuffer : option RHI_ConstantBuffer;
  GetBufferSlot : Z;
  GetBufferScope : Buffer_Scope;
  GetVertexShaderBuffer : ptr;
  GetPixelShaderBuffer : ptr
}.

(** An element of [m_constantBuffersInfo]. *)
Record ConstantBufferInfo := mkConstantBufferInfo {
  m_buffer : ptr; m_slot : Z; m_scope : Buffer_Scope
}.

#[global] Instance RHI_IndexBuffer_eq_dec : EqDecision RHI_IndexBuffer.
Proof. solve_decision. Defined.
#[global] Instance RHI_VertexBuffer_eq_dec : EqDecision RHI_VertexBuffer.
Proof. solve_decision. Defined.

(** *** The state object *)

Record RHI_PipelineState := mkPipelineState {
  m_rhiDevice : option RHI_Device;
  m_primitiveTopology : PrimitiveTopology_Mode;
  m_primitiveTopologyDirty : bool;
  m_inputLayout : Input_Layout;
  m_inputLayoutBuffer : ptr;
  m_inputLayoutDirty : bool;
  m_cullMode : Cull_Mode;
  m_cullModeDirty : bool;
  m_fillMode : Fill_Mode;
  m_fillModeDirty : bool;
  m_viewport : RHI_Viewport;
  m_viewportDirty : bool;
  m_vertexShader : ptr;
  m_vertexShaderDirty : bool;
  m_pixelShader : ptr;
  m_pixelShaderDirty : bool;
  m_indexBuffer : option RHI_IndexBuffer;
  m_indexBufferDirty : bool;
  m_vertexBuffer : option RHI_VertexBuffer;
  m_vertexBufferDirty : bool;
  m_constantBuffersInfo : list ConstantBufferInfo;
  m_constantBufferDirty : bool;
  m_samplers : list ptr;
  m_samplersDirty : bool;
  m_textures : list ptr;
  m_texturesDirty : bool
}.

Definition set_m_primitiveTopology (v : PrimitiveTopology_Mode) (s : RHI_PipelineState) : RHI_PipelineState :=
  mkPipelineState (m_rhiDevice s) v (m_primitiveTopologyDirty s) (m_inputLayout s)
    (m_inputLayoutBuffer s) (m_inputLayoutDirty s) (m_cullMode s) (m_cullModeDirty s)
    (m_fillMode s) (m_fillModeDirty s) (m_viewport s) (m_viewportDirty s) (m_vertexShader s)
    (m_vertexShaderDirty s) (m_pixelShader s) (m_pixelShaderDirty s) (m_indexBuffer s)
    (m_indexBufferDirty s) (m_vertexBuffer s) (m_vertexBufferDirty s) (m_constantBuffersInfo s)
    (m_constantBufferDirty s) (m_samplers s) (m_samplersDirty s) (m_textures s)
    (m_texturesDirty s).

Definition set_m_primitiveTopologyDirty (v : bool) (s : RHI_PipelineState) : RHI_PipelineState :=
  mkPipelineState (m_rhiDevice s) (m_primitiveTopology s) v (m_inputLayout s)
    (m_inputLayoutBuffer s) (m_inputLayoutDirty s) (m_cullMode s) (m_cullModeDirty s)
    (m_fillMode s) (m_fillModeDirty s) (m_viewport s) (m_viewportDirty s) (m_vertexShader s)
    (m_vertexShaderDirty s) (m_pixelShader s) (m_pixelShaderDirty s) (m_indexBuffer s)
    (m_indexBufferDirty s) (m_vertexBuffer s) (m_vertexBufferDirty s) (m_constantBuffersInfo s)
    (m_constantBufferDirty s) (m_samplers s) (m_samplersDirty s) (m_textures s)
    (m_texturesDirty s).

Definition set_m_inputLayout (v : Input_Layout) (s : RHI_PipelineState) : RHI_PipelineState :=
  mkPipelineState (m_rhiDevice s) (m_primitiveTopology s) (m_primitiveTopologyDirty s) v
    (m_inputLayoutBuffer s) (m_inputLayoutDirty s) (m_cullMode s) (m_cullModeDirty s)
    (m_fillMode s) (m_fillModeDirty s) (m_viewport s) (m_viewportDirty s) (m_vertexShader s)
    (m_vertexShaderDirty s) (m_pixelShader s) (m_pixelShaderDirty s) (m_indexBuffer s)
    (m_indexBufferDirty s) (m_vertexBuffer s) (m_vertexBufferDirty s) (m_constantBuffersInfo s)
    (m_constantBufferDirty s) (m_samplers s) (m_samplersDirty s) (m_textures s)
    (m_texturesDirty s).

Definition set_m_inputLayoutBuffer (v : ptr) (s : RHI_PipelineState) : RHI_PipelineState :=
  mkPipelineState (m_rhiDevice s) (m_primitiveTopology s) (m_primitiveTopologyDirty s)
    (m_inputLayout s) v (m_inputLayoutDirty s) (m_cullMode s) (m_cullModeDirty s) (m_fillMode s)
    (m_fillModeDirty s) (m_viewport s) (m_viewportDirty s) (m_vertexShader s)
    (m_vertexShaderDirty s) (m_pixelShader s) (m_pixelShaderDirty s) (m_indexBuffer s)
    (m_indexBufferDirty s) (m_vertexBuffer s) (m_vertexBufferDirty s) (m_constantBuffersInfo s)
    (m_constantBufferDirty s) (m_samplers s) (m_samplersDirty s) (m_textures s)
    (m_texturesDirty s).

Definition set_m_inputLayoutDirty (v : bool) (s : RHI_PipelineState) : RHI_PipelineState :=
  mkPipelineState (m_rhiDevice s) (m_primitiveTopology s) (m_primitiveTopologyDirty s)
    (m_inputLayout s) (m_inputLayoutBuffer s) v (m_cullMode s) (m_cullModeDirty s)
    (m_fillMode s) (m_fillModeDirty s) (m_viewport s) (m_viewportDirty s) (m_vertexShader s)
    (m_vertexShaderDirty s) (m_pixelShader s) (m_pixelShaderDirty s) (m_indexBuffer s)
    (m_indexBufferDirty s) (m_vertexBuffer s) (m_vertexBufferDirty s) (m_constantBuffersInfo s)
    (m_constantBufferDirty s) (m_samplers s) (m_samplersDirty s) (m_textures s)
    (m_texturesDirty s).

Definition set_m_cullMode (v : Cull_Mode) (s : RHI_PipelineState) : RHI_PipelineState :=
  mkPipelineState (m_rhiDevice s) (m_primitiveTopology s) (m_primitiveTopologyDirty s)
    (m_inputLayout s) (m_inputLayoutBuffer s) (m_inputLayoutDirty s) v (m_cullModeDirty s)
    (m_fillMode s) (m_fillModeDirty s) (m_viewport s) (m_viewportDirty s) (m_vertexShader s)
    (m_vertexShaderDirty s) (m_pixelShader s) (m_pixelShaderDirty s) (m_indexBuffer s)
    (m_indexBufferDirty s) (m_vertexBuffer s) (m_vertexBufferDirty s) (m_constantBuffersInfo s)
    (m_constantBufferDirty s) (m_samplers s) (m_samplersDirty s) (m_textures s)
    (m_texturesDirty s).

Definition set_m_cullModeDirty (v : bool) (s : RHI_PipelineState) : RHI_PipelineState :=
  mkPipelineState (m_rhiDevice s) (m_primitiveTopology s) (m_primitiveTopologyDirty s)
    (m_inputLayout s) (m_inputLayoutBuffer s) (m_inputLayoutDirty s) (m_cullMode s) v
    (m_fillMode s) (m_fillModeDirty s) (m_viewport s) (m_viewportDirty s) (m_vertexShader s)
    (m_vertexShaderDirty s) (m_pixelShader s) (m_pixelShaderDirty s) (m_indexBuffer s)
    (m_indexBufferDirty s) (m_vertexBuffer s) (m_vertexBufferDirty s) (m_constantBuffersInfo s)
    (m_constantBufferDirty s) (m_samplers s) (m_samplersDirty s) (m_textures s)
    (m_texturesDirty s).

Definition set_m_fillMode (v : Fill_Mode) (s : RHI_PipelineState) : RHI_PipelineState :=
  mkPipelineState (m_rhiDevice s) (m_primitiveTopology s) (m_primitiveTopologyDirty s)
    (m_inputLayout s) (m_inputLayoutBuffer s) (m_inputLayoutDirty s) (m_cullMode s)
    (m_cullModeDirty s) v (m_fillModeDirty s) (m_viewport s) (m_viewportDirty s)
    (m_vertexShader s) (m_vertexShaderDirty s) (m_pixelShader s) (m_pixelShaderDirty s)
    (m_indexBuffer s) (m_indexBufferDirty s) (m_vertexBuffer s) (m_vertexBufferDirty s)
    (m_constantBuffersInfo s) (m_constantBufferDirty s) (m_samplers s) (m_samplersDirty s)
    (m_textures s) (m_texturesDirty s).

Definition set_m_fillModeDirty (v : bool) (s : RHI_PipelineState) : RHI_PipelineState :=
  mkPipelineState (m_rhiDevice s) (m_primitiveTopology s) (m_primitiveTopologyDirty s)
    (m_inputLayout s) (m_inputLayoutBuffer s) (m_inputLayoutDirty s) (m_cullMode s)
    (m_cullModeDirty s) (m_fillMode s) v (m_viewport s) (m_viewportDirty s) (m_vertexShader s)
    (m_vertexShaderDirty s) (m_pixelShader s) (m_pixelShaderDirty s) (m_indexBuffer s)
    (m_indexBufferDirty s) (m_vertexBuffer s) (m_vertexBufferDirty s) (m_constantBuffersInfo s)
    (m_constantBufferDirty s) (m_samplers s) (m_samplersDirty s) (m_textures s)
    (m_texturesDirty s).

Definition set_m_viewport (v : RHI_Viewport) (s : RHI_PipelineState) : RHI_PipelineState :=
  mkPipelineState (m_rhiDevice s) (m_primitiveTopology s) (m_primitiveTopologyDirty s)
    (m_inputLayout s) (m_inputLayoutBuffer s) (m_inputLayoutDirty s) (m_cullMode s)
    (m_cullModeDirty s) (m_fillMode s) (m_fillModeDirty s) v (m_viewportDirty s)
    (m_vertexShader s) (m_vertexShaderDirty s) (m_pixelShader s) (m_pixelShaderDirty s)
    (m_indexBuffer s) (m_indexBufferDirty s) (m_vertexBuffer s) (m_vertexBufferDirty s)
    (m_constantBuffersInfo s) (m_constantBufferDirty s) (m_samplers s) (m_samplersDirty s)
    (m_textures s) (m_texturesDirty s).

Definition set_m_viewportDirty (v : bool) (s : RHI_PipelineState) : RHI_PipelineState :=
  mkPipelineState (m_rhiDevice s) (m_primitiveTopology s) (m_primitiveTopologyDirty s)
    (m_inputLayout s) (m_inputLayoutBuffer s) (m_inputLayoutDirty s) (m_cullMode s)
    (m_cullModeDirty s) (m_fillMode s) (m_fillModeDirty s) (m_viewport s) v (m_vertexShader s)
    (m_vertexShaderDirty s) (m_pixelShader s) (m_pixelShaderDirty s) (m_indexBuffer s)
    (m_indexBufferDirty s) (m_vertexBuffer s) (m_vertexBufferDirty s) (m_constantBuffersInfo s)
    (m_constantBufferDirty s) (m_samplers s) (m_samplersDirty s) (m_textures s)
    (m_texturesDirty s).

Definition set_m_vertexShader (v : ptr) (s : RHI_PipelineState) : RHI_PipelineState :=
  mkPipelineState (m_rhiDevice s) (m_primitiveTopology s) (m_primitiveTopologyDirty s)
    (m_inputLayout s) (m_inputLayoutBuffer s) (m_inputLayoutDirty s) (m_cullMode s)
    (m_cullModeDirty s) (m_fillMode s) (m_fillModeDirty s) (m_viewport s) (m_viewportDirty s) v
    (m_vertexShaderDirty s) (m_pixelShader s) (m_pixelShaderDirty s) (m_indexBuffer s)
    (m_indexBufferDirty s) (m_vertexBuffer s) (m_vertexBufferDirty s) (m_constantBuffersInfo s)
    (m_constantBufferDirty s) (m_samplers s) (m_samplersDirty s) (m_textures s)
    (m_texturesDirty s).

Definition set_m_vertexShaderDirty (v : bool) (s : RHI_PipelineState) : RHI_PipelineState :=
  mkPipelineState (m_rhiDevice s) (m_primitiveTopology s) (m_primitiveTopologyDirty s)
    (m_inputLayout s) (m_inputLayoutBuffer s) (m_inputLayoutDirty s) (m_cullMode s)
    (m_cullModeDirty s) (m_fillMode s) (m_fillModeDirty s) (m_viewport s) (m_viewportDirty s)
    (m_vertexShader s) v (m_pixelShader s) (m_pixelShaderDirty s) (m_indexBuffer s)
    (m_indexBufferDirty s) (m_vertexBuffer s) (m_vertexBufferDirty s) (m_constantBuffersInfo s)
    (m_constantBufferDirty s) (m_samplers s) (m_samplersDirty s) (m_textures s)
    (m_texturesDirty s).

Definition set_m_pixelShader (v : ptr) (s : RHI_PipelineState) : RHI_PipelineState :=
  mkPipelineState (m_rhiDevice s) (m_primitiveTopology s) (m_primitiveTopologyDirty s)
    (m_inputLayout s) (m_inputLayoutBuffer s) (m_inputLayoutDirty s) (m_cullMode s)
    (m_cullModeDirty s) (m_fillMode s) (m_fillModeDirty s) (m_viewport s) (m_viewportDirty s)
    (m_vertexShader s) (m_vertexShaderDirty s) v (m_pixelShaderDirty s) (m_indexBuffer s)
    (m_indexBufferDirty s) (m_vertexBuffer s) (m_vertexBufferDirty s) (m_constantBuffersInfo s)
    (m_constantBufferDirty s) (m_samplers s) (m_samplersDirty s) (m_textures s)
    (m_texturesDirty s).

Definition set_m_pixelShaderDirty (v : bool) (s : RHI_PipelineState) : RHI_PipelineState :=
  mkPipelineState (m_rhiDevice s) (m_primitiveTopology s) (m_primitiveTopologyDirty s)
    (m_inputLayout s) (m_inputLayoutBuffer s) (m_inputLayoutDirty s) (m_cullMode s)
    (m_cullModeDirty s) (m_fillMode s) (m_fillModeDirty s) (m_viewport s) (m_viewportDirty s)
    (m_vertexShader s) (m_vertexShaderDirty s) (m_pixelShader s) v (m_indexBuffer s)
    (m_indexBufferDirty s) (m_vertexBuffer s) (m_vertexBufferDirty s) (m_constantBuffersInfo s)
    (m_constantBufferDirty s) (m_samplers s) (m_samplersDirty s) (m_textures s)
    (m_texturesDirty s).

Definition set_m_indexBuffer (v : option RHI_IndexBuffer) (s : RHI_PipelineState) : RHI_PipelineState :=
  mkPipelineState (m_rhiDevice s) (m_primitiveTopology s) (m_primitiveTopologyDirty s)
    (m_inputLayout s) (m_inputLayoutBuffer s) (m_inputLayoutDirty s) (m_cullMode s)
    (m_cullModeDirty s) (m_fillMode s) (m_fillModeDirty s) (m_viewport s) (m_viewportDirty s)
    (m_vertexShader s) (m_vertexShaderDirty s) (m_pixelShader s) (m_pixelShaderDirty s) v
    (m_indexBufferDirty s) (m_vertexBuffer s) (m_vertexBufferDirty s) (m_constantBuffersInfo s)
    (m_constantBufferDirty s) (m_samplers s) (m_samplersDirty s) (m_textures s)
    (m_texturesDirty s).

Definition set_m_indexBufferDirty (v : bool) (s : RHI_PipelineState) : RHI_PipelineState :=
  mkPipelineState (m_rhiDevice s) (m_primitiveTopology s) (m_primitiveTopologyDirty s)
    (m_inputLayout s) (m_inputLayoutBuffer s) (m_inputLayoutDirty s) (m_cullMode s)
    (m_cullModeDirty s) (m_fillMode s) (m_fillModeDirty s) (m_viewport s) (m_viewportDirty s)
    (m_vertexShader s) (m_vertexShaderDirty s) (m_pixelShader s) (m_pixelShaderDirty s)
    (m_indexBuffer s) v (m_vertexBuffer s) (m_vertexBufferDirty s) (m_constantBuffersInfo s)
    (m_constantBufferDirty s) (m_samplers s) (m_samplersDirty s) (m_textures s)
    (m_texturesDirty s).

Definition set_m_vertexBuffer (v : option RHI_VertexBuffer) (s : RHI_PipelineState) : RHI_PipelineState :=
  mkPipelineState (m_rhiDevice s) (m_primitiveTopology s) (m_primitiveTopologyDirty s)
    (m_inputLayout s) (m_inputLayoutBuffer s) (m_inputLayoutDirty s) (m_cullMode s)
    (m_cullModeDirty s) (m_fillMode s) (m_fillModeDirty s) (m_viewport s) (m_viewportDirty s)
    (m_vertexShader s) (m_vertexShaderDirty s) (m_pixelShader s) (m_pixelShaderDirty s)
    (m_indexBuffer s) (m_indexBufferDirty s) v (m_vertexBufferDirty s) (m_constantBuffersInfo s)
    (m_constantBufferDirty s) (m_samplers s) (m_samplersDirty s) (m_textures s)
    (m_texturesDirty s).

Definition set_m_vertexBufferDirty (v : bool) (s : RHI_PipelineState) : RHI_PipelineState :=
  mkPipelineState (m_rhiDevice s) (m_primitiveTopology s) (m_primitiveTopologyDirty s)
    (m_inputLayout s) (m_inputLayoutBuffer s) (m_inputLayoutDirty s) (m_cullMode s)
    (m_cullModeDirty s) (m_fillMode s) (m_fillModeDirty s) (m_viewport s) (m_viewportDirty s)
    (m_vertexShader s) (m_vertexShaderDirty s) (m_pixelShader s) (m_pixelShaderDirty s)
    (m_indexBuffer s) (m_indexBufferDirty s) (m_vertexBuffer s) v (m_constantBuffersInfo s)
    (m_constantBufferDirty s) (m_samplers s) (m_samplersDirty s) (m_textures s)
    (m_texturesDirty s).

Definition set_m_constantBuffersInfo (v : list ConstantBufferInfo) (s : RHI_PipelineState) : RHI_PipelineState :=
  mkPipelineState (m_rhiDevice s) (m_primitiveTopology s) (m_primitiveTopologyDirty s)
    (m_inputLayout s) (m_inputLayoutBuffer s) (m_inputLayoutDirty s) (m_cullMode s)
    (m_cullModeDirty s) (m_fillMode s) (m_fillModeDirty s) (m_viewport s) (m_viewportDirty s)
    (m_vertexShader s) (m_vertexShaderDirty s) (m_pixelShader s) (m_pixelShaderDirty s)
    (m_indexBuffer s) (m_indexBufferDirty s) (m_vertexBuffer s) (m_vertexBufferDirty s) v
    (m_constantBufferDirty s) (m_samplers s) (m_samplersDirty s) (m_textures s)
    (m_texturesDirty s).

Definition set_m_constantBufferDirty (v : bool) (s : RHI_PipelineState) : RHI_PipelineState :=
  mkPipelineState (m_rhiDevice s) (m_primitiveTopology s) (m_primitiveTopologyDirty s)
    (m_inputLayout s) (m_inputLayoutBuffer s) (m_inputLayoutDirty s) (m_cullMode s)
    (m_cullModeDirty s) (m_fillMode s) (m_fillModeDirty s) (m_viewport s) (m_viewportDirty s)
    (m_vertexShader s) (m_vertexShaderDirty s) (m_pixelShader s) (m_pixelShaderDirty s)
    (m_indexBuffer s) (m_indexBufferDirty s) (m_vertexBuffer s) (m_vertexBufferDirty s)
    (m_constantBuffersInfo s) v (m_samplers s) (m_samplersDirty s) (m_textures s)
    (m_texturesDirty s).

Definition set_m_samplers (v : list ptr) (s : RHI_PipelineState) : RHI_PipelineState :=
  mkPipelineState (m_rhiDevice s) (m_primitiveTopology s) (m_primitiveTopologyDirty s)
    (m_inputLayout s) (m_inputLayoutBuffer s) (m_inputLayoutDirty s) (m_cullMode s)
    (m_cullModeDirty s) (m_fillMode s) (m_fillModeDirty s) (m_viewport s) (m_viewportDirty s)
    (m_vertexShader s) (m_vertexShaderDirty s) (m_pixelShader s) (m_pixelShaderDirty s)
    (m_indexBuffer s) (m_indexBufferDirty s) (m_vertexBuffer s) (m_vertexBufferDirty s)
    (m_constantBuffersInfo s) (m_constantBufferDirty s) v (m_samplersDirty s) (m_textures s)
    (m_texturesDirty s).

Definition set_m_samplersDirty (v : bool) (s : RHI_PipelineState) : RHI_PipelineState :=
  mkPipelineState (m_rhiDevice s) (m_primitiveTopology s) (m_primitiveTopologyDirty s)
    (m_inputLayout s) (m_inputLayoutBuffer s) (m_inputLayoutDirty s) (m_cullMode s)
    (m_cullModeDirty s) (m_fillMode s) (m_fillModeDirty s) (m_viewport s) (m_viewportDirty s)
    (m_vertexShader s) (m_vertexShaderDirty s) (m_pixelShader s) (m_pixelShaderDirty s)
    (m_indexBuffer s) (m_indexBufferDirty s) (m_vertexBuffer s) (m_vertexBufferDirty s)
    (m_constantBuffersInfo s) (m_constantBufferDirty s) (m_samplers s) v (m_textures s)
    (m_texturesDirty s).

Definition set_m_textures (v : list ptr) (s : RHI_PipelineState) : RHI_PipelineState :=
  mkPipelineState (m_rhiDevice s) (m_primitiveTopology s) (m_primitiveTopologyDirty s)
    (m_inputLayout s) (m_inputLayoutBuffer s) (m_inputLayoutDirty s) (m_cullMode s)
    (m_cullModeDirty s) (m_fillMode s) (m_fillModeDirty s) (m_viewport s) (m_viewportDirty s)
    (m_vertexShader s) (m_vertexShaderDirty s) (m_pixelShader s) (m_pixelShaderDirty s)
    (m_indexBuffer s) (m_indexBufferDirty s) (m_vertexBuffer s) (m_vertexBufferDirty s)
    (m_constantBuffersInfo s) (m_constantBufferDirty s) (m_samplers s) (m_samplersDirty s) v
    (m_texturesDirty s).

Definition set_m_texturesDirty (v : bool) (s : RHI_PipelineState) : RHI_PipelineState :=
  mkPipelineState (m_rhiDevice s) (m_primitiveTopology s) (m_primitiveTopologyDirty s)
    (m_inputLayout s) (m_inputLayoutBuffer s) (m_inputLayoutDirty s) (m_cullMode s)
    (m_cullModeDirty s) (m_fillMode s) (m_fillModeDirty s) (m_viewport s) (m_viewportDirty s)
    (m_vertexShader s) (m_vertexShaderDirty s) (m_pixelShader s) (m_pixelShaderDirty s)
    (m_indexBuffer s) (m_indexBufferDirty s) (m_vertexBuffer s) (m_vertexBufferDirty s)
    (m_constantBuffersInfo s) (m_constantBufferDirty s) (m_samplers s) (m_samplersDirty s)
    (m_textures s) v.

(** *** What a method does to the world *)

(** The calls that reach the backend: the entry points of the device and
    the [Bind] of the two buffer objects, with their arguments. An array
    passed as pointer and count is the list of its elements. *)
Inductive BackendCall :=
| RHI_Device_SetViewport (viewport : RHI_Viewport)
| RHI_Device_Bind_VertexShader (buffer : ptr)
| RHI_Device_Bind_PixelShader (buffer : ptr)
| RHI_Device_Set_PrimitiveTopology (primitiveTopology : PrimitiveTopology_Mode)
| RHI_Device_Set_InputLayout (buffer : ptr)
| RHI_Device_Set_CullMode (cullMode : Cull_Mode)
| RHI_Device_Set_FillMode (fillMode : Fill_Mode)
| RHI_Device_Bind_Samplers (startSlot count : Z) (samplers : list ptr)
| RHI_Device_Bind_Textures (startSlot count : Z) (textures : list ptr)
| RHI_IndexBuffer_Bind (buffer : RHI_IndexBuffer)
| RHI_VertexBuffer_Bind (buffer : RHI_VertexBuffer)
| RHI_Device_Bind_ConstantBuffers (startSlot count : Z) (scope : Buffer_Scope) (buffer : ptr).

Inductive Event :=
| Log (level : Log_Level) (message : string)
| Issued (call : BackendCall).

(** The backend answers every call with success or failure. *)
Record Backend := { succeeds : BackendCall → bool }.

(** A method runs on the object ([this]) and either returns a value, the
    object as it has become and the events it produced, oldest first, or
    has no defined behaviour (a null pointer was dereferenced). *)
Inductive Outcome (A : Type) :=
| Returns (a : A) (this : RHI_PipelineState) (out : list Event)
| Undefined.
Arguments Returns {A} a this out.
Arguments Undefined {A}.

Definition Method (A : Type) : Type := RHI_PipelineState → Outcome A.

#[global] Instance Method_ret : MRet Method := λ A a s, Returns a s [].
#[global] Instance Method_bind : MBind Method := λ A B k m s,
  match m s with
  | Returns a s' out =>
      match k a s' with
      | Returns b s'' out' => Returns b s'' (out ++ out')
      | Undefined => Undefined
      end
  | Undefined => Undefined
  end.

Definition get : Method RHI_PipelineState := λ s, Returns s s [].
Definition modify (f : RHI_PipelineState → RHI_PipelineState) : Method unit :=
  λ s, Returns () (f s) [].
Definition emit (e : Event) : Method unit := λ s, Returns () s [e].
Definition undefined {A} : Method A := λ _, Undefined.
Definition LOG_WARNING (message : string) : Method unit := emit (Log Log_Warning message).
Definition LOG_ERROR (message : string) : Method unit := emit (Log Log_Error message).

(** A backend call: issued, and answered by the backend. *)
Definition call (be : Backend) (c : BackendCall) : Method bool :=
  λ s, Returns (succeeds be c) s [Issued c].

(** [if (c) { body }] *)
Definition when (c : bool) (body : Method unit) : Method unit :=
  if c then body else mret ().

(** [for (const auto& x : l) { body }] *)
Fixpoint for_each {A} (l : list A) (body : A → Method unit) : Method unit :=
  match l with
  | [] => mret ()
  | x :: l' => body x ;; for_each l' body
  end.

(** *** Construction *)

(** The members the constructor's body does not assign keep the value of
    their declaration in RHI_PipelineState.h, which is not among the
    sources: they are taken as given. The vectors start empty and the two
    buffer pointers null. *)
Record Declared := {
  declared_viewport : RHI_Viewport;
  declared_viewportDirty : bool;
  declared_primitiveTopologyDirty : bool;
  declared_inputLayoutDirty : bool;
  declared_cullModeDirty : bool;
  declared_fillModeDirty : bool
}.

Definition RHI_PipelineState_new (d : Declared) (rhiDevice : option RHI_Device)
  : RHI_PipelineState :=
  {| m_rhiDevice := rhiDevice;
     m_primitiveTopology := PrimitiveTopology_NotAssigned;
     m_primitiveTopologyDirty := declared_primitiveTopologyDirty d;
     m_inputLayout := Input_NotAssigned;
     m_inputLayoutBuffer := nullptr;
     m_inputLayoutDirty := declared_inputLayoutDirty d;
     m_cullMode := Cull_NotAssigned;
     m_cullModeDirty := declared_cullModeDirty d;
     m_fillMode := Fill_NotAssigned;
     m_fillModeDirty := declared_fillModeDirty d;
     m_viewport := declared_viewport d;
     m_viewportDirty := declared_viewportDirty d;
     m_vertexShader := nullptr;
     m_vertexShaderDirty := false;
     m_pixelShader := nullptr;
     m_pixelShaderDirty := false;
     m_indexBuffer := None;
     m_indexBufferDirty := false;
     m_vertexBuffer := None;
     m_vertexBufferDirty := false;
     m_constantBuffersInfo := [];
     m_constantBufferDirty := false;
     m_samplers := [];
     m_samplersDirty := false;
     m_textures := [];
     m_texturesDirty := false |}.

(** *** The setters *)

Definition SetConstantBuffer (constantBuffer : option RHI_ConstantBuffer)
    (slot : Z) (scope : Buffer_Scope) : Method unit :=
  match constantBuffer with
  | None => undefined
  | Some cb =>
      modify (λ s, set_m_constantBuffersInfo
        (m_constantBuffersInfo s ++ [mkConstantBufferInfo (constant_GetBuffer cb) slot scope]) s) ;;
      modify (set_m_constantBufferDirty true)
  end.

Definition SetInputLayout (inputLayout : option D3D11_InputLayout) : Method bool :=
  match inputLayout with
  | None => undefined
  | Some il =>
      s ← get;
      if bool_decide (m_inputLayout s = GetInputLayout il) then mret false
      else
        modify (set_m_inputLayout (GetInputLayout il)) ;;
        modify (set_m_inputLayoutBuffer (GetInputLayoutBuffer il)) ;;
        modify (set_m_inputLayoutDirty true) ;;
        mret true
  end.

Definition SetShader (shader : option RHI_Shader) : Method bool :=
  match shader with
  | None =>
      LOG_WARNING "RHI_PipelineState::SetShader: Invalid parameter" ;;
      mret false
  | Some sh =>
      SetInputLayout (shader_GetInputLayout sh) ;;
      when (bool_decide (is_Some (GetConstantBuffer sh)))
        (SetConstantBuffer (GetConstantBuffer sh) (GetBufferSlot sh) (GetBufferScope sh)) ;;
      modify (set_m_vertexShader (GetVertexShaderBuffer sh)) ;;
      modify (set_m_vertexShaderDirty true) ;;
      modify (set_m_pixelShader (GetPixelShaderBuffer sh)) ;;
      modify (set_m_pixelShaderDirty true) ;;
      mret true
  end.

Definition SetIndexBuffer (indexBuffer : option RHI_IndexBuffer) : Method bool :=
  match indexBuffer with
  | None =>
      LOG_WARNING "RHI_PipelineState::SetIndexBuffer: Invalid parameter" ;;
      mret false
  | Some _ =>
      modify (set_m_indexBuffer indexBuffer) ;;
      modify (set_m_indexBufferDirty true) ;;
      mret true
  end.

Definition SetVertexBuffer (vertexBuffer : option RHI_VertexBuffer) : Method bool :=
  match vertexBuffer with
  | None =>
      LOG_WARNING "RHI_PipelineState::SetVertexBuffer: Invalid parameter" ;;
      mret false
  | Some _ =>
      modify (set_m_vertexBuffer vertexBuffer) ;;
      modify (set_m_vertexBufferDirty true) ;;
      mret true
  end.

Definition SetSampler (sampler : option RHI_Sampler) : Method bool :=
  match sampler with
  | None =>
      LOG_WARNING "RHI_PipelineState::SetSampler: Invalid parameter" ;;
      mret false
  | Some sm =>
      modify (λ s, set_m_samplers (m_samplers s ++ [sampler_GetBuffer sm]) s) ;;
      modify (set_m_samplersDirty true) ;;
      mret true
  end.

(** A null texture is accepted, so that the slot order is kept. *)
Definition SetTexture (shaderResource : ptr) : Method bool :=
  modify (λ s, set_m_textures (m_textures s ++ [shaderResource]) s) ;;
  modify (set_m_texturesDirty true) ;;
  mret true.

Definition SetPrimitiveTopology (primitiveTopology : PrimitiveTopology_Mode) : Method unit :=
  s ← get;
  if bool_decide (m_primitiveTopology s = primitiveTopology) then mret ()
  else
    modify (set_m_primitiveTopology primitiveTopology) ;;
    modify (set_m_primitiveTopologyDirty true).

Definition SetCullMode (cullMode : Cull_Mode) : Method unit :=
  s ← get;
  if bool_decide (m_cullMode s = cullMode) then mret ()
  else
    modify (set_m_cullMode cullMode) ;;
    modify (set_m_cullModeDirty true).

Definition SetFillMode (fillMode : Fill_Mode) : Method unit :=
  s ← get;
  if bool_decide (m_fillMode s = fillMode) then mret ()
  else
    modify (set_m_fillMode fillMode) ;;
    modify (set_m_fillModeDirty true).

Definition SetViewport (width height : float) : Method unit :=
  s ← get;
  if SFeqb (GetWidth (m_viewport s)) width && SFeqb (GetHeight (m_viewport s)) height
  then mret ()
  else
    modify (set_m_viewport (mkViewport float_0 float_0 width height float_0 float_1)) ;;
    modify (set_m_viewportDirty true).

(** *** Bind: the commit

    Each block of [Bind] is a definition of its own, in the order of the
    source. The counters of the profiler, a separate object, are left out. *)

Section Bind.
Context (be : Backend).

Definition Bind_Viewport : Method unit :=
  s ← get;
  when (m_viewportDirty s)
    (call be (RHI_Device_SetViewport (m_viewport s)) ;;
     modify (set_m_viewportDirty false)).

Definition Bind_VertexShader : Method unit :=
  s ← get;
  when (m_vertexShaderDirty s)
    (call be (RHI_Device_Bind_VertexShader (m_vertexShader s)) ;;
     modify (set_m_vertexShaderDirty false)).

Definition Bind_PixelShader : Method unit :=
  s ← get;
  when (m_pixelShaderDirty s)
    (call be (RHI_Device_Bind_PixelShader (m_pixelShader s)) ;;
     modify (set_m_pixelShaderDirty false)).

Definition Bind_PrimitiveTopology : Method unit :=
  s ← get;
  when (m_primitiveTopologyDirty s)
    (call be (RHI_Device_Set_PrimitiveTopology (m_primitiveTopology s)) ;;
     modify (set_m_primitiveTopologyDirty false)).

Definition Bind_InputLayout : Method unit :=
  s ← get;
  when (m_inputLayoutDirty s)
    (call be (RHI_Device_Set_InputLayout (m_inputLayoutBuffer s)) ;;
     modify (set_m_inputLayoutDirty false)).

Definition Bind_CullMode : Method unit :=
  s ← get;
  when (m_cullModeDirty s)
    (call be (RHI_Device_Set_CullMode (m_cullMode s)) ;;
     modify (set_m_cullModeDirty false)).

Definition Bind_FillMode : Method unit :=
  s ← get;
  when (m_fillModeDirty s)
    (call be (RHI_Device_Set_FillMode (m_fillMode s)) ;;
     modify (set_m_fillModeDirty false)).

(** [&m_samplers[0]] is the address of the first element: the vector must
    have one. *)
Definition Bind_Samplers : Method unit :=
  s ← get;
  when (m_samplersDirty s)
    (match m_samplers s with
     | [] => undefined
     | _ :: _ =>
         let startSlot := 0 in
         call be (RHI_Device_Bind_Samplers startSlot
                    (to_uint32 (Z.of_nat (length (m_samplers s)))) (m_samplers s)) ;;
         modify (set_m_samplers []) ;;
         modify (set_m_samplersDirty false)
     end).

Definition Bind_Textures : Method unit :=
  s ← get;
  when (m_texturesDirty s)
    (match m_textures s with
     | [] => undefined
     | _ :: _ =>
         let startSlot := 0 in
         call be (RHI_Device_Bind_Textures startSlot
                    (to_uint32 (Z.of_nat (length (m_textures s)))) (m_textures s)) ;;
         modify (set_m_textures []) ;;
         modify (set_m_texturesDirty false)
     end).

Definition Bind_IndexBuffer : Method bool :=
  s ← get;
  if m_indexBufferDirty s then
    match m_indexBuffer s with
    | None => undefined
    | Some ib =>
        resultIndexBuffer ← call be (RHI_IndexBuffer_Bind ib);
        modify (set_m_indexBufferDirty false) ;;
        mret resultIndexBuffer
    end
  else mret true.

Definition Bind_VertexBuffer : Method bool :=
  s ← get;
  if m_vertexBufferDirty s then
    match m_vertexBuffer s with
    | None => undefined
    | Some vb =>
        resultVertexBuffer ← call be (RHI_VertexBuffer_Bind vb);
        modify (set_m_vertexBufferDirty false) ;;
        mret resultVertexBuffer
    end
  else mret true.

Definition Bind_ConstantBuffers : Method unit :=
  s ← get;
  when (m_constantBufferDirty s)
    (for_each (m_constantBuffersInfo s) (λ bufferInfo,
       call be (RHI_Device_Bind_ConstantBuffers
                  (m_slot bufferInfo) 1 (m_scope bufferInfo) (m_buffer bufferInfo)) ;;
       mret ()) ;;
     modify (set_m_constantBuffersInfo []) ;;
     modify (set_m_constantBufferDirty false)).

Definition Bind : Method bool :=
  s ← get;
  match m_rhiDevice s with
  | None =>
      LOG_ERROR "RHI_PipelineState::Bind: Invalid RHI_Device" ;;
      mret false
  | Some _ =>
      Bind_Viewport ;;
      Bind_VertexShader ;;
      Bind_PixelShader ;;
      Bind_PrimitiveTopology ;;
      Bind_InputLayout ;;
      Bind_CullMode ;;
      Bind_FillMode ;;
      Bind_Samplers ;;
      Bind_Textures ;;
      resultIndexBuffer ← Bind_IndexBuffer;
      resultVertexBuffer ← Bind_VertexBuffer;
      Bind_ConstantBuffers ;;
      mret (resultIndexBuffer && resultVertexBuffer)
  end.

End Bind.

(** *** Sequences of setter calls *)

Inductive SetterCall :=
| Call_SetShader (shader : option RHI_Shader)
| Call_SetIndexBuffer (indexBuffer : option RHI_IndexBuffer)
| Call_SetVertexBuffer (vertexBuffer : option RHI_VertexBuffer)
| Call_SetSampler (sampler : option RHI_Sampler)
| Call_SetTexture (shaderResource : ptr)
| Call_SetConstantBuffer (constantBuffer : option RHI_ConstantBuffer) (slot : Z)
    (scope : Buffer_Scope)
| Call_SetPrimitiveTopology (primitiveTopology : PrimitiveTopology_Mode)
| Call_SetInputLayout (inputLayout : option D3D11_InputLayout)
| Call_SetCullMode (cullMode : Cull_Mode)
| Call_SetFillMode (fillMode : Fill_Mode)
| Call_SetViewport (width height : float).

(** The call as a statement: its return value is dropped. *)
Definition run_setter (c : SetterCall) : Method unit :=
  match c with
  | Call_SetShader shader => SetShader shader ;; mret ()
  | Call_SetIndexBuffer indexBuffer => SetIndexBuffer indexBuffer ;; mret ()
  | Call_SetVertexBuffer vertexBuffer => SetVertexBuffer vertexBuffer ;; mret ()
  | Call_SetSampler sampler => SetSampler sampler ;; mret ()
  | Call_SetTexture shaderResource => SetTexture shaderResource ;; mret ()
  | Call_SetConstantBuffer constantBuffer slot scope =>
      SetConstantBuffer constantBuffer slot scope
  | Call_SetPrimitiveTopology primitiveTopology => SetPrimitiveTopology primitiveTopology
  | Call_SetInputLayout inputLayout => SetInputLayout inputLayout ;; mret ()
  | Call_SetCullMode cullMode => SetCullMode cullMode
  | Call_SetFillMode fillMode => SetFillMode fillMode
  | Call_SetViewport width height => SetViewport width height
  end.

Definition run_setters (cs : list SetterCall) : Method unit := for_each cs run_setter.

(** *** The categories of state, for the statement of the properties *)

Inductive Category :=
| Viewport | VertexShader | PixelShader | PrimitiveTopology | InputLayout | CullMode
| FillMode | Samplers | Textures | IndexBuffer | VertexBuffer | ConstantBuffers.

#[global] Instance Category_eq_dec : EqDecision Category.
Proof. solve_decision. Defined.

(** The order in which the specification lists them. *)
Definition category_order : list Category :=
  [Viewport; VertexShader; PixelShader; PrimitiveTopology; InputLayout; CullMode; FillMode;
   Samplers; Textures; IndexBuffer; VertexBuffer; ConstantBuffers].

(** The position of a category in that order. *)
Definition rank (c : Category) : nat :=
  match c with
  | Viewport => 0 | VertexShader => 1 | PixelShader => 2 | PrimitiveTopology => 3
  | InputLayout => 4 | CullMode => 5 | FillMode => 6 | Samplers => 7 | Textures => 8
  | IndexBuffer => 9 | VertexBuffer => 10 | ConstantBuffers => 11
  end.

Definition category (c : BackendCall) : Category :=
  match c with
  | RHI_Device_SetViewport _ => Viewport
  | RHI_Device_Bind_VertexShader _ => VertexShader
  | RHI_Device_Bind_PixelShader _ => PixelShader
  | RHI_Device_Set_PrimitiveTopology _ => PrimitiveTopology
  | RHI_Device_Set_InputLayout _ => InputLayout
  | RHI_Device_Set_CullMode _ => CullMode
  | RHI_Device_Set_FillMode _ => FillMode
  | RHI_Device_Bind_Samplers _ _ _ => Samplers
  | RHI_Device_Bind_Textures _ _ _ => Textures
  | RHI_IndexBuffer_Bind _ => IndexBuffer
  | RHI_VertexBuffer_Bind _ => VertexBuffer
  | RHI_Device_Bind_ConstantBuffers _ _ _ _ => ConstantBuffers
  end.

(** The dirty flag of a category. *)
Definition dirty (c : Category) (s : RHI_PipelineState) : bool :=
  match c with
  | Viewport => m_viewportDirty s
  | VertexShader => m_vertexShaderDirty s
  | PixelShader => m_pixelShaderDirty s
  | PrimitiveTopology => m_primitiveTopologyDirty s
  | InputLayout => m_inputLayoutDirty s
  | CullMode => m_cullModeDirty s
  | FillMode => m_fillModeDirty s
  | Samplers => m_samplersDirty s
  | Textures => m_texturesDirty s
  | IndexBuffer => m_indexBufferDirty s
  | VertexBuffer => m_vertexBufferDirty s
  | ConstantBuffers => m_constantBufferDirty s
  end.


(** The backend calls among the events, in order. *)
Definition issued (out : list Event) : list BackendCall :=
  omap (λ e, match e with Issued c => Some c | Log _ _ => None end) out.

(** The warnings and errors among the events. *)
Definition logged (out : list Event) : list (Log_Level * string) :=
  omap (λ e, match e with Log l m => Some (l, m) | Issued _ => None end) out.

(** The calls of one category. *)
Definition issued_in (c : Category) (out : list Event) : list BackendCall :=
  filter (λ b, category b = c) (issued out).

(** The setters raise the flag of a buffer only with the buffer in place,
    and the flag of a list only with an element in it: what [Bind] relies
    on when it dereferences them. *)
Definition consistent (s : RHI_PipelineState) : Prop :=
  (m_indexBufferDirty s = true → is_Some (m_indexBuffer s))
  ∧ (m_vertexBufferDirty s = true → is_Some (m_vertexBuffer s))
  ∧ (m_samplersDirty s = true → m_samplers s ≠ [])
  ∧ (m_texturesDirty s = true → m_textures s ≠ []).

(** *** The constant-buffer slots of the device *)





(** *** The commit in closed form

    What [Bind] sends for a category, the object it leaves and the value it
    returns, as functions of the object it is called on. The lemmas below
    show that [Bind] computes them. *)

Definition calls_of (c : Category) (s : RHI_PipelineState) : list BackendCall :=
  if dirty c s then
    match c with
    | Viewport => [RHI_Device_SetViewport (m_viewport s)]
    | VertexShader => [RHI_Device_Bind_VertexShader (m_vertexShader s)]
    | PixelShader => [RHI_Device_Bind_PixelShader (m_pixelShader s)]
    | PrimitiveTopology => [RHI_Device_Set_PrimitiveTopology (m_primitiveTopology s)]
    | InputLayout => [RHI_Device_Set_InputLayout (m_inputLayoutBuffer s)]
    | CullMode => [RHI_Device_Set_CullMode (m_cullMode s)]
    | FillMode => [RHI_Device_Set_FillMode (m_fillMode s)]
    | Samplers =>
        [RHI_Device_Bind_Samplers 0 (to_uint32 (Z.of_nat (length (m_samplers s))))
           (m_samplers s)]
    | Textures =>
        [RHI_Device_Bind_Textures 0 (to_uint32 (Z.of_nat (length (m_textures s))))
           (m_textures s)]
    | IndexBuffer => RHI_IndexBuffer_Bind <$> option_list (m_indexBuffer s)
    | VertexBuffer => RHI_VertexBuffer_Bind <$> option_list (m_vertexBuffer s)
    | ConstantBuffers =>
        (λ bufferInfo, RHI_Device_Bind_ConstantBuffers
                         (m_slot bufferInfo) 1 (m_scope bufferInfo) (m_buffer bufferInfo))
          <$> m_constantBuffersInfo s
    end
  else [].

Definition Bind_calls (s : RHI_PipelineState) : list BackendCall :=
  c ← category_order; calls_of c s.

Definition committed (s : RHI_PipelineState) : RHI_PipelineState :=
  {| m_rhiDevice := m_rhiDevice s;
     m_primitiveTopology := m_primitiveTopology s;
     m_primitiveTopologyDirty := false;
     m_inputLayout := m_inputLayout s;
     m_inputLayoutBuffer := m_inputLayoutBuffer s;
     m_inputLayoutDirty := false;
     m_cullMode := m_cullMode s;
     m_cullModeDirty := false;
     m_fillMode := m_fillMode s;
     m_fillModeDirty := false;
     m_viewport := m_viewport s;
     m_viewportDirty := false;
     m_vertexShader := m_vertexShader s;
     m_vertexShaderDirty := false;
     m_pixelShader := m_pixelShader s;
     m_pixelShaderDirty := false;
     m_indexBuffer := m_indexBuffer s;
     m_indexBufferDirty := false;
     m_vertexBuffer := m_vertexBuffer s;
     m_vertexBufferDirty := false;
     m_constantBuffersInfo :=
       if m_constantBufferDirty s then [] else m_constantBuffersInfo s;
     m_constantBufferDirty := false;
     m_samplers := if m_samplersDirty s then [] else m_samplers s;
     m_samplersDirty := false;
     m_textures := if m_texturesDirty s then [] else m_textures s;
     m_texturesDirty := false |}.

Definition Bind_result (be : Backend) (s : RHI_PipelineState) : bool :=
  forallb (succeeds be) (calls_of IndexBuffer s)
  && forallb (succeeds be) (calls_of VertexBuffer s).

(** *** Sample objects, to run the methods on *)

Definition sample_declared : Declared :=
  {| declared_viewport := mkViewport float_0 float_0 float_0 float_0 float_0 float_1;
     declared_viewportDirty := false;
     declared_primitiveTopologyDirty := false;
     declared_inputLayoutDirty := false;
     declared_cullModeDirty := false;
     declared_fillModeDirty := false |}.
Definition sample_device : RHI_Device := {| device_id := 1%N |}.
Definition sample_index_buffer : RHI_IndexBuffer := {| index_buffer := 16%N |}.
Definition sample_vertex_buffer : RHI_VertexBuffer := {| vertex_buffer := 32%N |}.
Definition sample_buffer_A : RHI_ConstantBuffer := {| constant_GetBuffer := 48%N |}.

(** A backend on which every call succeeds, and one on which every call
    fails. *)
Definition obliging_backend : Backend := {| succeeds := λ _, true |}.
Definition failing_backend : Backend := {| succeeds := λ _, false |}.

Definition sample_calls : list SetterCall :=
  [Call_SetIndexBuffer (Some sample_index_buffer);
   Call_SetVertexBuffer (Some sample_vertex_buffer);
   Call_SetPrimitiveTopology PrimitiveTopology_TriangleList;
   Call_SetCullMode Cull_Back;
   Call_SetTexture nullptr;
   Call_SetTexture 80%N;
   Call_SetConstantBuffer (Some sample_buffer_A) 2 Buffer_Global].

(** The object and the log after [sample_calls] on a new object. *)
Definition sample_configured : RHI_PipelineState * list Event :=
  Eval vm_compute in
    match run_setters sample_calls (RHI_PipelineState_new sample_declared (Some sample_device))
    with
    | Returns _ s log => (s, log)
    | Undefined => (RHI_PipelineState_new sample_declared (Some sample_device), [])
    end.

(** The same object after a [Bind] on the obliging backend: nothing is
    dirty, and the index buffer is in place. *)
Definition sample_committed : RHI_PipelineState :=
  Eval vm_compute in committed (fst sample_configured).

End Directus.

(** * Spartan: RHI_Pipeline (Vulkan) and RHI_Device (Direct3D 11) *)

Module Spartan.

(** ** Constructors and destructors as methods

    A constructor body runs on the object under construction. It either
    runs on ([Next]), leaves through a [return] statement ([Return]), or
    dereferences a null pointer ([Undefined]). *)

Section Body.
Context {T E : Type}.

Inductive Flow (A : Type) :=
| Next (a : A) (this : T) (out : list E)
| Return (this : T) (out : list E)
| Undefined.
#[global] Arguments Next {A} a this out.
#[global] Arguments Return {A} this out.
#[global] Arguments Undefined {A}.

Definition Body (A : Type) : Type := T → Flow A.

#[global] Instance Body_ret : MRet Body := λ A a t, Next a t [].
#[global] Instance Body_bind : MBind Body := λ A B k m t,
  match m t with
  | Next a t' out =>
      match k a t' with
      | Next b t'' out' => Next b t'' (out ++ out')
      | Return t'' out' => Return t'' (out ++ out')
      | Undefined => Undefined
      end
  | Return t' out => Return t' out
  | Undefined => Undefined
  end.

Definition get : Body T := λ t, Next t t [].
Definition modify (f : T → T) : Body unit := λ t, Next () (f t) [].
Definition emit (e : E) : Body unit := λ t, Next () t [e].
Definition return_ {A} : Body A := λ t, Return t [].
Definition undefined {A} : Body A := λ _, Undefined.

(** [p->...]: the pointer must not be null. *)
Definition deref {A} (p : option A) : Body A :=
  match p with
  | Some a => mret a
  | None => undefined
  end.

Definition when (c : bool) (body : Body unit) : Body unit :=
  if c then body else mret ().

(** The events of a run; none are recorded for an undefined one. *)
Definition events_of {A} (f : Flow A) : list E :=
  match f with
  | Next _ _ out | Return _ out => out
  | Undefined => []
  end.

End Body.
#[global] Arguments Flow : clear implicits.
#[global] Arguments Body : clear implicits.

(** ** Vulkan_Pipeline.cpp *)

Module Vulkan.

(** *** The engine's objects

    Each is given by what its accessors return. The engine's enumerations
    index the translation tables, and are modelled by their integer
    value. *)

Record RHI_Viewport := {
  x : float; y : float; width : float; height : float;
  depth_min : float; depth_max : float
}.

(** [Math::Rectangle]. *)
Record Rectangle := {
  rect_left : float; rect_top : float; rect_right : float; rect_bottom : float
}.

Record VertexAttribute := {
  location : Z; binding : Z; format : Z; offset : Z
}.
Record RHI_InputLayout := { GetAttributeDescriptions : list VertexAttribute }.

Record RHI_Shader := {
  GetResource : ptr;
  GetEntryPoint : option string;
  GetName : string;
  GetInputLayout : option RHI_InputLayout
}.

Record RHI_RasterizerState := {
  GetFillMode : Z; GetCullMode : Z; GetLineWidth : float; GetMultiSampleEnabled : bool
}.

Record RHI_BlendState := {
  GetBlendEnabled : bool;
  GetSourceBlend : Z; GetDestBlend : Z; GetBlendOp : Z;
  GetSourceBlendAlpha : Z; GetDestBlendAlpha : Z; GetBlendOpAlpha : Z;
  GetBlendFactor : float
}.

Record RHI_DepthStencilState := {
  GetDepthTestEnabled : bool; GetDepthWriteEnabled : bool; GetDepthFunction : Z;
  GetStencilTestEnabled : bool; GetStencilFunction : Z;
  GetStencilFailOperation : Z; GetStencilDepthFailOperation : Z;
  GetStencilPassOperation : Z
}.

(** The members of [RHI_PipelineState] the constructor reads. *)
Record RHI_PipelineState := {
  viewport : RHI_Viewport;
  scissor : Rectangle;
  dynamic_scissor : bool;
  shader_vertex : option RHI_Shader;
  shader_pixel : option RHI_Shader;
  vertex_buffer_stride : Z;
  primitive_topology : Z;
  rasterizer_state : option RHI_RasterizerState;
  blend_state : option RHI_BlendState;
  depth_stencil_state : option RHI_DepthStencilState;
  render_target_swapchain : ptr;
  render_target_color_textures : list ptr;
  dynamic_constant_buffer_slot : Z
}.

(** [GetContextRhi()] of the device: the native device and the one
    feature the constructor asks for. *)
Record RHI_Context := { device : ptr; wideLines : bool }.
Record RHI_Device := { GetContextRhi : RHI_Context }.

(** *** The structures handed to Vulkan

    The [sType] tag, [pNext] and [flags], fixed by the type of each
    structure, are left out; an array and its count are one list. *)

Inductive VkDynamicState := VK_DYNAMIC_STATE_VIEWPORT | VK_DYNAMIC_STATE_SCISSOR.
Inductive VkShaderStageFlagBits := VK_SHADER_STAGE_VERTEX_BIT | VK_SHADER_STAGE_FRAGMENT_BIT.

#[global] Instance VkDynamicState_eq_dec : EqDecision VkDynamicState.
Proof. solve_decision. Defined.
#[global] Instance VkShaderStageFlagBits_eq_dec : EqDecision VkShaderStageFlagBits.
Proof. solve_decision. Defined.

Record VkViewport := {
  vk_x : float; vk_y : float; vk_width : float; vk_height : float;
  vk_minDepth : float; vk_maxDepth : float
}.
Record VkOffset2D := { offset_x : Z; offset_y : Z }.
Record VkExtent2D := { extent_width : Z; extent_height : Z }.
Record VkRect2D := { rect_offset : VkOffset2D; rect_extent : VkExtent2D }.

Record VkPipelineDynamicStateCreateInfo := { pDynamicStates : list VkDynamicState }.
Record VkPipelineViewportStateCreateInfo := {
  pViewports : list VkViewport;
  pScissors : list VkRect2D
}.
Record VkPipelineShaderStageCreateInfo := {
  stage : VkShaderStageFlagBits;
  stage_module : ptr;
  pName : option string
}.
Record VkVertexInputBindingDescription := {
  binding_binding : Z; binding_stride : Z
}.
Record VkVertexInputAttributeDescription := {
  attribute_location : Z; attribute_binding : Z; attribute_format : Z; attribute_offset : Z
}.
Record VkPipelineVertexInputStateCreateInfo := {
  pVertexBindingDescriptions : list VkVertexInputBindingDescription;
  pVertexAttributeDescriptions : list VkVertexInputAttributeDescription
}.
Record VkPipelineInputAssemblyStateCreateInfo := {
  topology : Z;
  primitiveRestartEnable : bool
}.
Record VkPipelineRasterizationStateCreateInfo := {
  depthClampEnable : bool;
  rasterizerDiscardEnable : bool;
  polygonMode : Z;
  lineWidth : float;
  cullMode : Z;
  depthBiasEnable : bool
}.
Record VkPipelineMultisampleStateCreateInfo := { sampleShadingEnable : bool }.
Record VkPipelineColorBlendAttachmentState := {
  blendEnable : bool;
  srcColorBlendFactor : Z; dstColorBlendFactor : Z; colorBlendOp : Z;
  srcAlphaBlendFactor : Z; dstAlphaBlendFactor : Z; alphaBlendOp : Z
}.
Record VkPipelineColorBlendStateCreateInfo := {
  logicOpEnable : bool;
  pAttachments : list VkPipelineColorBlendAttachmentState;
  blendConstants : list float
}.
Record VkStencilOpState := {
  compareOp : Z; failOp : Z; depthFailOp : Z; passOp : Z
}.
Record VkPipelineDepthStencilStateCreateInfo := {
  depthTestEnable : bool; depthWriteEnable : bool; depthCompareOp : Z;
  stencilTestEnable : bool; front : VkStencilOpState; back : VkStencilOpState
}.
Record VkPipelineLayoutCreateInfo := {
  pushConstantRangeCount : Z;
  pSetLayouts : list ptr
}.
Record VkGraphicsPipelineCreateInfo := {
  pStages : list VkPipelineShaderStageCreateInfo;
  pVertexInputState : VkPipelineVertexInputStateCreateInfo;
  pInputAssemblyState : VkPipelineInputAssemblyStateCreateInfo;
  pDynamicState : option VkPipelineDynamicStateCreateInfo;
  pViewportState : VkPipelineViewportStateCreateInfo;
  pRasterizationState : VkPipelineRasterizationStateCreateInfo;
  pMultisampleState : VkPipelineMultisampleStateCreateInfo;
  pColorBlendState : VkPipelineColorBlendStateCreateInfo;
  pDepthStencilState : VkPipelineDepthStencilStateCreateInfo;
  layout : ptr;
  renderPass : ptr
}.

Definition VkResult := Z.

(** *** What the constructor takes from elsewhere

    Members of the engine declared in files that are not among the
    sources, the translation tables of RHI_Implementation.h, the numeric
    conversions, and the answers of the Vulkan driver. *)
Class Vulkan_Implementation := {
  (* RHI_PipelineState, RHI_Viewport, Math::Rectangle *)
  CreateFrameResources : option RHI_Device → RHI_PipelineState → RHI_PipelineState;
  GetRenderPass : RHI_PipelineState → ptr;
  Viewport_IsDefined : RHI_Viewport → bool;
  Rectangle_IsDefined : Rectangle → bool;
  Rectangle_Width : Rectangle → float;
  Rectangle_Height : Rectangle → float;
  state_max_render_target_count : nat;
  (* static_cast<uint32_t>, static_cast<int32_t> of a float *)
  float_to_uint32 : float → Z;
  float_to_int32 : float → Z;
  (* the translation tables *)
  vulkan_format : Z → Z;
  vulkan_primitive_topology : Z → Z;
  vulkan_polygon_mode : Z → Z;
  vulkan_cull_mode : Z → Z;
  vulkan_blend_factor : Z → Z;
  vulkan_blend_operation : Z → Z;
  vulkan_compare_operator : Z → Z;
  vulkan_stencil_operation : Z → Z;
  (* RHI_DescriptorSet: the layout it derives *)
  GetResource_Layout : list Z → option RHI_Shader → option RHI_Shader → ptr;
  (* the driver: the result, and the handle written if one is *)
  vkCreatePipelineLayout : ptr → VkPipelineLayoutCreateInfo → VkResult * option ptr;
  vkCreateGraphicsPipelines : ptr → VkGraphicsPipelineCreateInfo → VkResult * option ptr;
  (* vulkan_common::error::check *)
  error_check : VkResult → bool
}.

(** *** The pipeline object *)

Record RHI_Pipeline := mkPipeline {
  m_rhi_device : option RHI_Device;
  m_state : RHI_PipelineState;
  m_descriptor_set : option ptr;
  m_pipeline : ptr;
  m_pipeline_layout : ptr
}.

Definition set_m_rhi_device (v : option RHI_Device) (p : RHI_Pipeline) : RHI_Pipeline :=
  mkPipeline v (m_state p) (m_descriptor_set p) (m_pipeline p) (m_pipeline_layout p).
Definition set_m_state (v : RHI_PipelineState) (p : RHI_Pipeline) : RHI_Pipeline :=
  mkPipeline (m_rhi_device p) v (m_descriptor_set p) (m_pipeline p) (m_pipeline_layout p).
Definition set_m_descriptor_set (v : option ptr) (p : RHI_Pipeline) : RHI_Pipeline :=
  mkPipeline (m_rhi_device p) (m_state p) v (m_pipeline p) (m_pipeline_layout p).
Definition set_m_pipeline (v : ptr) (p : RHI_Pipeline) : RHI_Pipeline :=
  mkPipeline (m_rhi_device p) (m_state p) (m_descriptor_set p) v (m_pipeline_layout p).
Definition set_m_pipeline_layout (v : ptr) (p : RHI_Pipeline) : RHI_Pipeline :=
  mkPipeline (m_rhi_device p) (m_state p) (m_descriptor_set p) (m_pipeline p) v.

(** Modelled from the spec: the work queued on the device, which
    Vulkan_Device.cpp (not among the sources) manages. A piece of work
    references native handles until it completes. *)
Record Work := { references : list ptr }.

(** What reaches the log, the driver and the device. A release records, for
    the statement of the properties only, the work that is outstanding when
    it is issued. *)
Inductive Event :=
| Log (level : Log_Level) (message : string)
| DescriptorSet_Initialize (constant_buffer_dynamic_slots : list Z)
| Called_vkCreatePipelineLayout (device : ptr) (info : VkPipelineLayoutCreateInfo)
| Called_vkCreateGraphicsPipelines (device : ptr) (info : VkGraphicsPipelineCreateInfo)
| Called_set_pipeline_name (device : ptr) (pipeline : ptr) (name : string)
| Called_Queue_WaitAll
| Called_vkDestroyPipeline (device : ptr) (pipeline : ptr) (outstanding : list Work)
| Called_vkDestroyPipelineLayout (device : ptr) (layout : ptr) (outstanding : list Work).

Definition LOG_ERROR {T} (message : string) : Body T Event unit :=
  emit (Log Log_Error message).

Section Pipeline.
Context `{Vulkan_Implementation}.

(** [RHI_Pipeline::RHI_Pipeline(rhi_device, pipeline_state)]. The object
    starts with its members as RHI_Pipeline.h declares them. *)
Definition RHI_Pipeline_new (rhi_device : option RHI_Device)
    (pipeline_state : RHI_PipelineState) : Body RHI_Pipeline Event unit :=
  modify (set_m_rhi_device rhi_device) ;;
  modify (set_m_state pipeline_state) ;;
  modify (λ p, set_m_state (CreateFrameResources rhi_device (m_state p)) p) ;;
  this ← get;
  let m_state := m_state this in
  (* Viewport & Scissor *)
  let dynamic_states :=
    (if negb (Viewport_IsDefined (viewport m_state)) then [VK_DYNAMIC_STATE_VIEWPORT] else [])
    ++ (if dynamic_scissor m_state then [VK_DYNAMIC_STATE_SCISSOR] else []) in
  let dynamic_state := {| pDynamicStates := dynamic_states |} in
  let vkViewport :=
    {| vk_x := x (viewport m_state); vk_y := y (viewport m_state);
       vk_width := width (viewport m_state); vk_height := height (viewport m_state);
       vk_minDepth := depth_min (viewport m_state);
       vk_maxDepth := depth_max (viewport m_state) |} in
  let scissor :=
    if negb (Rectangle_IsDefined (scissor m_state)) then
      {| rect_offset := {| offset_x := 0; offset_y := 0 |};
         rect_extent := {| extent_width := float_to_uint32 (vk_width vkViewport);
                           extent_height := float_to_uint32 (vk_height vkViewport) |} |}
    else
      {| rect_offset := {| offset_x := float_to_int32 (rect_left (scissor m_state));
                           offset_y := float_to_int32 (rect_top (scissor m_state)) |};
         rect_extent :=
           {| extent_width := float_to_uint32 (Rectangle_Width (scissor m_state));
              extent_height := float_to_uint32 (Rectangle_Height (scissor m_state)) |} |} in
  let viewport_state := {| pViewports := [vkViewport]; pScissors := [scissor] |} in
  (* Vertex shader *)
  vertex_stages ←
    match shader_vertex m_state with
    | Some shader =>
        let shader_vertex_stage_info :=
          {| stage := VK_SHADER_STAGE_VERTEX_BIT;
             stage_module := GetResource shader;
             pName := GetEntryPoint shader |} in
        if bool_decide (stage_module shader_vertex_stage_info = nullptr)
           || bool_decide (pName shader_vertex_stage_info = None)
        then LOG_ERROR "Vertex shader is invalid" ;; return_
        else mret [shader_vertex_stage_info]
    | None => LOG_ERROR "Vertex shader is invalid" ;; return_
    end;
  (* Pixel shader *)
  shader_stages ←
    match shader_pixel m_state with
    | Some shader =>
        let shader_pixel_stage_info :=
          {| stage := VK_SHADER_STAGE_FRAGMENT_BIT;
             stage_module := GetResource shader;
             pName := GetEntryPoint shader |} in
        if bool_decide (stage_module shader_pixel_stage_info = nullptr)
           || bool_decide (pName shader_pixel_stage_info = None)
        then LOG_ERROR "Pixel shader is invalid" ;; return_
        else mret (vertex_stages ++ [shader_pixel_stage_info])
    | None => mret vertex_stages
    end;
  (* Binding description *)
  let binding_description :=
    {| binding_binding := 0; binding_stride := vertex_buffer_stride m_state |} in
  (* Vertex attributes description *)
  let vertex_attribute_descs :=
    match shader_vertex m_state with
    | Some shader =>
        match GetInputLayout shader with
        | Some input_layout =>
            (λ desc, {| attribute_location := location desc;
                        attribute_binding := binding desc;
                        attribute_format := vulkan_format (format desc);
                        attribute_offset := offset desc |})
              <$> GetAttributeDescriptions input_layout
        | None => []
        end
    | None => []
    end in
  (* Vertex input state *)
  let vertex_input_state :=
    {| pVertexBindingDescriptions := [binding_description];
       pVertexAttributeDescriptions := vertex_attribute_descs |} in
  (* Input assembly *)
  let input_assembly_state :=
    {| topology := vulkan_primitive_topology (primitive_topology m_state);
       primitiveRestartEnable := false |} in
  (* Rasterizer state *)
  rasterizer ← deref (rasterizer_state m_state);
  m_rhi_device ← deref (m_rhi_device this);
  let context := GetContextRhi m_rhi_device in
  let rasterizer_state :=
    {| depthClampEnable := false;
       rasterizerDiscardEnable := false;
       polygonMode := vulkan_polygon_mode (GetFillMode rasterizer);
       lineWidth := if wideLines context then GetLineWidth rasterizer else float_1;
       cullMode := vulkan_cull_mode (GetCullMode rasterizer);
       depthBiasEnable := false |} in
  (* Multisampling *)
  let multisampling_state :=
    {| sampleShadingEnable := GetMultiSampleEnabled rasterizer |} in
  (* Blend state attachments: the same blend state for all *)
  blend ← deref (blend_state m_state);
  let blend_state_attachment :=
    {| blendEnable := GetBlendEnabled blend;
       srcColorBlendFactor := vulkan_blend_factor (GetSourceBlend blend);
       dstColorBlendFactor := vulkan_blend_factor (GetDestBlend blend);
       colorBlendOp := vulkan_blend_operation (GetBlendOp blend);
       srcAlphaBlendFactor := vulkan_blend_factor (GetSourceBlendAlpha blend);
       dstAlphaBlendFactor := vulkan_blend_factor (GetDestBlendAlpha blend);
       alphaBlendOp := vulkan_blend_operation (GetBlendOpAlpha blend) |} in
  let blend_state_attachments :=
    (if bool_decide (render_target_swapchain m_state ≠ nullptr)
     then [blend_state_attachment] else [])
    ++ ((λ _, blend_state_attachment)
          <$> filter (λ texture, texture ≠ nullptr)
                (take state_max_render_target_count (render_target_color_textures m_state))) in
  let color_blend_state :=
    {| logicOpEnable := false;
       pAttachments := blend_state_attachments;
       blendConstants := replicate 4 (GetBlendFactor blend) |} in
  (* Depth-stencil state *)
  depth_stencil ← deref (depth_stencil_state m_state);
  let front :=
    {| compareOp := vulkan_compare_operator (GetStencilFunction depth_stencil);
       failOp := vulkan_stencil_operation (GetStencilFailOperation depth_stencil);
       depthFailOp := vulkan_stencil_operation (GetStencilDepthFailOperation depth_stencil);
       passOp := vulkan_stencil_operation (GetStencilPassOperation depth_stencil) |} in
  let depth_stencil_state :=
    {| depthTestEnable := GetDepthTestEnabled depth_stencil;
       depthWriteEnable := GetDepthWriteEnabled depth_stencil;
       depthCompareOp := vulkan_compare_operator (GetDepthFunction depth_stencil);
       stencilTestEnable := GetStencilTestEnabled depth_stencil;
       front := front;
       back := front |} in
  (* Pipeline layout *)
  let constant_buffer_dynamic_slots :=
    if bool_decide (dynamic_constant_buffer_slot m_state ≠ -1)
    then [to_uint32 (dynamic_constant_buffer_slot m_state)] else [] in
  emit (DescriptorSet_Initialize constant_buffer_dynamic_slots) ;;
  let vk_descriptor_set_layout :=
    GetResource_Layout constant_buffer_dynamic_slots
      (shader_vertex m_state) (shader_pixel m_state) in
  modify (set_m_descriptor_set (Some vk_descriptor_set_layout)) ;;
  let pipeline_layout_info :=
    {| pushConstantRangeCount := 0; pSetLayouts := [vk_descriptor_set_layout] |} in
  emit (Called_vkCreatePipelineLayout (device context) pipeline_layout_info) ;;
  let '(result, written) := vkCreatePipelineLayout (device context) pipeline_layout_info in
  modify (λ p, set_m_pipeline_layout (default (m_pipeline_layout p) written) p) ;;
  (if error_check result then mret () else return_) ;;
  (* Pipeline *)
  this ← get;
  let pipeline_info :=
    {| pStages := shader_stages;
       pVertexInputState := vertex_input_state;
       pInputAssemblyState := input_assembly_state;
       pDynamicState :=
         if bool_decide (dynamic_states = []) then None else Some dynamic_state;
       pViewportState := viewport_state;
       pRasterizationState := rasterizer_state;
       pMultisampleState := multisampling_state;
       pColorBlendState := color_blend_state;
       pDepthStencilState := depth_stencil_state;
       layout := m_pipeline_layout this;
       renderPass := GetRenderPass m_state |} in
  emit (Called_vkCreateGraphicsPipelines (device context) pipeline_info) ;;
  let '(result, written) := vkCreateGraphicsPipelines (device context) pipeline_info in
  modify (λ p, set_m_pipeline (default (m_pipeline p) written) p) ;;
  let _ := error_check result in
  (* Set pipeline name *)
  this ← get;
  let name :=
    String.append
      (match shader_vertex m_state with Some shader => GetName shader | None => "null" end)
      (String.append "-"
         (match shader_pixel m_state with Some shader => GetName shader | None => "null" end)) in
  emit (Called_set_pipeline_name (device context) (m_pipeline this) name).

(** Modelled from the spec: [RHI_Device::Queue_WaitAll], of
    Vulkan_Device.cpp, which is not among the sources: it "blocks until all
    queued GPU work is flushed (an idle-wait)". It takes the work
    outstanding on the queue and returns once none is left. *)
Definition Queue_WaitAll (outstanding : list Work) : list Work := [].

(** [RHI_Pipeline::~RHI_Pipeline()], run on the pipeline and the queue of
    its device. *)
Definition RHI_Pipeline_delete : Body (RHI_Pipeline * list Work) Event unit :=
  (* Wait in case the buffer is still in use *)
  '(this, _) ← get;
  m_rhi_device ← deref (m_rhi_device this);
  emit Called_Queue_WaitAll ;;
  modify (prod_map id Queue_WaitAll) ;;
  '(this, outstanding) ← get;
  emit (Called_vkDestroyPipeline (device (GetContextRhi m_rhi_device))
          (m_pipeline this) outstanding) ;;
  modify (prod_map (set_m_pipeline nullptr) id) ;;
  '(this, outstanding) ← get;
  emit (Called_vkDestroyPipelineLayout (device (GetContextRhi m_rhi_device))
          (m_pipeline_layout this) outstanding) ;;
  modify (prod_map (set_m_pipeline_layout nullptr) id).

End Pipeline.

(** *** A sample implementation and snapshot, to run the constructor on *)

(** The whole part of a non-negative finite float, 0 otherwise. *)
Definition sample_truncate (f : float) : Z :=
  match f with
  | S754_finite false m e => Z.shiftl (Z.pos m) e
  | _ => 0
  end.

Definition sample_is_zero (f : float) : bool := SFeqb f float_0.

#[local] Instance sample_implementation : Vulkan_Implementation := {|
  CreateFrameResources := λ _ state, state;
  GetRenderPass := λ _, 256%N;
  Viewport_IsDefined := λ v,
    negb (sample_is_zero (x v) && sample_is_zero (y v) && sample_is_zero (width v)
          && sample_is_zero (height v) && sample_is_zero (depth_min v)
          && sample_is_zero (depth_max v));
  Rectangle_IsDefined := λ r,
    negb (sample_is_zero (rect_left r) && sample_is_zero (rect_top r)
          && sample_is_zero (rect_right r) && sample_is_zero (rect_bottom r));
  Rectangle_Width := λ r, rect_right r;
  Rectangle_Height := λ r, rect_bottom r;
  state_max_render_target_count := 8;
  float_to_uint32 := sample_truncate;
  float_to_int32 := sample_truncate;
  vulkan_format := id;
  vulkan_primitive_topology := id;
  vulkan_polygon_mode := id;
  vulkan_cull_mode := id;
  vulkan_blend_factor := id;
  vulkan_blend_operation := id;
  vulkan_compare_operator := id;
  vulkan_stencil_operation := id;
  GetResource_Layout := λ _ _ _, 4096%N;
  vkCreatePipelineLayout := λ _ _, (0, Some 8192%N);
  vkCreateGraphicsPipelines := λ _ _, (0, Some 12288%N);
  error_check := λ result, result =? 0
|}.

Definition sample_device : RHI_Device :=
  {| GetContextRhi := {| device := 16%N; wideLines := false |} |}.

Definition sample_vertex_shader : RHI_Shader :=
  {| GetResource := 512%N; GetEntryPoint := Some "main"%string; GetName := "quad"%string;
     GetInputLayout :=
       Some {| GetAttributeDescriptions :=
                 [{| location := 0; binding := 0; format := 3; offset := 0 |}] |} |}.

(** No viewport and no scissor given, a vertex shader and no pixel
    shader, rendering to the swapchain. *)
Definition sample_state : RHI_PipelineState :=
  {| viewport := {| x := float_0; y := float_0; width := float_0; height := float_0;
                    depth_min := float_0; depth_max := float_0 |};
     scissor := {| rect_left := float_0; rect_top := float_0;
                   rect_right := float_0; rect_bottom := float_0 |};
     dynamic_scissor := false;
     shader_vertex := Some sample_vertex_shader;
     shader_pixel := None;
     vertex_buffer_stride := 32;
     primitive_topology := 0;
     rasterizer_state :=
       Some {| GetFillMode := 0; GetCullMode := 0; GetLineWidth := float_1;
               GetMultiSampleEnabled := false |};
     blend_state :=
       Some {| GetBlendEnabled := false; GetSourceBlend := 0; GetDestBlend := 0;
               GetBlendOp := 0; GetSourceBlendAlpha := 0; GetDestBlendAlpha := 0;
               GetBlendOpAlpha := 0; GetBlendFactor := float_0 |};
     depth_stencil_state :=
       Some {| GetDepthTestEnabled := true; GetDepthWriteEnabled := true;
               GetDepthFunction := 0; GetStencilTestEnabled := false;
               GetStencilFunction := 0; GetStencilFailOperation := 0;
               GetStencilDepthFailOperation := 0; GetStencilPassOperation := 0 |};
     render_target_swapchain := 1024%N;
     render_target_color_textures := replicate 8 nullptr;
     dynamic_constant_buffer_slot := -1 |}.

(** The same snapshot without a vertex shader. *)
Definition sample_state_without_vertex_shader : RHI_PipelineState :=
  {| viewport := viewport sample_state;
     scissor := scissor sample_state;
     dynamic_scissor := dynamic_scissor sample_state;
     shader_vertex := None;
     shader_pixel := shader_pixel sample_state;
     vertex_buffer_stride := vertex_buffer_stride sample_state;
     primitive_topology := primitive_topology sample_state;
     rasterizer_state := rasterizer_state sample_state;
     blend_state := blend_state sample_state;
     depth_stencil_state := depth_stencil_state sample_state;
     render_target_swapchain := render_target_swapchain sample_state;
     render_target_color_textures := render_target_color_textures sample_state;
     dynamic_constant_buffer_slot := dynamic_constant_buffer_slot sample_state |}.

(** The pipeline object before the constructor's body runs. RHI_Pipeline.h
    is not among the sources; the native handles are taken to be declared
    null, the value the destructor leaves them with. *)
Definition sample_pipeline : RHI_Pipeline :=
  {| m_rhi_device := None; m_state := sample_state; m_descriptor_set := None;
     m_pipeline := nullptr; m_pipeline_layout := nullptr |}.

(** A pipeline as the constructor leaves it on the sample snapshot. *)
Definition sample_constructed : RHI_Pipeline :=
  {| m_rhi_device := Some sample_device; m_state := sample_state;
     m_descriptor_set := Some 4096%N;
     m_pipeline := 12288%N; m_pipeline_layout := 8192%N |}.

(** Snapshots with a pixel shader, valid or not, and drivers that give
    other answers, for the other paths through the constructor. *)
Definition sample_pixel_shader : RHI_Shader :=
  {| GetResource := 768%N; GetEntryPoint := Some "main"%string; GetName := "tint"%string;
     GetInputLayout := None |}.

Definition sample_invalid_pixel_shader : RHI_Shader :=
  {| GetResource := nullptr; GetEntryPoint := Some "main"%string;
     GetName := "broken"%string; GetInputLayout := None |}.

Definition sample_state_with_pixel_shader (shader : RHI_Shader) : RHI_PipelineState :=
  {| viewport := viewport sample_state;
     scissor := scissor sample_state;
     dynamic_scissor := dynamic_scissor sample_state;
     shader_vertex := shader_vertex sample_state;
     shader_pixel := Some shader;
     vertex_buffer_stride := vertex_buffer_stride sample_state;
     primitive_topology := primitive_topology sample_state;
     rasterizer_state := rasterizer_state sample_state;
     blend_state := blend_state sample_state;
     depth_stencil_state := depth_stencil_state sample_state;
     render_target_swapchain := render_target_swapchain sample_state;
     render_target_color_textures := render_target_color_textures sample_state;
     dynamic_constant_buffer_slot := dynamic_constant_buffer_slot sample_state |}.

Definition VK_ERROR_OUT_OF_HOST_MEMORY : VkResult := -1.

(** The sample implementation with a driver that gives the two answers
    stated. *)
Definition sample_implementation_answering
    (layout_answer pipeline_answer : VkResult * option ptr) : Vulkan_Implementation := {|
  CreateFrameResources := λ _ state, state;
  GetRenderPass := λ _, 256%N;
  Viewport_IsDefined := Viewport_IsDefined (Vulkan_Implementation := sample_implementation);
  Rectangle_IsDefined := Rectangle_IsDefined (Vulkan_Implementation := sample_implementation);
  Rectangle_Width := λ r, rect_right r;
  Rectangle_Height := λ r, rect_bottom r;
  state_max_render_target_count := 8;
  float_to_uint32 := sample_truncate;
  float_to_int32 := sample_truncate;
  vulkan_format := id;
  vulkan_primitive_topology := id;
  vulkan_polygon_mode := id;
  vulkan_cull_mode := id;
  vulkan_blend_factor := id;
  vulkan_blend_operation := id;
  vulkan_compare_operator := id;
  vulkan_stencil_operation := id;
  GetResource_Layout := λ _ _ _, 4096%N;
  vkCreatePipelineLayout := λ _ _, layout_answer;
  vkCreateGraphicsPipelines := λ _ _, pipeline_answer;
  error_check := λ result, result =? 0
|}.

End Vulkan.

(** ** D3D11_Device.cpp *)

Module D3D11.

(** *** Windows and Direct3D

    The values of the SDK's constants. *)
Definition HRESULT := Z.
Definition FAILED (hr : HRESULT) : bool := hr <? 0.
Definition SUCCEEDED (hr : HRESULT) : bool := 0 <=? hr.
Definition S_OK : HRESULT := 0.
Definition DXGI_ERROR_SDK_COMPONENT_MISSING : HRESULT := 0x887A002D - 2 ^ 32.
Definition D3D11_CREATE_DEVICE_DEBUG : Z := 0x2.
Definition D3D11_REQ_TEXTURE2D_U_OR_V_DIMENSION : Z := 16384.
Definition D3D11_SDK_VERSION : Z := 7.

Inductive D3D_FEATURE_LEVEL :=
| D3D_FEATURE_LEVEL_9_1 | D3D_FEATURE_LEVEL_9_2 | D3D_FEATURE_LEVEL_9_3
| D3D_FEATURE_LEVEL_10_0 | D3D_FEATURE_LEVEL_10_1
| D3D_FEATURE_LEVEL_11_0 | D3D_FEATURE_LEVEL_11_1
| D3D_FEATURE_LEVEL_12_0 | D3D_FEATURE_LEVEL_12_1.
Inductive D3D_DRIVER_TYPE := D3D_DRIVER_TYPE_UNKNOWN | D3D_DRIVER_TYPE_HARDWARE.

(** *** The engine's objects *)

Record PhysicalDevice := { data : ptr }.
Record Settings := { settings_id : N }.
Record Context := { GetSubsystem_Settings : option Settings }.

Record RHI_Context := mkContext {
  debug : bool;
  device : ptr;
  device_context : ptr;
  annotation : ptr;
  max_texture_dimension_2d : Z
}.

Record RHI_Device := mkDevice {
  m_context : option Context;
  m_rhi_context : RHI_Context;
  m_initialized : bool
}.

Definition set_m_context (v : option Context) (d : RHI_Device) : RHI_Device :=
  mkDevice v (m_rhi_context d) (m_initialized d).
Definition set_m_rhi_context (v : RHI_Context) (d : RHI_Device) : RHI_Device :=
  mkDevice (m_context d) v (m_initialized d).
Definition set_m_initialized (v : bool) (d : RHI_Device) : RHI_Device :=
  mkDevice (m_context d) (m_rhi_context d) v.

(** Assignments through [m_rhi_context->]. *)
Definition set_max_texture_dimension_2d (v : Z) (d : RHI_Device) : RHI_Device :=
  let c := m_rhi_context d in
  set_m_rhi_context (mkContext (debug c) (device c) (device_context c) (annotation c) v) d.
Definition set_device (dev ctx : ptr) (d : RHI_Device) : RHI_Device :=
  let c := m_rhi_context d in
  set_m_rhi_context (mkContext (debug c) dev ctx (annotation c) (max_texture_dimension_2d c)) d.
Definition set_annotation (v : ptr) (d : RHI_Device) : RHI_Device :=
  let c := m_rhi_context d in
  set_m_rhi_context
    (mkContext (debug c) (device c) (device_context c) v (max_texture_dimension_2d c)) d.

Inductive Event :=
| Log (level : Log_Level) (message : string)
| Called_DetectAdapters
| Called_D3D11CreateDevice (adapter : ptr) (driver_type : D3D_DRIVER_TYPE) (flags : Z)
    (feature_levels : list D3D_FEATURE_LEVEL) (sdk_version : Z)
| Called_RegisterThirdPartyLib (name version url : string)
| Called_QueryInterface_Multithread
| Called_SetMultithreadProtected
| Called_QueryInterface_Annotation.

Definition LOG_INFO (message : string) : Body RHI_Device Event unit :=
  emit (Log Log_Info message).
Definition LOG_WARNING (message : string) : Body RHI_Device Event unit :=
  emit (Log Log_Warning message).
Definition LOG_ERROR (message : string) : Body RHI_Device Event unit :=
  emit (Log Log_Error message).

(** *** What the constructor takes from elsewhere

    The declaration of [RHI_Context], the adapters found on the machine,
    and the answers of the Direct3D runtime. *)
Class D3D11_Implementation := {
  (* make_shared<RHI_Context>(): the freshly made context; its [debug]
     member says whether debug instrumentation is requested *)
  RHI_Context_new : RHI_Context;
  (* d3d11_common::DetectAdapters and GetPrimaryPhysicalDevice *)
  GetPrimaryPhysicalDevice : option PhysicalDevice;
  (* the result, the device and the immediate context. The runtime keeps
     state between calls, so its answer to a call may differ from its answer
     to an earlier call with the same arguments: the answer is given by the
     number of creation calls made before (0 at the first attempt, 1 at the
     retry) and the arguments *)
  D3D11CreateDevice :
    nat → ptr → D3D_DRIVER_TYPE → Z → list D3D_FEATURE_LEVEL → Z → HRESULT * ptr * ptr;
  GetFeatureLevel : ptr → D3D_FEATURE_LEVEL;
  QueryInterface_Multithread : ptr → HRESULT;
  QueryInterface_Annotation : ptr → HRESULT * ptr
}.

(** The order of the feature levels that we'll try to create a device
    with. *)
Definition feature_levels : list D3D_FEATURE_LEVEL :=
  [D3D_FEATURE_LEVEL_11_1; D3D_FEATURE_LEVEL_11_0; D3D_FEATURE_LEVEL_10_1;
   D3D_FEATURE_LEVEL_10_0; D3D_FEATURE_LEVEL_9_3; D3D_FEATURE_LEVEL_9_2;
   D3D_FEATURE_LEVEL_9_1].

Section Device.
Context `{D3D11_Implementation}.

(** The [log_feature_level] lambda. *)
Definition log_feature_level (level : string) : Body RHI_Device Event unit :=
  this ← get;
  m_context ← deref (m_context this);
  settings ← deref (GetSubsystem_Settings m_context);
  emit (Called_RegisterThirdPartyLib "DirectX" level
          "https://www.microsoft.com/en-us/download/details.aspx?id=17431") ;;
  LOG_INFO "DirectX %s".

(** The [create_device] lambda, at the current value of [device_flags];
    [attempt] is the number of times it has been called before. *)
Definition create_device (attempt : nat) (adapter : ptr) (driver_type : D3D_DRIVER_TYPE)
    (device_flags : Z) (feature_levels : list D3D_FEATURE_LEVEL)
  : Body RHI_Device Event HRESULT :=
  emit (Called_D3D11CreateDevice adapter driver_type device_flags feature_levels
          D3D11_SDK_VERSION) ;;
  let '(result, device, device_context) :=
    D3D11CreateDevice attempt adapter driver_type device_flags feature_levels
      D3D11_SDK_VERSION in
  modify (set_device device device_context) ;;
  mret result.

(** [RHI_Device::RHI_Device(context)]. *)
Definition RHI_Device_new (context : option Context) : Body RHI_Device Event unit :=
  modify (set_m_context context) ;;
  modify (set_m_rhi_context RHI_Context_new) ;;
  let multithread_protection := false in
  (* Detect adapters *)
  emit Called_DetectAdapters ;;
  (* Resource limits *)
  modify (set_max_texture_dimension_2d D3D11_REQ_TEXTURE2D_U_OR_V_DIMENSION) ;;
  physical_device ←
    match GetPrimaryPhysicalDevice with
    | Some physical_device => mret physical_device
    | None => LOG_ERROR "Failed to detect any devices" ;; return_
    end;
  (* Create device *)
  this ← get;
  let device_flags := 0 in
  (* Enable debug layer *)
  let device_flags :=
    if debug (m_rhi_context this) then Z.lor device_flags D3D11_CREATE_DEVICE_DEBUG
    else device_flags in
  let adapter := data physical_device in
  let driver_type :=
    if bool_decide (adapter ≠ nullptr) then D3D_DRIVER_TYPE_UNKNOWN
    else D3D_DRIVER_TYPE_HARDWARE in
  (* Create Direct3D device and Direct3D device context. *)
  result ← create_device 0%nat adapter driver_type device_flags feature_levels;
  (* Using the D3D11_CREATE_DEVICE_DEBUG flag, requires the SDK to be installed,
     so try again without it *)
  result ←
    (if bool_decide (result = DXGI_ERROR_SDK_COMPONENT_MISSING) then
       LOG_WARNING "Failed to create device with D3D11_CREATE_DEVICE_DEBUG flags as it requires the DirectX SDK to be installed. Attempting to create a device without it." ;;
       let device_flags :=
         Z.land device_flags (to_uint32 (Z.lnot D3D11_CREATE_DEVICE_DEBUG)) in
       create_device 1%nat adapter driver_type device_flags feature_levels
     else mret result);
  (if FAILED result then LOG_ERROR "Failed to create device, %s." ;; return_ else mret ()) ;;
  (* Log feature level *)
  this ← get;
  match GetFeatureLevel (device (m_rhi_context this)) with
  | D3D_FEATURE_LEVEL_9_1 => log_feature_level "9.1"
  | D3D_FEATURE_LEVEL_9_2 => log_feature_level "9.2"
  | D3D_FEATURE_LEVEL_9_3 => log_feature_level "9.3"
  | D3D_FEATURE_LEVEL_10_0 => log_feature_level "10.0"
  | D3D_FEATURE_LEVEL_10_1 => log_feature_level "10.1"
  | D3D_FEATURE_LEVEL_11_0 => log_feature_level "11.0"
  | D3D_FEATURE_LEVEL_11_1 => log_feature_level "11.1"
  | D3D_FEATURE_LEVEL_12_0 => mret ()
  | D3D_FEATURE_LEVEL_12_1 => mret ()
  end ;;
  (* Multi-thread protection *)
  when multithread_protection
    (this ← get;
     emit Called_QueryInterface_Multithread ;;
     if SUCCEEDED (QueryInterface_Multithread (device_context (m_rhi_context this)))
     then emit Called_SetMultithreadProtected
     else LOG_ERROR "Failed to enable multi-threaded protection") ;;
  (* Annotations *)
  this ← get;
  when (debug (m_rhi_context this))
    (emit Called_QueryInterface_Annotation ;;
     let '(result, annotation) :=
       QueryInterface_Annotation (device_context (m_rhi_context this)) in
     modify (set_annotation annotation) ;;
     if FAILED result
     then LOG_ERROR "Failed to create ID3DUserDefinedAnnotation for event reporting, %s." ;;
          return_
     else mret ()) ;;
  modify (set_m_initialized true).

End Device.

(** The flags of the device-creation attempts among the events, in order,
    and the warnings logged. *)
Definition creation_attempts (out : list Event) : list Z :=
  omap (λ e, match e with
             | Called_D3D11CreateDevice _ _ flags _ _ => Some flags
             | _ => None
             end) out.
Definition warnings (out : list Event) : list string :=
  omap (λ e, match e with Log Log_Warning message => Some message | _ => None end) out.

(** *** Sample machines, to run the constructor on

    Debug instrumentation is requested, and the runtime lacks the SDK
    component: creation with the debug flag fails for that reason, and
    succeeds without it. On the first machine the annotation interface is
    there; on the second it is not ([E_NOINTERFACE]). *)
Definition E_NOINTERFACE : HRESULT := 0x80004002 - 2 ^ 32.

Definition sample_D3D11CreateDevice (attempt : nat) (adapter : ptr)
    (driver_type : D3D_DRIVER_TYPE) (flags : Z) (feature_levels : list D3D_FEATURE_LEVEL)
    (sdk_version : Z) : HRESULT * ptr * ptr :=
  if Z.testbit flags 1 then (DXGI_ERROR_SDK_COMPONENT_MISSING, nullptr, nullptr)
  else (S_OK, 256%N, 512%N).

#[local] Instance sample_machine : D3D11_Implementation := {|
  RHI_Context_new :=
    {| debug := true; device := nullptr; device_context := nullptr;
       annotation := nullptr; max_texture_dimension_2d := 0 |};
  GetPrimaryPhysicalDevice := Some {| data := 64%N |};
  D3D11CreateDevice := sample_D3D11CreateDevice;
  GetFeatureLevel := λ _, D3D_FEATURE_LEVEL_11_0;
  QueryInterface_Multithread := λ _, S_OK;
  QueryInterface_Annotation := λ _, (S_OK, 1024%N)
|}.

Definition sample_machine_without_annotation : D3D11_Implementation := {|
  RHI_Context_new := RHI_Context_new (D3D11_Implementation := sample_machine);
  GetPrimaryPhysicalDevice := GetPrimaryPhysicalDevice (D3D11_Implementation := sample_machine);
  D3D11CreateDevice := sample_D3D11CreateDevice;
  GetFeatureLevel := λ _, D3D_FEATURE_LEVEL_11_0;
  QueryInterface_Multithread := λ _, S_OK;
  QueryInterface_Annotation := λ _, (E_NOINTERFACE, nullptr)
|}.

Definition sample_context : Context :=
  {| GetSubsystem_Settings := Some {| settings_id := 1%N |} |}.

(** The device before the constructor's body runs. *)
Definition sample_device : RHI_Device :=
  {| m_context := None;
     m_rhi_context := RHI_Context_new (D3D11_Implementation := sample_machine);
     m_initialized := false |}.

(** Machines for the other paths through the constructor: the debug
    request, the primary adapter and the runtime's answer to a creation
    attempt are given; the rest is as on the sample machine. *)
Definition sample_machine_with (debug_requested : bool) (primary : option PhysicalDevice)
    (runtime : nat → ptr → D3D_DRIVER_TYPE → Z → list D3D_FEATURE_LEVEL → Z
               → HRESULT * ptr * ptr)
  : D3D11_Implementation := {|
  RHI_Context_new :=
    {| debug := debug_requested; device := nullptr; device_context := nullptr;
       annotation := nullptr; max_texture_dimension_2d := 0 |};
  GetPrimaryPhysicalDevice := primary;
  D3D11CreateDevice := runtime;
  GetFeatureLevel := λ _, D3D_FEATURE_LEVEL_11_0;
  QueryInterface_Multithread := λ _, S_OK;
  QueryInterface_Annotation := λ _, (S_OK, 1024%N)
|}.

(** A runtime that reports the SDK component missing at the first call,
    whatever the flags, and creates the device at the next. *)
Definition sample_runtime_recovering (attempt : nat) (adapter : ptr)
    (driver_type : D3D_DRIVER_TYPE) (flags : Z) (feature_levels : list D3D_FEATURE_LEVEL)
    (sdk_version : Z) : HRESULT * ptr * ptr :=
  match attempt with
  | 0%nat => (DXGI_ERROR_SDK_COMPONENT_MISSING, nullptr, nullptr)
  | _ => (S_OK, 256%N, 512%N)
  end.

End D3D11.

(** ** RHI_ConstantBuffer.h *)

Module ConstantBuffer.

(** [uint64_t]: a value below 2^64. *)
Definition to_uint64 (n : Z) : Z := n mod 2 ^ 64.

(** The members of the class, and [m_size_gpu], which it inherits from
    [RHI_Object]. The 32-bit members hold values below 2^32. *)
Record RHI_ConstantBuffer := mkConstantBuffer {
  m_is_dynamic : bool;
  m_stride : Z;
  m_element_count : Z;
  m_offset_index : Z;
  m_offset_dynamic_index : Z;
  m_rhi_device : option N;
  m_buffer : ptr;
  m_buffer_memory : ptr;
  m_size_gpu : Z
}.

Definition set_m_stride (v : Z) (b : RHI_ConstantBuffer) : RHI_ConstantBuffer :=
  mkConstantBuffer (m_is_dynamic b) v (m_element_count b) (m_offset_index b)
    (m_offset_dynamic_index b) (m_rhi_device b) (m_buffer b) (m_buffer_memory b)
    (m_size_gpu b).
Definition set_m_element_count (v : Z) (b : RHI_ConstantBuffer) : RHI_ConstantBuffer :=
  mkConstantBuffer (m_is_dynamic b) (m_stride b) v (m_offset_index b)
    (m_offset_dynamic_index b) (m_rhi_device b) (m_buffer b) (m_buffer_memory b)
    (m_size_gpu b).
Definition set_m_size_gpu (v : Z) (b : RHI_ConstantBuffer) : RHI_ConstantBuffer :=
  mkConstantBuffer (m_is_dynamic b) (m_stride b) (m_element_count b) (m_offset_index b)
    (m_offset_dynamic_index b) (m_rhi_device b) (m_buffer b) (m_buffer_memory b) v.

(** [RHI_ConstantBuffer(rhi_device, is_dynamic)], with the members as
    declared; [size_gpu] is the declared value of the inherited member. *)
Definition RHI_ConstantBuffer_new (size_gpu : Z) (rhi_device : option N) (is_dynamic : bool)
  : RHI_ConstantBuffer :=
  {| m_is_dynamic := is_dynamic;
     m_stride := 0;
     m_element_count := 1;
     m_offset_index := 0;
     m_offset_dynamic_index := 0;
     m_rhi_device := rhi_device;
     m_buffer := nullptr;
     m_buffer_memory := nullptr;
     m_size_gpu := size_gpu |}.

(** [Create<T>(element_count)]. [sizeof_T] is [sizeof(T)], a [size_t];
    [_Create], defined per graphics API and not among the sources, is a
    parameter. The product is one of two [uint32_t]: it is taken modulo 2^32
    before it is widened. *)
Definition Create (_Create : RHI_ConstantBuffer → bool * RHI_ConstantBuffer)
    (sizeof_T : Z) (element_count : Z) (this : RHI_ConstantBuffer)
  : bool * RHI_ConstantBuffer :=
  let this := set_m_stride (to_uint32 sizeof_T) this in
  let this := set_m_element_count element_count this in
  let this :=
    set_m_size_gpu (to_uint64 (to_uint32 (m_stride this * m_element_count this))) this in
  _Create this.

Definition GetResource (this : RHI_ConstantBuffer) : ptr := m_buffer this.
Definition GetStride (this : RHI_ConstantBuffer) : Z := m_stride this.
Definition GetElementCount (this : RHI_ConstantBuffer) : Z := m_element_count this.

(** Static offset: the kind of offset that is used when updating the
    buffer. *)
Definition GetOffset (this : RHI_ConstantBuffer) : Z :=
  to_uint32 (m_offset_index this * m_stride this).
Definition GetOffsetInex (this : RHI_ConstantBuffer) : Z := m_offset_index this.
Definition SetOffsetIndex (offset_index : Z) (this : RHI_ConstantBuffer)
  : RHI_ConstantBuffer :=
  mkConstantBuffer (m_is_dynamic this) (m_stride this) (m_element_count this) offset_index
    (m_offset_dynamic_index this) (m_rhi_device this) (m_buffer this) (m_buffer_memory this)
    (m_size_gpu this).

(** Dynamic offset: the kind of offset that is used before a draw call. *)
Definition IsDynamic (this : RHI_ConstantBuffer) : bool := m_is_dynamic this.
Definition GetOffsetDynamic (this : RHI_ConstantBuffer) : Z :=
  to_uint32 (m_offset_dynamic_index this * m_stride this).
Definition GetOffsetIndexDynamic (this : RHI_ConstantBuffer) : Z :=
  m_offset_dynamic_index this.
Definition SetOffsetIndexDynamic (offset_index : Z) (this : RHI_ConstantBuffer)
  : RHI_ConstantBuffer :=
  mkConstantBuffer (m_is_dynamic this) (m_stride this) (m_element_count this)
    (m_offset_index this) offset_index (m_rhi_device this) (m_buffer this)
    (m_buffer_memory this) (m_size_gpu this).

(** A [_Create] that allocates at a fixed address and succeeds. *)
Definition sample_Create (this : RHI_ConstantBuffer) : bool * RHI_ConstantBuffer :=
  (true,
   mkConstantBuffer (m_is_dynamic this) (m_stride this) (m_element_count this)
     (m_offset_index this) (m_offset_dynamic_index this) (m_rhi_device this)
     4096%N 8192%N (m_size_gpu this)).

End ConstantBuffer.

End Spartan.

(** * Directus3D: ModelImporter *)

Module ModelImporter.

(** [s.find_last_of(c)] for one character: the position of its last
    occurrence; [None] is [npos]. *)
Fixpoint find_last_of (c : ascii) (s : string) : option nat :=
  match s with
  | EmptyString => None
  | String a s' =>
      match find_last_of c s' with
      | Some i => Some (S i)
      | None => if Ascii.eqb a c then Some 0%nat else None
      end
  end.

(** What [FileSystem] (IO/FileSystem.h) and the header of the importer
    provide: they are not among the sources. *)
Section FileSystem.
Context (GetPathWithoutFileName : string → string).
Context (FileExists : string → bool).
Context (GetSupportedImageFormats : bool → list string).
Context (TEXTURE_PATH_UNKNOWN : string).

(** The loop of [TryPathWithMultipleExtensions] over the supported
    extensions, from the first. *)
Fixpoint try_extensions (fileName : string) (supportedImageExtensions : list string)
    (fullpath : string) : string :=
  match supportedImageExtensions with
  | [] => fullpath
  | extension :: rest =>
      if FileExists (String.append fileName extension)
      then String.append fileName extension
      else try_extensions fileName rest fullpath
  end.

(** [fullpath.substr(0, lastindex)]: with no dot in [fullpath],
    [lastindex], an [int], is -1, which [substr] takes as [npos]: the whole
    string. Positions are below 2^31. *)
Definition remove_extension (fullpath : string) : string :=
  match find_last_of "."%char fullpath with
  | Some lastindex => substring 0 lastindex fullpath
  | None => fullpath
  end.

Definition TryPathWithMultipleExtensions (fullpath : string) : string :=
  (* Remove extension *)
  let fileName := remove_extension fullpath in
  (* create path for a couple of different extensions *)
  let supportedImageExtensions := GetSupportedImageFormats true in
  try_extensions fileName supportedImageExtensions fullpath.

(** [FindTexture(texturePath)] on an importer whose [m_fullModelPath] is
    given. *)
Definition FindTexture (m_fullModelPath : string) (texturePath : string) : string :=
  (* The texture path is usually relative to the model *)
  let modelRootDirectory := GetPathWithoutFileName m_fullModelPath in
  let texturePath := String.append modelRootDirectory texturePath in
  (* 1. Check if the texture name is the actual path *)
  if FileExists texturePath then texturePath
  else
    (* 2. Check the same texture path as previously but this time with
       different file extensions *)
    let texturePath := TryPathWithMultipleExtensions texturePath in
    if FileExists texturePath then texturePath
    else
      (* Give up, no valid texture path was found *)
      TEXTURE_PATH_UNKNOWN.

End FileSystem.

(** [ProcessMesh]: the indices it collects from the faces of the mesh. A
    face ([aiFace]) is its array of indices. *)
Definition aiFace := list Z.

Definition ProcessMesh_indices (mFaces : list aiFace) : list Z :=
  foldl (λ indices face,
           if (length face <? 3)%nat then indices
           else foldl (λ indices index, indices ++ [index]) indices face)
    [] mFaces.

(** A directory with two files, for the texture search. *)
Definition sample_FileExists (path : string) : bool :=
  bool_decide (path ∈ ["models/car/body.png"%string; "models/car/wheel.jpg"%string]).
Definition sample_GetPathWithoutFileName (path : string) : string :=
  "models/car/"%string.
Definition sample_GetSupportedImageFormats (includeUppercase : bool) : list string :=
  [".jpg"%string; ".png"%string; ".JPG"%string; ".PNG"%string].

End ModelImporter.

(** * Properties of RHI_PipelineState *)

Section PipelineState.
Import Directus.

(** ** Running methods in sequence *)

Lemma bind_Returns {A B} (m : Method A) (k : A → Method B) s a s' out :
  m s = Returns a s' out →
  (m ≫= k) s =
    match k a s' with
    | Returns b s'' out' => Returns b s'' (out ++ out')
    | Undefined => Undefined
    end.
Proof. intros Hm. unfold mbind, Method_bind. by rewrite Hm. Qed.

Lemma bind_Undefined {A B} (m : Method A) (k : A → Method B) s :
  m s = Undefined → (m ≫= k) s = Undefined.
Proof. intros Hm. unfold mbind, Method_bind. by rewrite Hm. Qed.

Lemma bind_inv {A B} (m : Method A) (k : A → Method B) s b s'' out'' :
  (m ≫= k) s = Returns b s'' out'' →
  ∃ a s' out out', m s = Returns a s' out ∧ k a s' = Returns b s'' out'
                   ∧ out'' = out ++ out'.
Proof.
  unfold mbind, Method_bind. destruct (m s) as [a s' out|]; [|done].
  destruct (k a s') as [b' t out'|] eqn:Hk; [|done].
  intros [= -> -> <-]. by exists a, s', out, out'.
Qed.

Lemma bind_get {B} (k : RHI_PipelineState → Method B) s : (get ≫= k) s = k s s.
Proof. unfold mbind, Method_bind, get. by destruct (k s s). Qed.

Lemma for_each_calls be (l : list ConstantBufferInfo) s :
  for_each l (λ bufferInfo,
    call be (RHI_Device_Bind_ConstantBuffers
               (m_slot bufferInfo) 1 (m_scope bufferInfo) (m_buffer bufferInfo)) ;;
    mret ()) s
  = Returns () s
      (Issued <$> ((λ bufferInfo, RHI_Device_Bind_ConstantBuffers
                      (m_slot bufferInfo) 1 (m_scope bufferInfo) (m_buffer bufferInfo))
                     <$> l)).
Proof.
  induction l as [|x l IH]; [done|].
  cbn [for_each]. erewrite bind_Returns; [|reflexivity]. by rewrite IH.
Qed.

(** ** The blocks of Bind, one by one *)

Ltac run_method :=
  cbv [mbind Method_bind mret Method_ret get modify emit call when undefined
       LOG_WARNING LOG_ERROR].

Ltac destruct_list :=
  match goal with |- context [match ?l with [] => _ | _ :: _ => _ end] =>
    is_var l; destruct l end.

Ltac destruct_flag :=
  match goal with |- context [if ?b then _ else _] => is_var b; destruct b end.

Lemma Bind_Viewport_runs be s :
  Bind_Viewport be s
  = Returns () (set_m_viewportDirty false s) (Issued <$> calls_of Viewport s).
Proof.
  unfold Bind_Viewport, calls_of. run_method. destruct s as [].
  cbn. by destruct_flag.
Qed.

Lemma Bind_VertexShader_runs be s :
  Bind_VertexShader be s
  = Returns () (set_m_vertexShaderDirty false s) (Issued <$> calls_of VertexShader s).
Proof.
  unfold Bind_VertexShader, calls_of. run_method. destruct s as [].
  cbn. by destruct_flag.
Qed.

Lemma Bind_PixelShader_runs be s :
  Bind_PixelShader be s
  = Returns () (set_m_pixelShaderDirty false s) (Issued <$> calls_of PixelShader s).
Proof.
  unfold Bind_PixelShader, calls_of. run_method. destruct s as [].
  cbn. by destruct_flag.
Qed.

Lemma Bind_PrimitiveTopology_runs be s :
  Bind_PrimitiveTopology be s
  = Returns () (set_m_primitiveTopologyDirty false s)
      (Issued <$> calls_of PrimitiveTopology s).
Proof.
  unfold Bind_PrimitiveTopology, calls_of. run_method. destruct s as [].
  cbn. by destruct_flag.
Qed.

Lemma Bind_InputLayout_runs be s :
  Bind_InputLayout be s
  = Returns () (set_m_inputLayoutDirty false s) (Issued <$> calls_of InputLayout s).
Proof.
  unfold Bind_InputLayout, calls_of. run_method. destruct s as [].
  cbn. by destruct_flag.
Qed.

Lemma Bind_CullMode_runs be s :
  Bind_CullMode be s
  = Returns () (set_m_cullModeDirty false s) (Issued <$> calls_of CullMode s).
Proof.
  unfold Bind_CullMode, calls_of. run_method. destruct s as [].
  cbn. by destruct_flag.
Qed.

Lemma Bind_FillMode_runs be s :
  Bind_FillMode be s
  = Returns () (set_m_fillModeDirty false s) (Issued <$> calls_of FillMode s).
Proof.
  unfold Bind_FillMode, calls_of. run_method. destruct s as [].
  cbn. by destruct_flag.
Qed.

Lemma Bind_Samplers_runs be s :
  (m_samplersDirty s = true → m_samplers s ≠ []) →
  Bind_Samplers be s
  = Returns ()
      (set_m_samplersDirty false
         (set_m_samplers (if m_samplersDirty s then [] else m_samplers s) s))
      (Issued <$> calls_of Samplers s).
Proof.
  unfold Bind_Samplers, calls_of. run_method. destruct s as []. cbn.
  intros Hne. destruct_flag; [|done].
  destruct_list; [by destruct Hne|done].
Qed.

Lemma Bind_Textures_runs be s :
  (m_texturesDirty s = true → m_textures s ≠ []) →
  Bind_Textures be s
  = Returns ()
      (set_m_texturesDirty false
         (set_m_textures (if m_texturesDirty s then [] else m_textures s) s))
      (Issued <$> calls_of Textures s).
Proof.
  unfold Bind_Textures, calls_of. run_method. destruct s as []. cbn.
  intros Hne. destruct_flag; [|done].
  destruct_list; [by destruct Hne|done].
Qed.

Lemma Bind_IndexBuffer_runs be s :
  (m_indexBufferDirty s = true → is_Some (m_indexBuffer s)) →
  Bind_IndexBuffer be s
  = Returns (forallb (succeeds be) (calls_of IndexBuffer s))
      (set_m_indexBufferDirty false s) (Issued <$> calls_of IndexBuffer s).
Proof.
  unfold Bind_IndexBuffer, calls_of. run_method. destruct s as []. cbn.
  intros Hsome. destruct_flag; [|done].
  destruct Hsome as [ib ->]; [done|]. cbn. by rewrite andb_true_r.
Qed.

Lemma Bind_VertexBuffer_runs be s :
  (m_vertexBufferDirty s = true → is_Some (m_vertexBuffer s)) →
  Bind_VertexBuffer be s
  = Returns (forallb (succeeds be) (calls_of VertexBuffer s))
      (set_m_vertexBufferDirty false s) (Issued <$> calls_of VertexBuffer s).
Proof.
  unfold Bind_VertexBuffer, calls_of. run_method. destruct s as []. cbn.
  intros Hsome. destruct_flag; [|done].
  destruct Hsome as [vb ->]; [done|]. cbn. by rewrite andb_true_r.
Qed.

Lemma Bind_ConstantBuffers_runs be s :
  Bind_ConstantBuffers be s
  = Returns ()
      (set_m_constantBufferDirty false
         (set_m_constantBuffersInfo
            (if m_constantBufferDirty s then [] else m_constantBuffersInfo s) s))
      (Issued <$> calls_of ConstantBuffers s).
Proof.
  unfold Bind_ConstantBuffers, calls_of.
  erewrite bind_Returns; [|reflexivity]. destruct s as []. cbn [dirty m_constantBufferDirty].
  destruct_flag; [|done]. cbn [when m_constantBuffersInfo].
  erewrite bind_Returns; [|apply for_each_calls].
  run_method. cbn. by rewrite app_nil_r.
Qed.

(** ** Bind as a whole *)

Lemma Bind_calls_unfold s :
  Bind_calls s
  = calls_of Viewport s ++ calls_of VertexShader s ++ calls_of PixelShader s
    ++ calls_of PrimitiveTopology s ++ calls_of InputLayout s ++ calls_of CullMode s
    ++ calls_of FillMode s ++ calls_of Samplers s ++ calls_of Textures s
    ++ calls_of IndexBuffer s ++ calls_of VertexBuffer s ++ calls_of ConstantBuffers s.
Proof.
  unfold Bind_calls, category_order. cbn [mbind list_bind foldr]. by rewrite app_nil_r.
Qed.

Ltac step L := erewrite bind_Returns; [|apply L; try assumption].

(** On a consistent object with a device, [Bind] returns, and what it
    returns, leaves and sends is the closed form. *)
Lemma Bind_runs be s :
  consistent s → is_Some (m_rhiDevice s) →
  Bind be s = Returns (Bind_result be s) (committed s) (Issued <$> Bind_calls s).
Proof.
  intros (Hib & Hvb & Hsm & Htx) [dev Hdev]. unfold Bind.
  rewrite bind_get, Hdev. clear Hdev.
  step Bind_Viewport_runs.
  step Bind_VertexShader_runs.
  step Bind_PixelShader_runs.
  step Bind_PrimitiveTopology_runs.
  step Bind_InputLayout_runs.
  step Bind_CullMode_runs.
  step Bind_FillMode_runs.
  step Bind_Samplers_runs.
  step Bind_Textures_runs.
  step Bind_IndexBuffer_runs.
  step Bind_VertexBuffer_runs.
  step Bind_ConstantBuffers_runs.
  cbv [mret Method_ret].
  rewrite Bind_calls_unfold, !fmap_app, (app_nil_r (Issued <$> calls_of ConstantBuffers _)).
  apply (f_equal3 Returns); [reflexivity|reflexivity|].
  repeat (apply (f_equal2 app); [reflexivity|]).
  reflexivity.
Qed.

(** Without a device [Bind] only logs an error. *)
Lemma Bind_without_device be s :
  m_rhiDevice s = None →
  Bind be s
  = Returns false s [Log Log_Error "RHI_PipelineState::Bind: Invalid RHI_Device"].
Proof. intros Hdev. unfold Bind. rewrite bind_get, Hdev. reflexivity. Qed.

(** ** The setters keep the object consistent *)

Lemma consistent_new d rhiDevice : consistent (RHI_PipelineState_new d rhiDevice).
Proof. by repeat split. Qed.

Ltac unfold_setters :=
  unfold SetShader, SetInputLayout, SetConstantBuffer, SetIndexBuffer, SetVertexBuffer,
    SetSampler, SetTexture, SetPrimitiveTopology, SetCullMode, SetFillMode, SetViewport.

Lemma run_setter_consistent c s s' out :
  run_setter c s = Returns () s' out →
  consistent s → consistent s' ∧ m_rhiDevice s' = m_rhiDevice s.
Proof.
  destruct c; cbn [run_setter]; unfold_setters; run_method; cbn;
    repeat case_match; try done; intros; simplify_eq;
    match goal with H : consistent _ |- _ => destruct H as (?&?&?&?) end;
    (split; [|done]); repeat split; cbn; try done;
    try (intros _ [_ ?]%app_eq_nil; done).
Qed.

Lemma run_setters_consistent cs s s' out :
  run_setters cs s = Returns () s' out →
  consistent s → consistent s' ∧ m_rhiDevice s' = m_rhiDevice s.
Proof.
  revert s out. induction cs as [|c cs IH]; intros s out.
  - by intros [= <- <-].
  - cbn [run_setters for_each]. intros (a & t & o & o' & Hc & Hcs & ->)%bind_inv Hs.
    destruct a. destruct (run_setter_consistent _ _ _ _ Hc Hs) as [Ht Hdev].
    destruct (IH _ _ Hcs Ht) as [? ?]. split; [done|congruence].
Qed.

(** After any sequence of setter calls on a newly constructed object with
    a device, [Bind] returns. *)
Lemma Bind_after_setters be d dev cs s log :
  run_setters cs (RHI_PipelineState_new d (Some dev)) = Returns () s log →
  consistent s
  ∧ Bind be s = Returns (Bind_result be s) (committed s) (Issued <$> Bind_calls s).
Proof.
  intros Hrun.
  destruct (run_setters_consistent _ _ _ _ Hrun (consistent_new _ _)) as [Hs Hdev].
  split; [done|]. apply Bind_runs; [done|]. rewrite Hdev. by eexists.
Qed.

(** ** The calls among the events of Bind *)

Lemma issued_Issued l : issued (Issued <$> l) = l.
Proof. unfold issued. induction l as [|b l IH]; cbn; [done|]. by f_equal. Qed.

Lemma logged_Issued l : logged (Issued <$> l) = [].
Proof. unfold logged. induction l as [|b l IH]; cbn; done. Qed.

Lemma category_calls_of c s b : b ∈ calls_of c s → category b = c.
Proof.
  unfold calls_of. destruct (dirty c s); [|by intros ?%elem_of_nil].
  destruct c; intros Hin;
    repeat first
      [ apply list_elem_of_singleton in Hin as ->
      | apply list_elem_of_fmap in Hin as (? & -> & ?) ]; done.
Qed.

Lemma filter_category c c' (l : list BackendCall) :
  (∀ b, b ∈ l → category b = c') →
  filter (λ b, category b = c) l = if decide (c' = c) then l else [].
Proof.
  intros Hl. induction l as [|b l IH]; [by case_decide|].
  assert (category b = c') as Hb by (apply Hl; left).
  rewrite filter_cons, IH by (intros; apply Hl; by right).
  repeat case_decide; congruence.
Qed.

Lemma issued_in_Bind c s : issued_in c (Issued <$> Bind_calls s) = calls_of c s.
Proof.
  unfold issued_in. rewrite issued_Issued, Bind_calls_unfold, !filter_app.
  rewrite !(filter_category c _ (calls_of _ s)) by apply category_calls_of.
  destruct c; cbn; by rewrite ?app_nil_r.
Qed.

Lemma dirty_committed c s : dirty c (committed s) = false.
Proof. by destruct c. Qed.


(** ** What Bind returns *)

Lemma Bind_result_true be s :
  Bind_result be s = true
  ↔ ∀ b, b ∈ calls_of IndexBuffer s ++ calls_of VertexBuffer s → succeeds be b = true.
Proof.
  unfold Bind_result. rewrite andb_true_iff, <-!Is_true_true, !forallb_True, !Forall_forall.
  setoid_rewrite elem_of_app. setoid_rewrite Is_true_true. split.
  - intros [Hib Hvb] b [?|?]; auto.
  - intros Hall. split; intros b ?; apply Hall; auto.
Qed.

Lemma calls_of_buffer_nil s :
  consistent s →
  (calls_of IndexBuffer s = [] ↔ m_indexBufferDirty s = false)
  ∧ (calls_of VertexBuffer s = [] ↔ m_vertexBufferDirty s = false).
Proof.
  intros (Hib & Hvb & _ & _). unfold calls_of; cbn [dirty]. split.
  - destruct (m_indexBufferDirty s); [|done]. destruct Hib as [ib ->]; done.
  - destruct (m_vertexBufferDirty s); [|done]. destruct Hvb as [vb ->]; done.
Qed.

Lemma Bind_result_agree be be' s :
  (∀ ib, succeeds be' (RHI_IndexBuffer_Bind ib) = succeeds be (RHI_IndexBuffer_Bind ib)) →
  (∀ vb, succeeds be' (RHI_VertexBuffer_Bind vb) = succeeds be (RHI_VertexBuffer_Bind vb)) →
  Bind_result be' s = Bind_result be s.
Proof.
  intros Hib Hvb. unfold Bind_result, calls_of; cbn [dirty]. f_equal.
  - destruct (m_indexBufferDirty s), (m_indexBuffer s); cbn; by rewrite ?Hib.
  - destruct (m_vertexBufferDirty s), (m_vertexBuffer s); cbn; by rewrite ?Hvb.
Qed.

(** Claim C1. On every object that is consistent and has a device, after
    any sequence of setter calls, [Bind] returns, and it returns [true]
    exactly when every index-buffer and vertex-buffer bind it issued
    succeeded. The bind of a buffer is issued exactly when the flag of the
    buffer is set, and it is the bind of the buffer stored: with the flag
    clear nothing is bound, also when a buffer is stored, as after an
    earlier [Bind]. The answers of the backend to the calls of the other
    categories do not enter the result: on a backend that answers the two
    buffer binds alike, [Bind] returns the same value. A newly constructed
    object is consistent ([consistent_new]), and the object [Bind] leaves is
    consistent and has the device: the statement applies to every object
    reached from a new one with a device by setter calls and [Bind]s. *)
Theorem Bind_returns_whether_buffers_bound be s0 cs s log :
  consistent s0 →
  is_Some (m_rhiDevice s0) →
  run_setters cs s0 = Returns () s log →
  ∃ r s' out,
    Bind be s = Returns r s' out
    ∧ (r = true ↔
       ∀ b, b ∈ issued_in IndexBuffer out ++ issued_in VertexBuffer out →
            succeeds be b = true)
    ∧ issued_in IndexBuffer out
      = (if m_indexBufferDirty s then RHI_IndexBuffer_Bind <$> option_list (m_indexBuffer s)
         else [])
    ∧ issued_in VertexBuffer out
      = (if m_vertexBufferDirty s
         then RHI_VertexBuffer_Bind <$> option_list (m_vertexBuffer s)
         else [])
    ∧ (issued_in IndexBuffer out = [] ↔ m_indexBufferDirty s = false)
    ∧ (issued_in VertexBuffer out = [] ↔ m_vertexBufferDirty s = false)
    ∧ (∀ be',
         (∀ ib, succeeds be' (RHI_IndexBuffer_Bind ib)
                = succeeds be (RHI_IndexBuffer_Bind ib)) →
         (∀ vb, succeeds be' (RHI_VertexBuffer_Bind vb)
                = succeeds be (RHI_VertexBuffer_Bind vb)) →
         ∃ s'' out', Bind be' s = Returns r s'' out')
    ∧ consistent s'
    ∧ is_Some (m_rhiDevice s')
    ∧ m_indexBufferDirty s' = false
    ∧ m_vertexBufferDirty s' = false
    ∧ m_indexBuffer s' = m_indexBuffer s
    ∧ m_vertexBuffer s' = m_vertexBuffer s.
Proof.
  intros Hs0 Hdev0 Hrun.
  destruct (run_setters_consistent _ _ _ _ Hrun Hs0) as [Hs Hdev].
  assert (is_Some (m_rhiDevice s)) as Hdevice by (by rewrite Hdev).
  eexists _, _, _. split; [exact (Bind_runs be s Hs Hdevice)|]. rewrite !issued_in_Bind.
  split; [apply Bind_result_true|].
  do 2 (split; [reflexivity|]).
  destruct (calls_of_buffer_nil s Hs) as [? ?]. do 2 (split; [done|]).
  split.
  - intros be' Hib Hvb. eexists _, _. rewrite (Bind_runs be' s Hs Hdevice).
    by rewrite (Bind_result_agree be be').
  - split; [by repeat split|]. by repeat split.
Qed.

Lemma Bind_returns_whether_buffers_bound_witness :
  consistent sample_committed
  ∧ is_Some (m_rhiDevice sample_committed)
  ∧ run_setters [Call_SetCullMode Cull_None] sample_committed
    = Returns () (set_m_cullModeDirty true (set_m_cullMode Cull_None sample_committed)) []
  ∧ m_indexBuffer sample_committed = Some sample_index_buffer
  ∧ ∃ s' out,
      Bind failing_backend
        (set_m_cullModeDirty true (set_m_cullMode Cull_None sample_committed))
      = Returns true s' out
      ∧ issued_in IndexBuffer out = []
      ∧ issued_in VertexBuffer out = [].
Proof.
  assert (consistent sample_committed) as Hconsistent by (by repeat split).
  assert (is_Some (m_rhiDevice sample_committed)) as Hdevice by (by eexists).
  split; [exact Hconsistent|]. split; [exact Hdevice|]. split; [reflexivity|].
  split; [reflexivity|].
  destruct (Bind_returns_whether_buffers_bound failing_backend sample_committed
              [Call_SetCullMode Cull_None]
              (set_m_cullModeDirty true (set_m_cullMode Cull_None sample_committed)) []
              Hconsistent Hdevice eq_refl)
    as (r & s' & out & HBind & Hresult & Hindex & Hvertex & _).
  assert (r = true) as ->.
  { apply Hresult. rewrite Hindex, Hvertex. by intros b ?%elem_of_nil. }
  by exists s', out.
Defined.










(** ** The setters *)

(** Claim C4, as amended. The setters that compare, [SetPrimitiveTopology],
    [SetInputLayout], [SetCullMode], [SetFillMode] and [SetViewport], leave
    the whole object untouched, flag included, when given the value it
    holds ([SetViewport]: a width and a height equal as floats to the ones
    it holds). Hence [SetCullMode] with the same value twice and then [Bind]
    does what [SetCullMode] once and then [Bind] does. The other six do not
    compare. Given a buffer, [SetIndexBuffer] and [SetVertexBuffer] store it
    and raise their flag, whatever is stored; given a shader with an input
    layout, [SetShader] stores its two shaders and raises their two flags;
    given a sampler, [SetSampler] appends it and raises its flag, as
    [SetTexture] does with any texture and [SetConstantBuffer] with a
    constant buffer. Given a null pointer, [SetShader], [SetIndexBuffer],
    [SetVertexBuffer] and [SetSampler] log a warning, return [false] and
    leave the whole object untouched. *)
Theorem comparing_setters_elide_equal_values s :
  SetPrimitiveTopology (m_primitiveTopology s) s = Returns () s []
  ∧ (∀ inputLayout,
       GetInputLayout inputLayout = m_inputLayout s →
       SetInputLayout (Some inputLayout) s = Returns false s [])
  ∧ SetCullMode (m_cullMode s) s = Returns () s []
  ∧ SetFillMode (m_fillMode s) s = Returns () s []
  ∧ (∀ width height,
       SFeqb (GetWidth (m_viewport s)) width = true →
       SFeqb (GetHeight (m_viewport s)) height = true →
       SetViewport width height s = Returns () s [])
  ∧ (∀ be cullMode,
       (SetCullMode cullMode ;; SetCullMode cullMode ;; Bind be) s
       = (SetCullMode cullMode ;; Bind be) s)
  ∧ (∀ indexBuffer,
       SetIndexBuffer (Some indexBuffer) s
       = Returns true (set_m_indexBufferDirty true (set_m_indexBuffer (Some indexBuffer) s))
           [])
  ∧ (∀ vertexBuffer,
       SetVertexBuffer (Some vertexBuffer) s
       = Returns true
           (set_m_vertexBufferDirty true (set_m_vertexBuffer (Some vertexBuffer) s)) [])
  ∧ (∀ shader inputLayout,
       shader_GetInputLayout shader = Some inputLayout →
       ∃ s', SetShader (Some shader) s = Returns true s' []
             ∧ m_vertexShader s' = GetVertexShaderBuffer shader
             ∧ m_vertexShaderDirty s' = true
             ∧ m_pixelShader s' = GetPixelShaderBuffer shader
             ∧ m_pixelShaderDirty s' = true)
  ∧ (∀ sampler,
       SetSampler (Some sampler) s
       = Returns true
           (set_m_samplersDirty true
              (set_m_samplers (m_samplers s ++ [sampler_GetBuffer sampler]) s)) [])
  ∧ (∀ shaderResource,
       SetTexture shaderResource s
       = Returns true
           (set_m_texturesDirty true (set_m_textures (m_textures s ++ [shaderResource]) s))
           [])
  ∧ (∀ constantBuffer slot scope,
       SetConstantBuffer (Some constantBuffer) slot scope s
       = Returns ()
           (set_m_constantBufferDirty true
              (set_m_constantBuffersInfo
                 (m_constantBuffersInfo s
                  ++ [mkConstantBufferInfo (constant_GetBuffer constantBuffer) slot scope])
                 s)) [])
  ∧ SetShader None s
    = Returns false s [Log Log_Warning "RHI_PipelineState::SetShader: Invalid parameter"]
  ∧ SetIndexBuffer None s
    = Returns false s [Log Log_Warning "RHI_PipelineState::SetIndexBuffer: Invalid parameter"]
  ∧ SetVertexBuffer None s
    = Returns false s
        [Log Log_Warning "RHI_PipelineState::SetVertexBuffer: Invalid parameter"]
  ∧ SetSampler None s
    = Returns false s [Log Log_Warning "RHI_PipelineState::SetSampler: Invalid parameter"].
Proof.
  split; [|split; [|split; [|split; [|split; [|split]]]]].
  - unfold SetPrimitiveTopology. rewrite bind_get. by rewrite bool_decide_eq_true_2.
  - intros il Hil. unfold SetInputLayout. rewrite bind_get.
    by rewrite bool_decide_eq_true_2.
  - unfold SetCullMode. rewrite bind_get. by rewrite bool_decide_eq_true_2.
  - unfold SetFillMode. rewrite bind_get. by rewrite bool_decide_eq_true_2.
  - intros w h Hw Hh. unfold SetViewport. rewrite bind_get. by rewrite Hw, Hh.
  - intros be X.
    assert (∃ s1, SetCullMode X s = Returns () s1 [] ∧ SetCullMode X s1 = Returns () s1 [])
      as (s1 & H1 & H2).
    { unfold SetCullMode. rewrite bind_get. case_bool_decide as HX.
      - exists s. split; [done|]. rewrite bind_get. by rewrite bool_decide_eq_true_2.
      - eexists. split; [reflexivity|]. rewrite bind_get.
        by rewrite bool_decide_eq_true_2. }
    rewrite !(bind_Returns _ _ _ _ _ _ H1), (bind_Returns _ _ _ _ _ _ H2).
    by destruct (Bind be s1).
  - split; [done|]. split; [done|]. split; [|done].
    intros shader il Hil. unfold SetShader. rewrite Hil. unfold_setters. run_method. cbn.
    destruct (bool_decide (m_inputLayout s = GetInputLayout il));
      destruct (GetConstantBuffer shader); cbn; by eexists.
Qed.

Lemma comparing_setters_elide_equal_values_witness :
  SFeqb (GetWidth (m_viewport sample_committed)) (S754_zero true) = true
  ∧ SFeqb (GetHeight (m_viewport sample_committed)) float_0 = true
  ∧ SetViewport (S754_zero true) float_0 sample_committed = Returns () sample_committed [].
Proof.
  split; [reflexivity|]. split; [reflexivity|].
  destruct (comparing_setters_elide_equal_values sample_committed)
    as (_ & _ & _ & _ & Hviewport & _).
  apply Hviewport; reflexivity.
Defined.


(** Claim C4 as stated fails: [SetIndexBuffer] with the buffer the object
    already holds raises the flag of the index buffer, here after a [Bind]
    had cleared it. *)
Lemma SetIndexBuffer_raises_flag_on_same_buffer :
  ¬ (∀ be d dev cs s0 log r0 s out0 indexBuffer r s' out,
       run_setters cs (RHI_PipelineState_new d (Some dev)) = Returns () s0 log →
       Bind be s0 = Returns r0 s out0 →
       m_indexBuffer s = Some indexBuffer →
       SetIndexBuffer (Some indexBuffer) s = Returns r s' out →
       m_indexBufferDirty s' = m_indexBufferDirty s).
Proof.
  intros H.
  assert (Bind obliging_backend (fst sample_configured)
          = Returns true sample_committed
              (Issued <$> Bind_calls (fst sample_configured))) as HBind
    by (vm_compute; reflexivity).
  specialize (H obliging_backend sample_declared sample_device sample_calls
    (fst sample_configured) (snd sample_configured) true sample_committed _
    sample_index_buffer true
    (set_m_indexBufferDirty true
       (set_m_indexBuffer (Some sample_index_buffer) sample_committed)) []
    eq_refl HBind eq_refl eq_refl).
  discriminate H.
Qed.

(** Claim C6, at the failing input: [SetConstantBuffer], and
    [SetInputLayout], dereference their argument without a check, so on a
    null argument their behaviour is undefined, where the claim wants a
    failure returned and the object unchanged. *)
Theorem SetConstantBuffer_dereferences_null s slot scope :
  SetConstantBuffer None slot scope s = Undefined
  ∧ SetInputLayout None s = Undefined.
Proof. done. Qed.

(** The setters that check their argument reject a null one and leave the
    object as it is; a null texture is appended. *)
Lemma checked_setters_reject_null s :
  SetShader None s
  = Returns false s [Log Log_Warning "RHI_PipelineState::SetShader: Invalid parameter"]
  ∧ SetIndexBuffer None s
    = Returns false s [Log Log_Warning "RHI_PipelineState::SetIndexBuffer: Invalid parameter"]
  ∧ SetVertexBuffer None s
    = Returns false s
        [Log Log_Warning "RHI_PipelineState::SetVertexBuffer: Invalid parameter"]
  ∧ SetSampler None s
    = Returns false s [Log Log_Warning "RHI_PipelineState::SetSampler: Invalid parameter"]
  ∧ SetTexture nullptr s
    = Returns true (set_m_texturesDirty true (set_m_textures (m_textures s ++ [nullptr]) s))
        [].
Proof. done. Qed.

(** ** Constant buffers at one slot *)





End PipelineState.

(** * Properties of RHI_Pipeline *)

Section Pipeline.
Import Spartan Spartan.Vulkan.

Ltac run_body :=
  cbv [mbind Body_bind mret Body_ret get modify emit return_ undefined deref when
       LOG_ERROR].

(** ** Destruction *)

(** Claim C7. The destructor of a pipeline with a device first waits on the
    queue, then releases the pipeline object, then the pipeline layout, and
    leaves both handles null. At each of the two releases no work
    referencing the released handle is outstanding. *)
Theorem RHI_Pipeline_delete_waits_before_releasing this rhi_device outstanding :
  m_rhi_device this = Some rhi_device →
  let device := device (GetContextRhi rhi_device) in
  ∃ out,
    RHI_Pipeline_delete (this, outstanding)
    = Next () (set_m_pipeline_layout nullptr (set_m_pipeline nullptr this),
               Queue_WaitAll outstanding) out
    ∧ out = [Called_Queue_WaitAll;
             Called_vkDestroyPipeline device (m_pipeline this) (Queue_WaitAll outstanding);
             Called_vkDestroyPipelineLayout device (m_pipeline_layout this)
               (Queue_WaitAll outstanding)]
    ∧ ∀ e, e ∈ out →
        match e with
        | Called_vkDestroyPipeline _ handle still_outstanding
        | Called_vkDestroyPipelineLayout _ handle still_outstanding =>
            ∀ work, work ∈ still_outstanding → handle ∉ references work
        | _ => True
        end.
Proof.
  intros Hdev device. eexists. split; [|split; [reflexivity|]].
  - unfold RHI_Pipeline_delete. run_body. cbn. rewrite Hdev. reflexivity.
  - intros e He.
    repeat (apply elem_of_cons in He as [->|He]); [done| | |by apply elem_of_nil in He].
    all: by intros work ?%elem_of_nil.
Qed.

Lemma RHI_Pipeline_delete_waits_before_releasing_witness :
  m_rhi_device sample_constructed = Some sample_device
  ∧ ∃ this out,
      RHI_Pipeline_delete
        (sample_constructed, [{| references := [12288%N] |}; {| references := [8192%N] |}])
      = Next () (this, []) out
      ∧ m_pipeline this = nullptr ∧ m_pipeline_layout this = nullptr.
Proof.
  split; [reflexivity|].
  destruct (RHI_Pipeline_delete_waits_before_releasing sample_constructed sample_device
              [{| references := [12288%N] |}; {| references := [8192%N] |}] eq_refl)
    as (out & Hrun & _).
  by eexists _, out.
Defined.

(** ** Construction *)

Section Construction.
Context `{Vulkan_Implementation}.

Ltac absurd_event :=
  let Hin := fresh "Hin" in
  cbn [events_of app]; intros Hin;
  repeat (apply elem_of_cons in Hin as [Hin|Hin]; [discriminate Hin|]);
  by apply elem_of_nil in Hin.



(** Claim C10. If the snapshot the pipeline holds has no vertex shader, or
    one whose module or entry point is null, the constructor logs the error
    and returns at once: nothing is asked of the driver and the two native
    handles keep the value of their declaration. Without a pixel shader,
    and with a valid vertex shader, the sub-states and the device in place
    and the layout accepted by the driver, the constructor runs to its end
    and asks the driver for a pipeline with the vertex stage alone. *)
Theorem RHI_Pipeline_new_shader_stages rhi_device pipeline_state this0 :
  let m_state := CreateFrameResources rhi_device pipeline_state in
  ((shader_vertex m_state = None
    ∨ ∃ shader, shader_vertex m_state = Some shader
                ∧ (GetResource shader = nullptr ∨ GetEntryPoint shader = None)) →
   ∃ this,
     RHI_Pipeline_new rhi_device pipeline_state this0
     = Return this [Log Log_Error "Vertex shader is invalid"]
     ∧ m_pipeline this = m_pipeline this0
     ∧ m_pipeline_layout this = m_pipeline_layout this0)
  ∧ (∀ shader entry rasterizer blend depth_stencil device_,
       shader_vertex m_state = Some shader →
       GetResource shader ≠ nullptr →
       GetEntryPoint shader = Some entry →
       shader_pixel m_state = None →
       rasterizer_state m_state = Some rasterizer →
       blend_state m_state = Some blend →
       depth_stencil_state m_state = Some depth_stencil →
       rhi_device = Some device_ →
       (∀ d info, error_check (vkCreatePipelineLayout d info).1 = true) →
       ∃ this out1 info out2,
         RHI_Pipeline_new rhi_device pipeline_state this0
         = Next () this
             (out1 ++ Called_vkCreateGraphicsPipelines
                        (device (GetContextRhi device_)) info :: out2)
         ∧ pStages info
           = [{| stage := VK_SHADER_STAGE_VERTEX_BIT;
                 stage_module := GetResource shader;
                 pName := GetEntryPoint shader |}]).
Proof.
  intros m_state. split.
  - intros Hvs. unfold RHI_Pipeline_new. run_body.
    cbn [Vulkan.m_state set_m_state set_m_rhi_device]. fold m_state.
    destruct Hvs as [->|(shader & -> & Hshader)]; [by eexists|].
    assert (bool_decide (GetResource shader = nullptr)
            || bool_decide (GetEntryPoint shader = None) = true) as Hb.
    { destruct Hshader as [->| ->]; rewrite ?bool_decide_eq_true_2 by done;
        [done|apply orb_true_r]. }
    cbn [stage_module pName]. rewrite Hb. by eexists.
  - intros vs entry rs bs dss ctx Hvs Hres Hentry Hps Hrs Hbs Hdss -> Hcheck.
    unfold RHI_Pipeline_new. run_body.
    cbn [Vulkan.m_state set_m_state set_m_rhi_device m_rhi_device]. fold m_state.
    rewrite Hvs, Hps, Hrs, Hbs, Hdss. cbn [stage_module pName].
    rewrite (bool_decide_eq_false_2 (GetResource vs = nullptr)) by done.
    rewrite Hentry, (bool_decide_eq_false_2 (Some entry = None)) by done.
    cbn [orb app].
    match goal with |- context [vkCreatePipelineLayout ?d ?i] =>
      pose proof (Hcheck d i) as Hc;
      destruct (vkCreatePipelineLayout d i) as [result written]
    end.
    cbn [fst] in Hc. rewrite Hc.
    match goal with |- context [vkCreateGraphicsPipelines ?d ?i] =>
      destruct (vkCreateGraphicsPipelines d i) as [result' written']
    end.
    cbn [app]. eexists _, [_; _], _, [_]. split; reflexivity.
Qed.

End Construction.

Lemma RHI_Pipeline_new_shader_stages_witness :
  (∃ this,
     RHI_Pipeline_new (H := sample_implementation) (Some sample_device)
       sample_state_without_vertex_shader sample_pipeline
     = Return this [Log Log_Error "Vertex shader is invalid"]
     ∧ m_pipeline this = nullptr ∧ m_pipeline_layout this = nullptr)
  ∧ ∃ this out1 info out2,
      RHI_Pipeline_new (H := sample_implementation) (Some sample_device)
        sample_state sample_pipeline
      = Next () this (out1 ++ Called_vkCreateGraphicsPipelines 16%N info :: out2)
      ∧ stage <$> pStages info = [VK_SHADER_STAGE_VERTEX_BIT].
Proof.
  split.
  - apply (proj1 (RHI_Pipeline_new_shader_stages (H := sample_implementation)
                    (Some sample_device) sample_state_without_vertex_shader
                    sample_pipeline)).
    left. reflexivity.
  - destruct (proj2 (RHI_Pipeline_new_shader_stages (H := sample_implementation)
                       (Some sample_device) sample_state sample_pipeline)
                _ "main"%string _ _ _ sample_device
                eq_refl ltac:(done) eq_refl eq_refl eq_refl eq_refl eq_refl eq_refl
                ltac:(done))
      as (this & out1 & info & out2 & Hrun & Hstages).
    exists this, out1, info, out2. split; [exact Hrun|]. by rewrite Hstages.
Defined.


End Pipeline.

(** * Properties of RHI_Device *)

Section Device.
Import Spartan Spartan.D3D11.

Ltac run_body :=
  cbv [mbind Body_bind mret Body_ret get modify emit return_ undefined deref when
       LOG_ERROR LOG_WARNING LOG_INFO].

Ltac simplify_run :=
  cbn -[D3D11CreateDevice FAILED GetFeatureLevel QueryInterface_Annotation].

(** Claim C9, as amended. Debug instrumentation is requested, an adapter
    is found, and creation with the debug flag fails because the SDK
    component is missing. Then, whatever the retry answers, every run of
    the constructor attempts creation exactly twice, the second time
    without the debug flag, and logs exactly one warning. If the retry
    fails, the constructor logs the error and returns, without a query for
    the annotation interface and with the device uninitialised. If the
    retry succeeds, with the engine context and its settings in place, the
    request for debug instrumentation being still set, the annotation
    interface is queried: the device ends up initialised, with no error
    logged, if that query succeeds; if it fails, the constructor logs an
    error, the last thing it does, and returns with the device
    uninitialised. *)
Theorem RHI_Device_new_retries_without_debug `{D3D11_Implementation}
    context this0 physical_device
    device1 context1 result device2 context2 result_annotation annotation_ :
  debug RHI_Context_new = true →
  GetPrimaryPhysicalDevice = Some physical_device →
  let adapter := data physical_device in
  let driver_type :=
    if bool_decide (adapter ≠ nullptr) then D3D_DRIVER_TYPE_UNKNOWN
    else D3D_DRIVER_TYPE_HARDWARE in
  D3D11CreateDevice 0 adapter driver_type D3D11_CREATE_DEVICE_DEBUG feature_levels
    D3D11_SDK_VERSION
  = (DXGI_ERROR_SDK_COMPONENT_MISSING, device1, context1) →
  D3D11CreateDevice 1 adapter driver_type 0 feature_levels D3D11_SDK_VERSION
  = (result, device2, context2) →
  QueryInterface_Annotation context2 = (result_annotation, annotation_) →
  (RHI_Device_new context this0 ≠ Undefined →
   creation_attempts (events_of (RHI_Device_new context this0))
   = [D3D11_CREATE_DEVICE_DEBUG; 0]
   ∧ length (warnings (events_of (RHI_Device_new context this0))) = 1%nat)
  ∧ (FAILED result = true →
     ∃ this out,
       RHI_Device_new context this0 = Return this out
       ∧ creation_attempts out = [D3D11_CREATE_DEVICE_DEBUG; 0]
       ∧ length (warnings out) = 1%nat
       ∧ last out = Some (Log Log_Error "Failed to create device, %s.")
       ∧ (Called_QueryInterface_Annotation ∉ out)
       ∧ m_initialized this = m_initialized this0)
  ∧ (FAILED result = false →
     ∀ context_ settings,
       context = Some context_ →
       GetSubsystem_Settings context_ = Some settings →
       ∃ this out,
         RHI_Device_new context this0
         = (if FAILED result_annotation then Return this out else Next () this out)
         ∧ creation_attempts out = [D3D11_CREATE_DEVICE_DEBUG; 0]
         ∧ length (warnings out) = 1%nat
         ∧ Called_QueryInterface_Annotation ∈ out
         ∧ m_initialized this
           = (if FAILED result_annotation then m_initialized this0 else true)
         ∧ (FAILED result_annotation = true →
            last out
            = Some (Log Log_Error
                      "Failed to create ID3DUserDefinedAnnotation for event reporting, %s."))
         ∧ (FAILED result_annotation = false → ∀ message, Log Log_Error message ∉ out)).
Proof.
  intros Hdebug Hpd adapter driver_type Hfirst Hretry Hannotation.
  remember (RHI_Device_new context this0) as flow eqn:Hflow. revert Hflow.
  unfold RHI_Device_new, create_device, log_feature_level. run_body.
  rewrite Hpd. cbn -[D3D11CreateDevice Z.lor Z.land]. rewrite Hdebug.
  change (Z.lor 0 D3D11_CREATE_DEVICE_DEBUG) with D3D11_CREATE_DEVICE_DEBUG.
  change (Z.land D3D11_CREATE_DEVICE_DEBUG (to_uint32 (Z.lnot D3D11_CREATE_DEVICE_DEBUG)))
    with 0.
  fold adapter driver_type.
  rewrite Hfirst. simplify_run.
  rewrite (bool_decide_eq_true_2 (DXGI_ERROR_SDK_COMPONENT_MISSING = _)) by done.
  simplify_run. rewrite Hretry. simplify_run.
  destruct (FAILED result) eqn:Hfailed; simplify_run.
  - intros ->. split; [by intros _|]. split; [|done]. intros _.
    eexists _, _. split; [reflexivity|]. do 3 (split; [reflexivity|]).
    split; [|reflexivity]. intros Hin.
    repeat (apply elem_of_cons in Hin as [Hin|Hin]; [discriminate Hin|]).
    by apply elem_of_nil in Hin.
  - destruct context as [context_|]; simplify_run;
      [destruct (GetSubsystem_Settings context_) as [settings|] eqn:Hsettings|].
    all: destruct (GetFeatureLevel device2); simplify_run; rewrite ?Hsettings;
      simplify_run; rewrite ?Hdebug; simplify_run; rewrite ?Hannotation;
      destruct (FAILED result_annotation) eqn:Hquery; simplify_run.
    all: intros ->.
    all: split; [first [by intros _ | intros Hundefined; by destruct Hundefined]|].
    all: split; [done|].
    all: intros _ context_' settings' Hcontext Hsettings'; simplify_eq.
    all: eexists _, _; split; [reflexivity|]; do 2 (split; [reflexivity|]).
    all: split; [repeat first [apply list_elem_of_here | apply list_elem_of_further]|].
    all: split; [reflexivity|].
    all: split; [first [done | by intros _]|].
    all: first [done | intros _ message Hin;
                       repeat (apply elem_of_cons in Hin as [Hin|Hin]; [discriminate Hin|]);
                       by apply elem_of_nil in Hin].
Qed.

Lemma RHI_Device_new_retries_without_debug_witness :
  ∃ this out,
    RHI_Device_new (H := sample_machine) (Some sample_context) sample_device
    = Next () this out
    ∧ creation_attempts out = [2; 0]
    ∧ length (warnings out) = 1%nat
    ∧ Called_QueryInterface_Annotation ∈ out
    ∧ m_initialized this = true.
Proof.
  destruct (proj2 (proj2 (RHI_Device_new_retries_without_debug (H := sample_machine)
              (Some sample_context) sample_device {| data := 64%N |}
              nullptr nullptr S_OK 256%N 512%N S_OK 1024%N
              eq_refl eq_refl eq_refl eq_refl eq_refl))
              eq_refl sample_context {| settings_id := 1%N |} eq_refl eq_refl)
    as (this & out & Hrun & Hattempts & Hwarnings & Hquery & Hinitialized & _).
  by exists this, out.
Defined.

(** Claim C9 as stated fails: on a machine where the retry succeeds and
    the annotation interface is missing, the constructor returns early and
    the device is not initialised. *)
Lemma RHI_Device_new_fails_without_annotation :
  ¬ (∀ (machine : D3D11_Implementation) context this0 physical_device context_ settings
       device1 context1 result device2 context2,
       debug RHI_Context_new = true →
       GetPrimaryPhysicalDevice = Some physical_device →
       let adapter := data physical_device in
       let driver_type :=
         if bool_decide (adapter ≠ nullptr) then D3D_DRIVER_TYPE_UNKNOWN
         else D3D_DRIVER_TYPE_HARDWARE in
       D3D11CreateDevice 0 adapter driver_type D3D11_CREATE_DEVICE_DEBUG feature_levels
         D3D11_SDK_VERSION
       = (DXGI_ERROR_SDK_COMPONENT_MISSING, device1, context1) →
       D3D11CreateDevice 1 adapter driver_type 0 feature_levels D3D11_SDK_VERSION
       = (result, device2, context2) →
       FAILED result = false →
       context = Some context_ →
       GetSubsystem_Settings context_ = Some settings →
       ∃ this out,
         RHI_Device_new context this0 = Next () this out ∧ m_initialized this = true).
Proof.
  intros Hclaim.
  destruct (Hclaim sample_machine_without_annotation (Some sample_context) sample_device
              {| data := 64%N |} sample_context {| settings_id := 1%N |}
              nullptr nullptr S_OK 256%N 512%N
              eq_refl eq_refl eq_refl eq_refl eq_refl eq_refl eq_refl)
    as (this & out & Hrun & _).
  vm_compute in Hrun. discriminate Hrun.
Qed.

End Device.

(** * Further properties of RHI_PipelineState *)

Section PipelineState_more.
Import Directus.

Ltac run_method :=
  cbv [mbind Method_bind mret Method_ret get modify emit call when undefined
       LOG_WARNING LOG_ERROR].

Ltac unfold_setters :=
  unfold SetShader, SetInputLayout, SetConstantBuffer, SetIndexBuffer, SetVertexBuffer,
    SetSampler, SetTexture, SetPrimitiveTopology, SetCullMode, SetFillMode, SetViewport.

(** ** What the setters do and do not do *)

(** A setter only logs warnings, only raises flags and only appends. *)
Lemma run_setter_effects c s s' out :
  run_setter c s = Returns () s' out →
  issued out = []
  ∧ (∀ e, e ∈ out → ∃ message, e = Log Log_Warning message)
  ∧ (∀ c, dirty c s = true → dirty c s' = true)
  ∧ m_rhiDevice s' = m_rhiDevice s
  ∧ m_samplers s `prefix_of` m_samplers s'
  ∧ m_textures s `prefix_of` m_textures s'
  ∧ m_constantBuffersInfo s `prefix_of` m_constantBuffersInfo s'.
Proof.
  destruct c; cbn [run_setter]; unfold_setters; run_method; cbn;
    repeat case_match; try done; intros; simplify_eq; cbn.
  all: split; [done|].
  all: split; [intros e He; repeat (apply elem_of_cons in He as [->|He]; [by eexists|]);
               by apply elem_of_nil in He|].
  all: split; [by intros []; cbn|].
  all: repeat split; try done; try apply prefix_app_r; try done.
Qed.

Lemma run_setters_effects cs s s' out :
  run_setters cs s = Returns () s' out →
  issued out = []
  ∧ (∀ e, e ∈ out → ∃ message, e = Log Log_Warning message)
  ∧ (∀ c, dirty c s = true → dirty c s' = true)
  ∧ m_rhiDevice s' = m_rhiDevice s
  ∧ m_samplers s `prefix_of` m_samplers s'
  ∧ m_textures s `prefix_of` m_textures s'
  ∧ m_constantBuffersInfo s `prefix_of` m_constantBuffersInfo s'.
Proof.
  revert s out. induction cs as [|c cs IH]; intros s out.
  - intros [= <- <-]. split; [done|]. split; [by intros e ?%elem_of_nil|done].
  - cbn [run_setters for_each]. intros (a & t & o & o' & Hc & Hcs & ->)%bind_inv.
    destruct a.
    destruct (run_setter_effects _ _ _ _ Hc) as (Hi & Hl & Hd & Hdev & Hsm & Htx & Hcb).
    destruct (IH _ _ Hcs) as (Hi' & Hl' & Hd' & Hdev' & Hsm' & Htx' & Hcb').
    split; [unfold issued in *; by rewrite omap_app, Hi, Hi'|].
    split; [intros e [?|?]%elem_of_app; auto|].
    split; [auto|]. split; [congruence|]. repeat split; by etrans.
Qed.

(** Property X1. The setters are lazy: whatever the sequence of setter calls and the
    object it runs on, no call reaches the backend before [Bind], and all a
    setter ever logs is a warning. *)
Theorem setters_issue_no_backend_call cs s s' out :
  run_setters cs s = Returns () s' out →
  issued out = []
  ∧ ∀ e, e ∈ out → ∃ message, e = Log Log_Warning message.
Proof.
  intros Hrun. destruct (run_setters_effects _ _ _ _ Hrun) as (Hi & Hl & _). done.
Qed.

Lemma setters_issue_no_backend_call_witness :
  run_setters sample_calls (RHI_PipelineState_new sample_declared (Some sample_device))
  = Returns () (fst sample_configured) (snd sample_configured)
  ∧ issued (snd sample_configured) = [].
Proof.
  split; [reflexivity|].
  exact (proj1 (setters_issue_no_backend_call sample_calls
                  (RHI_PipelineState_new sample_declared (Some sample_device))
                  (fst sample_configured) (snd sample_configured) eq_refl)).
Defined.

(** Property X2. Between two commits the pending state only grows: a sequence of
    setter calls never clears a dirty flag, never replaces the device, and
    only appends to the lists of samplers, textures and constant buffers. *)
Theorem setters_only_raise_flags_and_append cs s s' out :
  run_setters cs s = Returns () s' out →
  (∀ c, dirty c s = true → dirty c s' = true)
  ∧ m_rhiDevice s' = m_rhiDevice s
  ∧ m_samplers s `prefix_of` m_samplers s'
  ∧ m_textures s `prefix_of` m_textures s'
  ∧ m_constantBuffersInfo s `prefix_of` m_constantBuffersInfo s'.
Proof.
  intros Hrun. destruct (run_setters_effects _ _ _ _ Hrun) as (_ & _ & H). done.
Qed.

Lemma setters_only_raise_flags_and_append_witness :
  run_setters [Call_SetCullMode Cull_None; Call_SetTexture 96%N] (fst sample_configured)
  = Returns ()
      (set_m_textures [nullptr; 80%N; 96%N]
         (set_m_cullMode Cull_None (fst sample_configured))) []
  ∧ m_textures (fst sample_configured)
    `prefix_of` [nullptr; 80%N; 96%N].
Proof.
  split; [reflexivity|].
  exact (proj1 (proj2 (proj2 (proj2 (setters_only_raise_flags_and_append
     [Call_SetCullMode Cull_None; Call_SetTexture 96%N] (fst sample_configured)
     (set_m_textures [nullptr; 80%N; 96%N]
         (set_m_cullMode Cull_None (fst sample_configured))) [] eq_refl))))).
Defined.

(** ** Committing without a device *)

(** Property X3. On an object constructed with a null device, [Bind] after any
    sequence of setter calls logs one error, returns [false], sends nothing
    and leaves the object as it is: what the setters recorded stays
    pending. *)
Theorem Bind_without_device_keeps_pending_state be d cs s log :
  run_setters cs (RHI_PipelineState_new d None) = Returns () s log →
  ∃ out,
    Bind be s = Returns false s out
    ∧ issued out = []
    ∧ logged out = [(Log_Error, "RHI_PipelineState::Bind: Invalid RHI_Device"%string)].
Proof.
  intros Hrun. destruct (run_setters_effects _ _ _ _ Hrun) as (_ & _ & _ & Hdev & _).
  eexists. split; [by apply Bind_without_device|done].
Qed.

Lemma Bind_without_device_keeps_pending_state_witness :
  run_setters [Call_SetTexture 80%N; Call_SetCullMode Cull_Back]
    (RHI_PipelineState_new sample_declared None)
  = Returns ()
      (set_m_cullModeDirty true (set_m_cullMode Cull_Back
         (set_m_texturesDirty true (set_m_textures [80%N]
            (RHI_PipelineState_new sample_declared None))))) []
  ∧ ∃ s out, Bind obliging_backend s = Returns false s out
             ∧ m_textures s = [80%N] ∧ dirty CullMode s = true.
Proof.
  split; [reflexivity|].
  destruct (Bind_without_device_keeps_pending_state obliging_backend sample_declared
              [Call_SetTexture 80%N; Call_SetCullMode Cull_Back]
              (set_m_cullModeDirty true (set_m_cullMode Cull_Back
                 (set_m_texturesDirty true (set_m_textures [80%N]
                    (RHI_PipelineState_new sample_declared None))))) [] eq_refl)
    as (out & HBind & _).
  by eexists _, out.
Defined.

(** ** Committing twice *)

Lemma consistent_committed s : consistent (committed s).
Proof. by repeat split. Qed.

Lemma calls_of_committed c s : calls_of c (committed s) = [].
Proof. unfold calls_of. by rewrite dirty_committed. Qed.

Lemma Bind_committed be s :
  is_Some (m_rhiDevice s) → Bind be (committed s) = Returns true (committed s) [].
Proof.
  intros Hdev. rewrite Bind_runs by (apply consistent_committed || done).
  unfold Bind_result. rewrite Bind_calls_unfold, !calls_of_committed. reflexivity.
Qed.

(** Property X4. A commit leaves nothing to commit: [Bind] directly after [Bind]
    sends nothing, changes nothing and returns [true], also when the first
    [Bind] returned [false] because a buffer failed to bind (the failed
    bind is not tried again). *)
Theorem Bind_twice be be' d dev cs s log :
  run_setters cs (RHI_PipelineState_new d (Some dev)) = Returns () s log →
  ∃ r s' out,
    Bind be s = Returns r s' out
    ∧ Bind be' s' = Returns true s' [].
Proof.
  intros Hrun. destruct (Bind_after_setters be _ _ _ _ _ Hrun) as [Hs HBind].
  destruct (run_setters_consistent _ _ _ _ Hrun (consistent_new _ _)) as [_ Hdev].
  eexists _, _, _. split; [exact HBind|].
  apply Bind_committed. rewrite Hdev. by eexists.
Qed.

Lemma Bind_twice_witness :
  run_setters sample_calls (RHI_PipelineState_new sample_declared (Some sample_device))
  = Returns () (fst sample_configured) (snd sample_configured)
  ∧ ∃ s' out,
      Bind failing_backend (fst sample_configured) = Returns false s' out
      ∧ Bind failing_backend s' = Returns true s' [].
Proof.
  split; [reflexivity|].
  destruct (Bind_twice failing_backend failing_backend sample_declared sample_device
              sample_calls (fst sample_configured) (snd sample_configured) eq_refl)
    as (r & s' & out & HBind & HBind').
  assert (r = false) as -> by (vm_compute in HBind; congruence).
  by exists s', out.
Defined.

(** ** Textures and samplers *)

Lemma run_SetTextures rs s :
  ∃ s',
    run_setters (Call_SetTexture <$> rs) s = Returns () s' []
    ∧ m_textures s' = m_textures s ++ rs
    ∧ (rs ≠ [] → m_texturesDirty s' = true).
Proof.
  revert s. induction rs as [|x rs IH]; intros s.
  - exists s. by rewrite app_nil_r.
  - destruct (IH (set_m_texturesDirty true (set_m_textures (m_textures s ++ [x]) s)))
      as (s' & Hrun & Htx & Hdirty).
    exists s'. split; [|split; [by rewrite Htx; cbn; rewrite <-app_assoc|]].
    + unfold run_setters in *. cbn [fmap list_fmap for_each].
      rewrite (bind_Returns _ _ s () _ [] eq_refl). by rewrite Hrun.
    + intros _. destruct rs as [|y rs]; [by injection Hrun as <-|]. by apply Hdirty.
Qed.

(** Property X5. Textures reach the backend in the order of the [SetTexture] calls,
    null textures included, after those already pending, in one call that
    starts at slot 0 and counts them all; the list is empty afterwards. *)
Theorem textures_bound_in_call_order be d dev cs s log rs :
  run_setters cs (RHI_PipelineState_new d (Some dev)) = Returns () s log →
  rs ≠ [] →
  ∃ r s' out,
    (run_setters (Call_SetTexture <$> rs) ;; Bind be) s = Returns r s' out
    ∧ issued_in Textures out
      = [RHI_Device_Bind_Textures 0 (to_uint32 (Z.of_nat (length (m_textures s ++ rs))))
           (m_textures s ++ rs)]
    ∧ m_textures s' = [].
Proof.
  intros Hrun Hrs. destruct (run_SetTextures rs s) as (s1 & Hrun1 & Htx & Hdirty).
  destruct (run_setters_consistent _ _ _ _ Hrun (consistent_new _ _)) as [Hs Hdev].
  destruct (run_setters_consistent _ _ _ _ Hrun1 Hs) as [Hs1 Hdev1].
  rewrite (bind_Returns _ _ _ _ _ _ Hrun1).
  rewrite (Bind_runs be s1) by (try done; rewrite Hdev1, Hdev; by eexists).
  eexists _, _, _. split; [reflexivity|]. cbn [app]. rewrite issued_in_Bind.
  unfold calls_of. cbn. rewrite (Hdirty Hrs), Htx. done.
Qed.

Lemma textures_bound_in_call_order_witness :
  run_setters [] (RHI_PipelineState_new sample_declared (Some sample_device))
  = Returns () (RHI_PipelineState_new sample_declared (Some sample_device)) []
  ∧ [nullptr; 80%N] ≠ []
  ∧ ∃ r s' out,
      (run_setters (Call_SetTexture <$> [nullptr; 80%N]) ;; Bind obliging_backend)
        (RHI_PipelineState_new sample_declared (Some sample_device)) = Returns r s' out
      ∧ issued_in Textures out = [RHI_Device_Bind_Textures 0 2 [nullptr; 80%N]].
Proof.
  split; [reflexivity|]. split; [done|].
  destruct (textures_bound_in_call_order obliging_backend sample_declared sample_device []
              (RHI_PipelineState_new sample_declared (Some sample_device)) []
              [nullptr; 80%N] eq_refl ltac:(done))
    as (r & s' & out & Hrun & Hout & _).
  by exists r, s', out.
Defined.

Lemma run_SetSamplers ss s :
  ∃ s' log,
    run_setters (Call_SetSampler <$> ss) s = Returns () s' log
    ∧ m_samplers s' = m_samplers s ++ (sampler_GetBuffer <$> omap id ss)
    ∧ (omap id ss ≠ [] → m_samplersDirty s' = true)
    ∧ issued log = []
    ∧ length (logged log) = length (filter (λ sampler, sampler = None) ss).
Proof.
  revert s. induction ss as [|[x|] ss IH]; intros s.
  - exists s, []. by rewrite app_nil_r.
  - destruct (IH (set_m_samplersDirty true
                    (set_m_samplers (m_samplers s ++ [sampler_GetBuffer x]) s)))
      as (s' & log & Hrun & Hsm & Hdirty & Hissued & Hlog).
    exists s', log. unfold run_setters in *. cbn [fmap list_fmap for_each].
    rewrite (bind_Returns _ _ s () _ [] eq_refl), Hrun.
    split; [done|]. split; [by rewrite Hsm; cbn; rewrite <-app_assoc|].
    split; [|split; [done|by rewrite filter_cons_False]].
    intros _.
    destruct (run_setters_effects _ _ _ _ Hrun) as (_ & _ & Hraised & _).
    by apply (Hraised Samplers).
  - destruct (IH s) as (s' & log & Hrun & Hsm & Hdirty & Hissued & Hlog).
    exists s', (Log Log_Warning "RHI_PipelineState::SetSampler: Invalid parameter" :: log).
    unfold run_setters in *. cbn [fmap list_fmap for_each].
    rewrite (bind_Returns _ _ s () s
               [Log Log_Warning "RHI_PipelineState::SetSampler: Invalid parameter"] eq_refl).
    rewrite Hrun. split; [done|]. split; [done|]. split; [done|]. split; [done|].
    rewrite filter_cons_True by done. cbn. by rewrite <-Hlog.
Qed.

(** Property X6. Of a sequence of [SetSampler] calls, the samplers of the non-null
    calls reach the backend in call order, after those already pending, in
    one call; each null call leaves the list alone and logs one warning, so
    a null sampler takes no slot (unlike a null texture). *)
Theorem samplers_bound_in_call_order be d dev cs s log ss :
  run_setters cs (RHI_PipelineState_new d (Some dev)) = Returns () s log →
  omap id ss ≠ [] →
  let buffers := m_samplers s ++ (sampler_GetBuffer <$> omap id ss) in
  ∃ r s' out,
    (run_setters (Call_SetSampler <$> ss) ;; Bind be) s = Returns r s' out
    ∧ issued_in Samplers out
      = [RHI_Device_Bind_Samplers 0 (to_uint32 (Z.of_nat (length buffers))) buffers]
    ∧ length (logged out) = length (filter (λ sampler, sampler = None) ss)
    ∧ m_samplers s' = [].
Proof.
  intros Hrun Hss buffers.
  destruct (run_SetSamplers ss s) as (s1 & log1 & Hrun1 & Hsm & Hdirty & Hissued & Hlog).
  destruct (run_setters_consistent _ _ _ _ Hrun (consistent_new _ _)) as [Hs Hdev].
  destruct (run_setters_consistent _ _ _ _ Hrun1 Hs) as [Hs1 Hdev1].
  rewrite (bind_Returns _ _ _ _ _ _ Hrun1).
  rewrite (Bind_runs be s1) by (try done; rewrite Hdev1, Hdev; by eexists).
  eexists _, _, _. split; [reflexivity|]. split; [|split].
  - unfold issued_in, issued in *. rewrite omap_app, Hissued. cbn [app].
    pose proof (issued_in_Bind Samplers s1) as Hin. unfold issued_in, issued in Hin.
    rewrite Hin. unfold calls_of. cbn. by rewrite (Hdirty Hss), Hsm.
  - unfold logged in *. rewrite omap_app, length_app, Hlog.
    pose proof (logged_Issued (Bind_calls s1)) as Hl. unfold logged in Hl. rewrite Hl.
    cbn. lia.
  - cbn. by rewrite (Hdirty Hss).
Qed.

Lemma samplers_bound_in_call_order_witness :
  run_setters [] (RHI_PipelineState_new sample_declared (Some sample_device))
  = Returns () (RHI_PipelineState_new sample_declared (Some sample_device)) []
  ∧ omap id [Some {| sampler_GetBuffer := 7%N |}; None; Some {| sampler_GetBuffer := 9%N |}]
    ≠ []
  ∧ ∃ r s' out,
      (run_setters
         (Call_SetSampler
            <$> [Some {| sampler_GetBuffer := 7%N |}; None;
                 Some {| sampler_GetBuffer := 9%N |}]) ;;
       Bind obliging_backend)
        (RHI_PipelineState_new sample_declared (Some sample_device)) = Returns r s' out
      ∧ issued_in Samplers out = [RHI_Device_Bind_Samplers 0 2 [7%N; 9%N]]
      ∧ length (logged out) = 1%nat.
Proof.
  split; [reflexivity|]. split; [done|].
  destruct (samplers_bound_in_call_order obliging_backend sample_declared sample_device []
              (RHI_PipelineState_new sample_declared (Some sample_device)) []
              [Some {| sampler_GetBuffer := 7%N |}; None;
               Some {| sampler_GetBuffer := 9%N |}] eq_refl ltac:(done))
    as (r & s' & out & Hrun & Hout & Hlog & _).
  by exists r, s', out.
Defined.

(** ** Index and vertex buffers *)



(** ** The comparing setters *)



Lemma SFeqb_nan_r x : SFeqb x S754_nan = false.
Proof. by destruct x. Qed.

Lemma SetViewport_nan width height s :
  width = S754_nan ∨ height = S754_nan →
  SetViewport width height s
  = Returns ()
      (set_m_viewportDirty true
         (set_m_viewport (mkViewport float_0 float_0 width height float_0 float_1) s)) [].
Proof.
  intros Hnan. unfold SetViewport. rewrite bind_get.
  destruct Hnan as [-> | ->]; rewrite SFeqb_nan_r, ?andb_false_r; reflexivity.
Qed.

(** Property X9. A viewport with a NaN width or height is never elided: the
    comparison of [SetViewport] is the one of floats, under which a NaN
    differs from itself, so each call with such arguments raises the flag,
    and each following [Bind] sends the viewport again, although it is
    the one just sent. *)
Theorem SetViewport_with_NaN_is_sent_every_time be be' d dev cs s log width height :
  run_setters cs (RHI_PipelineState_new d (Some dev)) = Returns () s log →
  width = S754_nan ∨ height = S754_nan →
  let viewport := mkViewport float_0 float_0 width height float_0 float_1 in
  ∃ r s1 out r' s2 out',
    (SetViewport width height ;; Bind be) s = Returns r s1 out
    ∧ (SetViewport width height ;; Bind be') s1 = Returns r' s2 out'
    ∧ issued_in Viewport out = [RHI_Device_SetViewport viewport]
    ∧ issued out' = [RHI_Device_SetViewport viewport].
Proof.
  intros Hrun Hnan. cbv zeta.
  set (viewport := mkViewport float_0 float_0 width height float_0 float_1).
  destruct (run_setters_consistent _ _ _ _ Hrun (consistent_new _ _)) as [Hs Hdev].
  rewrite (bind_Returns _ _ _ _ _ _ (SetViewport_nan width height s Hnan)).
  fold viewport.
  set (t := set_m_viewportDirty true (set_m_viewport viewport s)).
  assert (consistent t) as Ht by (destruct Hs as (?&?&?&?); by repeat split).
  assert (is_Some (m_rhiDevice t)) as Hdevt by (cbn; rewrite Hdev; by eexists).
  rewrite (Bind_runs be t Ht Hdevt).
  eexists _, _, _, _, _, _. split; [reflexivity|].
  rewrite (bind_Returns _ _ _ _ _ _ (SetViewport_nan width height (committed t) Hnan)).
  fold viewport.
  set (u := set_m_viewportDirty true (set_m_viewport viewport (committed t))).
  assert (consistent u) as Hu by by repeat split.
  rewrite (Bind_runs be' u Hu Hdevt).
  split; [reflexivity|].
  cbn [app]. rewrite issued_in_Bind, issued_Issued. split; [done|].
  rewrite Bind_calls_unfold. unfold calls_of. cbn. done.
Qed.

Lemma SetViewport_with_NaN_is_sent_every_time_witness :
  run_setters [] (RHI_PipelineState_new sample_declared (Some sample_device))
  = Returns () (RHI_PipelineState_new sample_declared (Some sample_device)) []
  ∧ (S754_nan = S754_nan ∨ float_1 = S754_nan)
  ∧ ∃ r s1 out r' s2 out',
      (SetViewport S754_nan float_1 ;; Bind obliging_backend)
        (RHI_PipelineState_new sample_declared (Some sample_device)) = Returns r s1 out
      ∧ (SetViewport S754_nan float_1 ;; Bind obliging_backend) s1 = Returns r' s2 out'
      ∧ issued out'
        = [RHI_Device_SetViewport
             (mkViewport float_0 float_0 S754_nan float_1 float_0 float_1)].
Proof.
  split; [reflexivity|]. split; [by left|].
  destruct (SetViewport_with_NaN_is_sent_every_time obliging_backend obliging_backend
              sample_declared sample_device []
              (RHI_PipelineState_new sample_declared (Some sample_device)) []
              S754_nan float_1 eq_refl (or_introl eq_refl))
    as (r & s1 & out & r' & s2 & out' & Hrun & Hrun' & _ & Hout').
  by exists r, s1, out, r', s2, out'.
Defined.

(** ** Shaders *)

Lemma SetShader_runs sh il s :
  shader_GetInputLayout sh = Some il →
  ∃ s',
    SetShader (Some sh) s = Returns true s' []
    ∧ (consistent s → consistent s')
    ∧ m_rhiDevice s' = m_rhiDevice s
    ∧ m_vertexShader s' = GetVertexShaderBuffer sh ∧ m_vertexShaderDirty s' = true
    ∧ m_pixelShader s' = GetPixelShaderBuffer sh ∧ m_pixelShaderDirty s' = true
    ∧ m_inputLayout s' = GetInputLayout il
    ∧ m_inputLayoutDirty s'
      = m_inputLayoutDirty s || negb (bool_decide (m_inputLayout s = GetInputLayout il))
    ∧ m_inputLayoutBuffer s'
      = (if bool_decide (m_inputLayout s = GetInputLayout il) then m_inputLayoutBuffer s
         else GetInputLayoutBuffer il)
    ∧ m_constantBuffersInfo s'
      = m_constantBuffersInfo s
        ++ match GetConstantBuffer sh with
           | Some cb => [mkConstantBufferInfo (constant_GetBuffer cb) (GetBufferSlot sh)
                           (GetBufferScope sh)]
           | None => []
           end
    ∧ m_constantBufferDirty s'
      = m_constantBufferDirty s || bool_decide (is_Some (GetConstantBuffer sh)).
Proof.
  intros Hil. unfold SetShader. rewrite Hil. unfold_setters. run_method. cbn.
  destruct (bool_decide (m_inputLayout s = GetInputLayout il)) eqn:Hsame;
    destruct (GetConstantBuffer sh) as [cb|] eqn:Hcb; cbn.
  all: eexists; split; [reflexivity|]; cbn.
  all: split; [intros (?&?&?&?); by repeat split|].
  all: rewrite ?orb_true_r, ?orb_false_r, ?app_nil_r.
  all: try apply bool_decide_eq_true in Hsame.
  all: repeat split; try done.
Qed.

(** Property X10. [SetShader] with a shader that has an input layout, followed by
    [Bind]: the vertex and the pixel shader of the shader are bound, in
    this order of categories; the input layout is sent when its flag was
    raised already or the layout of the shader differs from the one stored,
    and not otherwise; and when the shader has a constant buffer, the last
    constant-buffer call binds it at the slot and scope of the shader. *)
Theorem SetShader_then_Bind be d dev cs s log sh il :
  run_setters cs (RHI_PipelineState_new d (Some dev)) = Returns () s log →
  shader_GetInputLayout sh = Some il →
  ∃ r s' out,
    (SetShader (Some sh) ;; Bind be) s = Returns r s' out
    ∧ issued_in VertexShader out = [RHI_Device_Bind_VertexShader (GetVertexShaderBuffer sh)]
    ∧ issued_in PixelShader out = [RHI_Device_Bind_PixelShader (GetPixelShaderBuffer sh)]
    ∧ issued_in InputLayout out
      = (if bool_decide (m_inputLayout s = GetInputLayout il)
         then if m_inputLayoutDirty s
              then [RHI_Device_Set_InputLayout (m_inputLayoutBuffer s)] else []
         else [RHI_Device_Set_InputLayout (GetInputLayoutBuffer il)])
    ∧ match GetConstantBuffer sh with
      | Some cb =>
          last (issued_in ConstantBuffers out)
          = Some (RHI_Device_Bind_ConstantBuffers (GetBufferSlot sh) 1 (GetBufferScope sh)
                    (constant_GetBuffer cb))
      | None => issued_in ConstantBuffers out = calls_of ConstantBuffers s
      end.
Proof.
  intros Hrun Hil.
  destruct (run_setters_consistent _ _ _ _ Hrun (consistent_new _ _)) as [Hs Hdev].
  destruct (SetShader_runs sh il s Hil)
    as (t & Hset & Ht & Hdevt & Hvs & Hvsd & Hps & Hpsd & Hl & Hld & Hlb & Hcb & Hcbd).
  rewrite (bind_Returns _ _ _ _ _ _ Hset).
  rewrite (Bind_runs be t) by (auto; rewrite Hdevt, Hdev; by eexists).
  eexists _, _, _. split; [reflexivity|]. cbn [app]. rewrite !issued_in_Bind.
  unfold calls_of. cbn [dirty]. rewrite Hvsd, Hpsd, Hvs, Hps, Hld, Hlb, Hcbd, Hcb.
  split; [done|]. split; [done|]. split.
  - by destruct (bool_decide (m_inputLayout s = GetInputLayout il)),
      (m_inputLayoutDirty s).
  - destruct (GetConstantBuffer sh) as [cb|]; cbn.
    + rewrite orb_true_r, fmap_app. cbn. by rewrite last_snoc.
    + by rewrite orb_false_r, app_nil_r.
Qed.

Lemma SetShader_then_Bind_witness :
  run_setters [] (RHI_PipelineState_new sample_declared (Some sample_device))
  = Returns () (RHI_PipelineState_new sample_declared (Some sample_device)) []
  ∧ ∃ r s' out,
      (SetShader
         (Some {| shader_GetInputLayout :=
                    Some {| GetInputLayout := Input_Position;
                            GetInputLayoutBuffer := 112%N |};
                  GetConstantBuffer := Some sample_buffer_A;
                  GetBufferSlot := 2;
                  GetBufferScope := Buffer_Global;
                  GetVertexShaderBuffer := 128%N;
                  GetPixelShaderBuffer := 144%N |}) ;;
       Bind obliging_backend)
        (RHI_PipelineState_new sample_declared (Some sample_device)) = Returns r s' out
      ∧ issued_in VertexShader out = [RHI_Device_Bind_VertexShader 128%N]
      ∧ issued_in InputLayout out = [RHI_Device_Set_InputLayout 112%N].
Proof.
  split; [reflexivity|].
  destruct (SetShader_then_Bind obliging_backend sample_declared sample_device []
              (RHI_PipelineState_new sample_declared (Some sample_device)) []
              {| shader_GetInputLayout :=
                   Some {| GetInputLayout := Input_Position;
                           GetInputLayoutBuffer := 112%N |};
                 GetConstantBuffer := Some sample_buffer_A;
                 GetBufferSlot := 2;
                 GetBufferScope := Buffer_Global;
                 GetVertexShaderBuffer := 128%N;
                 GetPixelShaderBuffer := 144%N |}
              {| GetInputLayout := Input_Position; GetInputLayoutBuffer := 112%N |}
              eq_refl eq_refl)
    as (r & s' & out & Hrun & Hvs & _ & Hil & _).
  by exists r, s', out.
Defined.

End PipelineState_more.

(** * Further properties of RHI_Pipeline *)

Section Pipeline_more.
Import Spartan Spartan.Vulkan.

Ltac run_body :=
  cbv [mbind Body_bind mret Body_ret get modify emit return_ undefined deref when
       LOG_ERROR].

Section Construction_more.
Context `{Vulkan_Implementation}.

Ltac absurd_event :=
  let Hin := fresh "Hin" in
  cbn [events_of app]; intros Hin;
  repeat (apply elem_of_cons in Hin as [Hin|Hin]; [discriminate Hin|]);
  by apply elem_of_nil in Hin.

Lemma invalid_stage_false (shader : RHI_Shader) :
  bool_decide (GetResource shader = nullptr) || bool_decide (GetEntryPoint shader = None)
  = false →
  GetResource shader ≠ nullptr ∧ GetEntryPoint shader ≠ None.
Proof.
  intros [H1 H2]%orb_false_elim.
  by apply bool_decide_eq_false in H1, H2.
Qed.

(** Every run of the constructor that asks the driver for a pipeline:
    what was in place, what the request holds, and how the run ends. *)
Lemma RHI_Pipeline_new_request rhi_device pipeline_state this0 d info :
  let m_state := CreateFrameResources rhi_device pipeline_state in
  Called_vkCreateGraphicsPipelines d info
    ∈ events_of (RHI_Pipeline_new rhi_device pipeline_state this0) →
  ∃ vs rasterizer blend depth_stencil device_ slots layout_info this name,
    shader_vertex m_state = Some vs
    ∧ (GetResource vs ≠ nullptr ∧ GetEntryPoint vs ≠ None)
    ∧ (∀ ps, shader_pixel m_state = Some ps →
             GetResource ps ≠ nullptr ∧ GetEntryPoint ps ≠ None)
    ∧ rasterizer_state m_state = Some rasterizer
    ∧ blend_state m_state = Some blend
    ∧ depth_stencil_state m_state = Some depth_stencil
    ∧ rhi_device = Some device_
    ∧ d = device (GetContextRhi device_)
    ∧ error_check (vkCreatePipelineLayout d layout_info).1 = true
    ∧ RHI_Pipeline_new rhi_device pipeline_state this0
      = Next () this
          [DescriptorSet_Initialize slots;
           Called_vkCreatePipelineLayout d layout_info;
           Called_vkCreateGraphicsPipelines d info;
           Called_set_pipeline_name d (m_pipeline this) name]
    ∧ m_rhi_device this = rhi_device
    ∧ m_pipeline this = default (m_pipeline this0) (vkCreateGraphicsPipelines d info).2
    ∧ m_pipeline_layout this
      = default (m_pipeline_layout this0) (vkCreatePipelineLayout d layout_info).2
    ∧ layout info = m_pipeline_layout this
    ∧ pStages info
      = {| stage := VK_SHADER_STAGE_VERTEX_BIT; stage_module := GetResource vs;
           pName := GetEntryPoint vs |}
        :: match shader_pixel m_state with
           | Some ps => [{| stage := VK_SHADER_STAGE_FRAGMENT_BIT;
                            stage_module := GetResource ps;
                            pName := GetEntryPoint ps |}]
           | None => []
           end
    ∧ pDynamicState info
      = (let dynamic_states :=
           (if Viewport_IsDefined (viewport m_state) then []
            else [VK_DYNAMIC_STATE_VIEWPORT])
           ++ (if dynamic_scissor m_state then [VK_DYNAMIC_STATE_SCISSOR] else []) in
         if bool_decide (dynamic_states = []) then None
         else Some {| pDynamicStates := dynamic_states |})
    ∧ (∃ attachment,
         pAttachments (pColorBlendState info)
         = (if bool_decide (render_target_swapchain m_state ≠ nullptr)
            then [attachment] else [])
           ++ ((λ _, attachment)
                 <$> filter (λ texture, texture ≠ nullptr)
                       (take state_max_render_target_count
                          (render_target_color_textures m_state)))).
Proof.
  intros m_state. unfold RHI_Pipeline_new. run_body.
  cbn [Vulkan.m_state set_m_state set_m_rhi_device m_rhi_device]. fold m_state.
  destruct (shader_vertex m_state) as [vs|]; cbn [stage_module pName]; [|absurd_event].
  destruct (bool_decide (GetResource vs = nullptr) || bool_decide (GetEntryPoint vs = None))
    eqn:Hvs; [absurd_event|].
  apply invalid_stage_false in Hvs.
  destruct (shader_pixel m_state) as [ps|]; cbn [stage_module pName];
    [destruct (bool_decide (GetResource ps = nullptr)
               || bool_decide (GetEntryPoint ps = None)) eqn:Hps;
     [absurd_event|apply invalid_stage_false in Hps]|].
  all: destruct (rasterizer_state m_state) as [rasterizer|]; [|absurd_event].
  all: destruct rhi_device as [device_|]; [|absurd_event].
  all: destruct (blend_state m_state) as [blend|]; [|absurd_event].
  all: destruct (depth_stencil_state m_state) as [depth_stencil|]; [|absurd_event].
  all: match goal with |- context [vkCreatePipelineLayout ?d ?i] =>
         set (layout_info := i);
         destruct (vkCreatePipelineLayout d layout_info) as [result written] eqn:Hlayout end.
  all: match goal with |- context [error_check ?r] =>
         destruct (error_check r) eqn:Hcheck; [|absurd_event] end.
  all: match goal with |- context [vkCreateGraphicsPipelines ?d ?i] =>
         set (pipeline_info := i);
         destruct (vkCreateGraphicsPipelines d pipeline_info) as [result' written']
           eqn:Hpipeline end.
  all: cbn [events_of app].
  all: intros Hin.
  all: apply elem_of_cons in Hin as [Hin|Hin]; [discriminate Hin|].
  all: apply elem_of_cons in Hin as [Hin|Hin]; [discriminate Hin|].
  all: apply elem_of_cons in Hin as [Hin|Hin];
    [|apply elem_of_cons in Hin as [Hin|Hin]; [discriminate Hin|by apply elem_of_nil in Hin]].
  all: injection Hin as -> ->.
  all: eexists vs, rasterizer, blend, depth_stencil, device_, _, layout_info, _, _.
  all: rewrite Hlayout, Hpipeline; cbn [fst snd].
  all: split; [reflexivity|]; split; [exact Hvs|].
  all: split; [intros ? [= <-]; assumption || done|].
  all: do 5 (split; [reflexivity|]).
  all: split; [exact Hcheck|].
  all: split; [reflexivity|].
  all: cbn [m_rhi_device m_pipeline m_pipeline_layout set_m_pipeline set_m_pipeline_layout
            set_m_descriptor_set layout pStages pDynamicState pColorBlendState pAttachments].
  all: do 5 (split; [reflexivity|]).
  all: split; [by destruct (Viewport_IsDefined (viewport m_state))|].
  all: by eexists.
Qed.

(** A run of the constructor that reaches its end has asked the driver for
    a pipeline. *)
Lemma RHI_Pipeline_new_Next rhi_device pipeline_state this0 this out :
  RHI_Pipeline_new rhi_device pipeline_state this0 = Next () this out →
  ∃ d info, Called_vkCreateGraphicsPipelines d info ∈ out.
Proof.
  unfold RHI_Pipeline_new. run_body.
  cbn [Vulkan.m_state set_m_state set_m_rhi_device m_rhi_device].
  set (m_state := CreateFrameResources rhi_device pipeline_state).
  destruct (shader_vertex m_state) as [vs|]; cbn [stage_module pName]; [|done].
  destruct (bool_decide (GetResource vs = nullptr) || bool_decide (GetEntryPoint vs = None));
    [done|].
  destruct (shader_pixel m_state) as [ps|]; cbn [stage_module pName];
    [destruct (bool_decide (GetResource ps = nullptr)
               || bool_decide (GetEntryPoint ps = None)); [done|]|].
  all: destruct (rasterizer_state m_state) as [rasterizer|]; [|done].
  all: destruct rhi_device as [device_|]; [|done].
  all: destruct (blend_state m_state) as [blend|]; [|done].
  all: destruct (depth_stencil_state m_state) as [depth_stencil|]; [|done].
  all: match goal with |- context [vkCreatePipelineLayout ?d ?i] =>
         destruct (vkCreatePipelineLayout d i) as [result written] end.
  all: match goal with |- context [error_check ?r] =>
         destruct (error_check r); [|done] end.
  all: match goal with |- context [vkCreateGraphicsPipelines ?d ?i] =>
         destruct (vkCreateGraphicsPipelines d i) as [result' written'] end.
  all: cbn [app]; intros [= <- <-].
  all: eexists _, _; do 2 apply list_elem_of_further; apply list_elem_of_here.
Qed.

(** ** The shader stages of the request *)

(** Property X11. Whatever the snapshot, a pipeline request holds the vertex stage
    first and then, exactly when the snapshot has a pixel shader, the
    fragment stage; the modules are those of the two shaders, and no stage
    of a request has a null module or a null entry point. *)
Theorem RHI_Pipeline_new_requests_valid_stages rhi_device pipeline_state this0 d info :
  let m_state := CreateFrameResources rhi_device pipeline_state in
  Called_vkCreateGraphicsPipelines d info
    ∈ events_of (RHI_Pipeline_new rhi_device pipeline_state this0) →
  stage <$> pStages info
  = VK_SHADER_STAGE_VERTEX_BIT
    :: match shader_pixel m_state with
       | Some _ => [VK_SHADER_STAGE_FRAGMENT_BIT]
       | None => []
       end
  ∧ stage_module <$> pStages info
    = GetResource
        <$> (option_list (shader_vertex m_state) ++ option_list (shader_pixel m_state))
  ∧ ∀ stage_info, stage_info ∈ pStages info →
      stage_module stage_info ≠ nullptr ∧ pName stage_info ≠ None.
Proof.
  intros m_state Hin.
  destruct (RHI_Pipeline_new_request _ _ _ _ _ Hin)
    as (vs & rasterizer & blend & depth_stencil & device_ & slots & layout_info & this1 & name
        & Hvs & Hvalid & Hps & _ & _ & _ & _ & _ & _ & _ & _ & _ & _ & _ & Hstages & _).
  fold m_state in Hvs, Hps, Hstages. rewrite Hstages, Hvs.
  destruct (shader_pixel m_state) as [ps|]; cbn.
  - split; [done|]. split; [done|]. intros stage_info Hstage.
    apply elem_of_cons in Hstage as [->|Hstage]; [done|].
    apply list_elem_of_singleton in Hstage as ->. by apply Hps.
  - split; [done|]. split; [done|]. intros stage_info Hstage.
    by apply list_elem_of_singleton in Hstage as ->.
Qed.

(** Property X12. A pixel shader that is there but has a null module or a null
    entry point stops the constructor, once the vertex shader has passed:
    it logs the error and returns, nothing is asked of the driver and no
    member but the device and the snapshot is assigned. The check precedes
    every use of the device and of the sub-states, so this holds also when
    one of these is null. *)
Theorem RHI_Pipeline_new_invalid_pixel_shader rhi_device pipeline_state this0 vs ps :
  let m_state := CreateFrameResources rhi_device pipeline_state in
  shader_vertex m_state = Some vs →
  GetResource vs ≠ nullptr →
  GetEntryPoint vs ≠ None →
  shader_pixel m_state = Some ps →
  GetResource ps = nullptr ∨ GetEntryPoint ps = None →
  RHI_Pipeline_new rhi_device pipeline_state this0
  = Return (set_m_state m_state (set_m_rhi_device rhi_device this0))
      [Log Log_Error "Pixel shader is invalid"].
Proof.
  intros m_state Hvs Hres Hentry Hps Hinvalid. unfold RHI_Pipeline_new. run_body.
  cbn [Vulkan.m_state set_m_state set_m_rhi_device m_rhi_device]. fold m_state.
  rewrite Hvs, Hps. cbn [stage_module pName].
  rewrite (bool_decide_eq_false_2 (GetResource vs = nullptr)) by done.
  rewrite (bool_decide_eq_false_2 (GetEntryPoint vs = None)) by done.
  cbn [orb].
  assert (bool_decide (GetResource ps = nullptr)
          || bool_decide (GetEntryPoint ps = None) = true) as ->.
  { destruct Hinvalid as [->| ->]; rewrite ?bool_decide_eq_true_2 by done;
      [done|apply orb_true_r]. }
  reflexivity.
Qed.

(** ** The driver's answers *)

(** Property X13. When the driver rejects the pipeline layout, the constructor
    returns at once: the descriptor set has been made and the layout handle
    holds what the driver wrote, if anything, but no pipeline is asked for
    or named, and the pipeline handle is as declared. *)
Theorem RHI_Pipeline_new_layout_rejected rhi_device pipeline_state this0 d layout_info :
  let m_state := CreateFrameResources rhi_device pipeline_state in
  Called_vkCreatePipelineLayout d layout_info
    ∈ events_of (RHI_Pipeline_new rhi_device pipeline_state this0) →
  error_check (vkCreatePipelineLayout d layout_info).1 = false →
  ∃ this slots,
    RHI_Pipeline_new rhi_device pipeline_state this0
    = Return this
        [DescriptorSet_Initialize slots; Called_vkCreatePipelineLayout d layout_info]
    ∧ m_pipeline this = m_pipeline this0
    ∧ m_pipeline_layout this
      = default (m_pipeline_layout this0) (vkCreatePipelineLayout d layout_info).2
    ∧ m_descriptor_set this
      = Some (GetResource_Layout slots (shader_vertex m_state) (shader_pixel m_state))
    ∧ pSetLayouts layout_info
      = [GetResource_Layout slots (shader_vertex m_state) (shader_pixel m_state)].
Proof.
  intros m_state. unfold RHI_Pipeline_new. run_body.
  cbn [Vulkan.m_state set_m_state set_m_rhi_device m_rhi_device]. fold m_state.
  destruct (shader_vertex m_state) as [vs|]; cbn [stage_module pName]; [|absurd_event].
  destruct (bool_decide (GetResource vs = nullptr) || bool_decide (GetEntryPoint vs = None));
    [absurd_event|].
  destruct (shader_pixel m_state) as [ps|]; cbn [stage_module pName];
    [destruct (bool_decide (GetResource ps = nullptr)
               || bool_decide (GetEntryPoint ps = None)); [absurd_event|]|].
  all: destruct (rasterizer_state m_state) as [rasterizer|]; [|absurd_event].
  all: destruct rhi_device as [device_|]; [|absurd_event].
  all: destruct (blend_state m_state) as [blend|]; [|absurd_event].
  all: destruct (depth_stencil_state m_state) as [depth_stencil|]; [|absurd_event].
  all: match goal with |- context [vkCreatePipelineLayout ?d ?i] =>
         set (li := i);
         destruct (vkCreatePipelineLayout d li) as [result written] eqn:Hlayout end.
  all: match goal with |- context [error_check ?r] =>
         destruct (error_check r) eqn:Hcheck end.
  all: try match goal with |- context [vkCreateGraphicsPipelines ?d ?i] =>
         destruct (vkCreateGraphicsPipelines d i) as [result' written'] end.
  all: cbn [events_of app].
  all: intros Hin.
  all: apply elem_of_cons in Hin as [Hin|Hin]; [discriminate Hin|].
  all: apply elem_of_cons in Hin as [Hin|Hin];
    [|repeat (apply elem_of_cons in Hin as [Hin|Hin]; [discriminate Hin|]);
      by apply elem_of_nil in Hin].
  all: injection Hin as -> ->.
  all: rewrite Hlayout; cbn [fst snd]; intros Hrejected.
  all: try congruence.
  all: by eexists _, _.
Qed.

(** Property X14. The answer of the driver to the pipeline request is not acted
    upon: every run that asks for a pipeline goes on to its end, whatever
    the result, and names the pipeline by the handle it holds then, which
    is the declared one when the driver wrote none. The name is made of the
    names of the two shaders, [null] standing for an absent pixel
    shader. *)
Theorem RHI_Pipeline_new_ignores_creation_result rhi_device pipeline_state this0 d info :
  let m_state := CreateFrameResources rhi_device pipeline_state in
  Called_vkCreateGraphicsPipelines d info
    ∈ events_of (RHI_Pipeline_new rhi_device pipeline_state this0) →
  ∃ this out name,
    RHI_Pipeline_new rhi_device pipeline_state this0
    = Next () this
        (out ++ [Called_vkCreateGraphicsPipelines d info;
                 Called_set_pipeline_name d (m_pipeline this) name])
    ∧ m_pipeline this = default (m_pipeline this0) (vkCreateGraphicsPipelines d info).2
    ∧ layout info = m_pipeline_layout this.
Proof.
  intros m_state Hin.
  destruct (RHI_Pipeline_new_request _ _ _ _ _ Hin)
    as (vs & rasterizer & blend & depth_stencil & device_ & slots & layout_info & this1 & name
        & _ & _ & _ & _ & _ & _ & _ & _ & _ & Hrun & _ & Hpipeline & _ & Hlayout & _).
  exists this1, [DescriptorSet_Initialize slots; Called_vkCreatePipelineLayout d layout_info],
    name.
  done.
Qed.

(** ** Dynamic state and blend attachments of the request *)

(** Property X15. The dynamic state of a pipeline request: the viewport is listed
    exactly when the viewport of the snapshot is not defined, the scissor
    exactly when the snapshot asks for a dynamic scissor, the viewport
    first; and the request carries no dynamic state at all (a null pointer)
    exactly when neither is. *)
Theorem RHI_Pipeline_new_dynamic_state rhi_device pipeline_state this0 d info :
  let m_state := CreateFrameResources rhi_device pipeline_state in
  Called_vkCreateGraphicsPipelines d info
    ∈ events_of (RHI_Pipeline_new rhi_device pipeline_state this0) →
  let listed := default [] (pDynamicStates <$> pDynamicState info) in
  listed
  = (if Viewport_IsDefined (viewport m_state) then [] else [VK_DYNAMIC_STATE_VIEWPORT])
    ++ (if dynamic_scissor m_state then [VK_DYNAMIC_STATE_SCISSOR] else [])
  ∧ (pDynamicState info = None
     ↔ Viewport_IsDefined (viewport m_state) = true ∧ dynamic_scissor m_state = false).
Proof.
  intros m_state Hin.
  destruct (RHI_Pipeline_new_request _ _ _ _ _ Hin)
    as (vs & rasterizer & blend & depth_stencil & device_ & slots & layout_info & this1 & name
        & _ & _ & _ & _ & _ & _ & _ & _ & _ & _ & _ & _ & _ & _ & _ & Hdynamic & _).
  fold m_state in Hdynamic. cbv zeta in *. rewrite Hdynamic.
  destruct (Viewport_IsDefined (viewport m_state)), (dynamic_scissor m_state); cbn;
    (split; [done|]); split; (done || by intros [? ?]).
Qed.

(** Property X16. A pipeline request has one blend attachment for the swapchain, if
    the snapshot renders to one, and one for each colour texture that is
    not null among the first [state_max_render_target_count]; all
    attachments are the same. *)
Theorem RHI_Pipeline_new_blend_attachments rhi_device pipeline_state this0 d info :
  let m_state := CreateFrameResources rhi_device pipeline_state in
  Called_vkCreateGraphicsPipelines d info
    ∈ events_of (RHI_Pipeline_new rhi_device pipeline_state this0) →
  let attachments := pAttachments (pColorBlendState info) in
  length attachments
  = ((if bool_decide (render_target_swapchain m_state ≠ nullptr) then 1 else 0)
     + length (filter (λ texture, texture ≠ nullptr)
                 (take state_max_render_target_count
                    (render_target_color_textures m_state))))%nat
  ∧ (length attachments ≤ 1 + state_max_render_target_count)%nat
  ∧ ∀ a b, a ∈ attachments → b ∈ attachments → a = b.
Proof.
  intros m_state Hin.
  destruct (RHI_Pipeline_new_request _ _ _ _ _ Hin)
    as (vs & rasterizer & blend & depth_stencil & device_ & slots & layout_info & this1 & name
        & _ & _ & _ & _ & _ & _ & _ & _ & _ & _ & _ & _ & _ & _ & _ & _
        & attachment & Hattachments).
  fold m_state in Hattachments. cbv zeta. rewrite Hattachments.
  rewrite length_app, length_fmap.
  assert (∀ a,
            a ∈ (if bool_decide (render_target_swapchain m_state ≠ nullptr)
                 then [attachment] else [])
                ++ ((λ _, attachment)
                      <$> filter (λ texture, texture ≠ nullptr)
                            (take state_max_render_target_count
                               (render_target_color_textures m_state))) →
            a = attachment) as Hsame.
  { intros a [Ha|Ha]%elem_of_app.
    - destruct (bool_decide _); [by apply list_elem_of_singleton in Ha|
                                 by apply elem_of_nil in Ha].
    - by apply list_elem_of_fmap in Ha as (? & -> & _). }
  split; [|split].
  - by destruct (bool_decide _).
  - pose proof (length_filter (λ texture : ptr, texture ≠ nullptr)
                  (take state_max_render_target_count
                     (render_target_color_textures m_state))) as Hf.
    rewrite length_take in Hf. destruct (bool_decide _); cbn [length]; lia.
  - intros a b Ha Hb. by rewrite (Hsame a Ha), (Hsame b Hb).
Qed.

(** ** Construction and destruction *)

(** Property X17. The destructor releases what the constructor obtained: on an
    object whose constructor ran to its end, it waits, destroys the
    pipeline the constructor named and then the layout the pipeline was
    requested with, on the device the constructor used, and leaves both
    handles null. *)
Theorem RHI_Pipeline_delete_releases_what_new_obtained
    rhi_device pipeline_state this0 this out outstanding :
  RHI_Pipeline_new rhi_device pipeline_state this0 = Next () this out →
  ∃ d info name this' outstanding' w1 w2,
    last out = Some (Called_set_pipeline_name d (m_pipeline this) name)
    ∧ Called_vkCreateGraphicsPipelines d info ∈ out
    ∧ RHI_Pipeline_delete (this, outstanding)
      = Next () (this', outstanding')
          [Called_Queue_WaitAll;
           Called_vkDestroyPipeline d (m_pipeline this) w1;
           Called_vkDestroyPipelineLayout d (layout info) w2]
    ∧ m_pipeline this' = nullptr
    ∧ m_pipeline_layout this' = nullptr.
Proof.
  intros Hrun. destruct (RHI_Pipeline_new_Next _ _ _ _ _ Hrun) as (d & info & Hin).
  assert (Called_vkCreateGraphicsPipelines d info
            ∈ events_of (RHI_Pipeline_new rhi_device pipeline_state this0)) as Hin'
    by (by rewrite Hrun).
  destruct (RHI_Pipeline_new_request _ _ _ _ _ Hin')
    as (vs & rasterizer & blend & depth_stencil & device_ & slots & layout_info & this1 & name
        & _ & _ & _ & _ & _ & _ & -> & -> & _ & Hrun' & Hdev & _ & _ & Hlayout & _).
  rewrite Hrun in Hrun'. injection Hrun' as <- ->.
  exists (device (GetContextRhi device_)), info, name.
  unfold RHI_Pipeline_delete. run_body. cbn. rewrite Hdev. cbn. rewrite Hlayout.
  by eexists _, _, _, _.
Qed.

(** Property X18. With a null device the constructor never runs to its end. It can
    only leave through one of the two shader checks, which come before the
    first use of the device; the object it then leaves holds the null
    device, which the destructor dereferences. *)
Theorem RHI_Pipeline_new_without_device pipeline_state this0 this out outstanding :
  RHI_Pipeline_new None pipeline_state this0 ≠ Next () this out
  ∧ (RHI_Pipeline_new None pipeline_state this0 = Return this out →
     (out = [Log Log_Error "Vertex shader is invalid"]
      ∨ out = [Log Log_Error "Pixel shader is invalid"])
     ∧ RHI_Pipeline_delete (this, outstanding) = Undefined).
Proof.
  split.
  - intros Hrun. destruct (RHI_Pipeline_new_Next _ _ _ _ _ Hrun) as (d & info & Hin).
    assert (Called_vkCreateGraphicsPipelines d info
              ∈ events_of (RHI_Pipeline_new None pipeline_state this0)) as Hin'
      by (by rewrite Hrun).
    by destruct (RHI_Pipeline_new_request _ _ _ _ _ Hin')
      as (vs & rasterizer & blend & depth_stencil & device_ & slots & layout_info & this1 & name
          & _ & _ & _ & _ & _ & _ & Hnone & _).
  - unfold RHI_Pipeline_new. run_body.
    cbn [Vulkan.m_state set_m_state set_m_rhi_device m_rhi_device].
    set (m_state := CreateFrameResources None pipeline_state).
    destruct (shader_vertex m_state) as [vs|]; cbn [stage_module pName];
      [|intros [= <- <-]; split; [by left|done]].
    destruct (bool_decide (GetResource vs = nullptr)
              || bool_decide (GetEntryPoint vs = None));
      [intros [= <- <-]; split; [by left|done]|].
    destruct (shader_pixel m_state) as [ps|]; cbn [stage_module pName];
      [destruct (bool_decide (GetResource ps = nullptr)
                 || bool_decide (GetEntryPoint ps = None));
       [intros [= <- <-]; split; [by right|done]|]|].
    all: by destruct (rasterizer_state m_state).
Qed.

End Construction_more.

Lemma RHI_Pipeline_new_requests_valid_stages_witness :
  ∃ info,
    Called_vkCreateGraphicsPipelines 16%N info
      ∈ events_of (RHI_Pipeline_new (H := sample_implementation) (Some sample_device)
                     (sample_state_with_pixel_shader sample_pixel_shader) sample_pipeline)
    ∧ stage <$> pStages info = [VK_SHADER_STAGE_VERTEX_BIT; VK_SHADER_STAGE_FRAGMENT_BIT]
    ∧ stage_module <$> pStages info = [512%N; 768%N].
Proof.
  eexists.
  assert (Called_vkCreateGraphicsPipelines 16%N _
            ∈ events_of (RHI_Pipeline_new (H := sample_implementation) (Some sample_device)
                           (sample_state_with_pixel_shader sample_pixel_shader)
                           sample_pipeline)) as Hin
    by (do 2 apply list_elem_of_further; apply list_elem_of_here).
  split; [exact Hin|].
  destruct (RHI_Pipeline_new_requests_valid_stages (H := sample_implementation)
              _ _ _ _ _ Hin) as (Hstages & Hmodules & _).
  split; [exact Hstages|exact Hmodules].
Defined.

Lemma RHI_Pipeline_new_invalid_pixel_shader_witness :
  RHI_Pipeline_new (H := sample_implementation) (Some sample_device)
    (sample_state_with_pixel_shader sample_invalid_pixel_shader) sample_pipeline
  = Return
      (set_m_state (sample_state_with_pixel_shader sample_invalid_pixel_shader)
         (set_m_rhi_device (Some sample_device) sample_pipeline))
      [Log Log_Error "Pixel shader is invalid"].
Proof.
  exact (RHI_Pipeline_new_invalid_pixel_shader (H := sample_implementation)
           (Some sample_device) (sample_state_with_pixel_shader sample_invalid_pixel_shader)
           sample_pipeline sample_vertex_shader sample_invalid_pixel_shader
           eq_refl ltac:(done) ltac:(done) eq_refl (or_introl eq_refl)).
Defined.

Lemma RHI_Pipeline_new_layout_rejected_witness :
  ∃ this slots,
    RHI_Pipeline_new
      (H := sample_implementation_answering (VK_ERROR_OUT_OF_HOST_MEMORY, None)
              (0, Some 12288%N))
      (Some sample_device) sample_state sample_pipeline
    = Return this
        [DescriptorSet_Initialize slots;
         Called_vkCreatePipelineLayout 16%N
           {| pushConstantRangeCount := 0; pSetLayouts := [4096%N] |}]
    ∧ m_pipeline this = nullptr
    ∧ m_pipeline_layout this = nullptr.
Proof.
  destruct (RHI_Pipeline_new_layout_rejected
              (H := sample_implementation_answering (VK_ERROR_OUT_OF_HOST_MEMORY, None)
                      (0, Some 12288%N))
              (Some sample_device) sample_state sample_pipeline 16%N
              {| pushConstantRangeCount := 0; pSetLayouts := [4096%N] |}
              ltac:(apply list_elem_of_further; apply list_elem_of_here) eq_refl)
    as (this & slots & Hrun & Hpipeline & Hlayout & _).
  exists this, slots. split; [exact Hrun|]. split; [exact Hpipeline|exact Hlayout].
Defined.

Lemma RHI_Pipeline_new_ignores_creation_result_witness :
  ∃ info this out name,
    RHI_Pipeline_new
      (H := sample_implementation_answering (0, Some 8192%N)
              (VK_ERROR_OUT_OF_HOST_MEMORY, None))
      (Some sample_device) sample_state sample_pipeline
    = Next () this
        (out ++ [Called_vkCreateGraphicsPipelines 16%N info;
                 Called_set_pipeline_name 16%N (m_pipeline this) name])
    ∧ m_pipeline this = nullptr.
Proof.
  eexists.
  assert (Called_vkCreateGraphicsPipelines 16%N _
            ∈ events_of
                (RHI_Pipeline_new
                   (H := sample_implementation_answering (0, Some 8192%N)
                           (VK_ERROR_OUT_OF_HOST_MEMORY, None))
                   (Some sample_device) sample_state sample_pipeline)) as Hin
    by (do 2 apply list_elem_of_further; apply list_elem_of_here).
  destruct (RHI_Pipeline_new_ignores_creation_result
              (H := sample_implementation_answering (0, Some 8192%N)
                      (VK_ERROR_OUT_OF_HOST_MEMORY, None)) _ _ _ _ _ Hin)
    as (this & out & name & Hrun & Hpipeline & _).
  exists this, out, name. split; [exact Hrun|exact Hpipeline].
Defined.

Lemma RHI_Pipeline_new_dynamic_state_witness :
  ∃ info,
    Called_vkCreateGraphicsPipelines 16%N info
      ∈ events_of (RHI_Pipeline_new (H := sample_implementation) (Some sample_device)
                     sample_state sample_pipeline)
    ∧ default [] (pDynamicStates <$> pDynamicState info) = [VK_DYNAMIC_STATE_VIEWPORT].
Proof.
  eexists.
  assert (Called_vkCreateGraphicsPipelines 16%N _
            ∈ events_of (RHI_Pipeline_new (H := sample_implementation) (Some sample_device)
                           sample_state sample_pipeline)) as Hin
    by (do 2 apply list_elem_of_further; apply list_elem_of_here).
  split; [exact Hin|].
  exact (proj1 (RHI_Pipeline_new_dynamic_state (H := sample_implementation) _ _ _ _ _ Hin)).
Defined.

Lemma RHI_Pipeline_new_blend_attachments_witness :
  ∃ info,
    Called_vkCreateGraphicsPipelines 16%N info
      ∈ events_of (RHI_Pipeline_new (H := sample_implementation) (Some sample_device)
                     sample_state sample_pipeline)
    ∧ length (pAttachments (pColorBlendState info)) = 1%nat.
Proof.
  eexists.
  assert (Called_vkCreateGraphicsPipelines 16%N _
            ∈ events_of (RHI_Pipeline_new (H := sample_implementation) (Some sample_device)
                           sample_state sample_pipeline)) as Hin
    by (do 2 apply list_elem_of_further; apply list_elem_of_here).
  split; [exact Hin|].
  exact (proj1 (RHI_Pipeline_new_blend_attachments (H := sample_implementation)
                  _ _ _ _ _ Hin)).
Defined.

Lemma RHI_Pipeline_delete_releases_what_new_obtained_witness :
  RHI_Pipeline_new (H := sample_implementation) (Some sample_device) sample_state
    sample_pipeline
  = Next () sample_constructed
      (events_of (RHI_Pipeline_new (H := sample_implementation) (Some sample_device)
                    sample_state sample_pipeline))
  ∧ ∃ d info this' outstanding' w1 w2,
      RHI_Pipeline_delete (sample_constructed, [{| references := [12288%N] |}])
      = Next () (this', outstanding')
          [Called_Queue_WaitAll;
           Called_vkDestroyPipeline d 12288%N w1;
           Called_vkDestroyPipelineLayout d (layout info) w2].
Proof.
  split; [reflexivity|].
  destruct (RHI_Pipeline_delete_releases_what_new_obtained (H := sample_implementation)
              (Some sample_device) sample_state sample_pipeline sample_constructed
              (events_of (RHI_Pipeline_new (H := sample_implementation)
                            (Some sample_device) sample_state sample_pipeline))
              [{| references := [12288%N] |}] eq_refl)
    as (d & info & name & this' & outstanding' & w1 & w2 & _ & _ & Hdelete & _).
  by exists d, info, this', outstanding', w1, w2.
Defined.

Lemma RHI_Pipeline_new_without_device_witness :
  RHI_Pipeline_new (H := sample_implementation) None sample_state_without_vertex_shader
    sample_pipeline
  = Return (set_m_state sample_state_without_vertex_shader sample_pipeline)
      [Log Log_Error "Vertex shader is invalid"]
  ∧ RHI_Pipeline_delete (set_m_state sample_state_without_vertex_shader sample_pipeline, [])
    = Undefined.
Proof.
  split; [reflexivity|].
  exact (proj2 (proj2 (RHI_Pipeline_new_without_device (H := sample_implementation)
                         sample_state_without_vertex_shader sample_pipeline
                         (set_m_state sample_state_without_vertex_shader sample_pipeline)
                         [Log Log_Error "Vertex shader is invalid"] []) eq_refl)).
Defined.

End Pipeline_more.

(** * Further properties of RHI_Device *)

Section Device_more.
Import Spartan Spartan.D3D11.

Ltac run_body :=
  cbv [mbind Body_bind mret Body_ret get modify emit return_ undefined deref when
       LOG_ERROR LOG_WARNING LOG_INFO].

Ltac simplify_run :=
  cbn -[D3D11CreateDevice FAILED GetFeatureLevel QueryInterface_Annotation].

Ltac normalise_flags :=
  change (Z.lor 0 D3D11_CREATE_DEVICE_DEBUG) with D3D11_CREATE_DEVICE_DEBUG in *;
  change (Z.land D3D11_CREATE_DEVICE_DEBUG (to_uint32 (Z.lnot D3D11_CREATE_DEVICE_DEBUG)))
    with 0 in *;
  change (Z.land 0 (to_uint32 (Z.lnot D3D11_CREATE_DEVICE_DEBUG))) with 0 in *.

(** Every path through the constructor, one goal each. *)
Ltac enter :=
  unfold RHI_Device_new, create_device, log_feature_level; run_body; simplify_run.

Ltac explore :=
  repeat match goal with
  | |- context [match GetPrimaryPhysicalDevice with _ => _ end] =>
      destruct GetPrimaryPhysicalDevice eqn:?; simplify_run
  | |- context [if debug RHI_Context_new then _ else _] =>
      destruct (debug RHI_Context_new) eqn:?; simplify_run; normalise_flags
  | |- context [D3D11CreateDevice ?n ?a ?b ?c ?d ?e] =>
      destruct (D3D11CreateDevice n a b c d e) as [[? ?] ?] eqn:?; simplify_run
  | |- context [bool_decide (?r = DXGI_ERROR_SDK_COMPONENT_MISSING)] =>
      destruct (bool_decide (r = DXGI_ERROR_SDK_COMPONENT_MISSING)) eqn:?; simplify_run
  | |- context [FAILED ?r] => destruct (FAILED r) eqn:?; simplify_run
  | |- context [GetFeatureLevel ?d] => destruct (GetFeatureLevel d) eqn:?; simplify_run
  | |- context [match ?c with Some _ => _ | None => _ end] =>
      destruct c eqn:?; simplify_run
  | |- context [QueryInterface_Annotation ?c] =>
      destruct (QueryInterface_Annotation c) as [? ?] eqn:?; simplify_run
  end.

Ltac every_path := enter; explore.

Section Machine.
Context `{D3D11_Implementation}.

(** ** Success and failure *)

(** Property X19. The device is initialised exactly when the constructor runs to
    its end. In every run that ends so, no error is logged. Every run that
    leaves through a [return] logs exactly one error, as the last thing it
    does, and leaves [m_initialized] as declared. The texture-size limit is
    set in both cases. The only null pointers the constructor dereferences
    are those of the engine context and of its settings. *)
Theorem RHI_Device_new_initialized_iff_ran_to_end context this0 :
  match RHI_Device_new context this0 with
  | Next _ this out =>
      m_initialized this = true
      ∧ (∀ message, Log Log_Error message ∉ out)
      ∧ max_texture_dimension_2d (m_rhi_context this) = D3D11_REQ_TEXTURE2D_U_OR_V_DIMENSION
  | Return this out =>
      m_initialized this = m_initialized this0
      ∧ (∃ out' message, out = out' ++ [Log Log_Error message]
                         ∧ ∀ message', Log Log_Error message' ∉ out')
      ∧ max_texture_dimension_2d (m_rhi_context this) = D3D11_REQ_TEXTURE2D_U_OR_V_DIMENSION
  | Undefined =>
      context = None ∨ ∃ context_, context = Some context_
                                   ∧ GetSubsystem_Settings context_ = None
  end.
Proof.
  every_path.
  all: try (split; [reflexivity|split; [|reflexivity]]).
  all: try (intros message Hin;
            repeat (apply elem_of_cons in Hin as [Hin|Hin]; [discriminate Hin|]);
            by apply elem_of_nil in Hin).
  all: try (by left).
  all: try (right; by eexists).
  all: try (eexists [_], _; split; [reflexivity|]).
  all: try (eexists [_; _], _; split; [reflexivity|]).
  all: try (eexists [_; _; _], _; split; [reflexivity|]).
  all: try (eexists [_; _; _; _], _; split; [reflexivity|]).
  all: try (eexists [_; _; _; _; _], _; split; [reflexivity|]).
  all: try (eexists [_; _; _; _; _; _], _; split; [reflexivity|]).
  all: try (eexists [_; _; _; _; _; _; _], _; split; [reflexivity|]).
  all: try (intros message Hin;
            repeat (apply elem_of_cons in Hin as [Hin|Hin]; [discriminate Hin|]);
            by apply elem_of_nil in Hin).
Qed.

(** Property X20. Without an adapter the constructor gives up before it attempts to
    create a device: it logs the error and returns, with the device
    handles of the fresh context untouched. *)
Theorem RHI_Device_new_without_adapter context this0 :
  GetPrimaryPhysicalDevice = None →
  ∃ this,
    RHI_Device_new context this0
    = Return this [Called_DetectAdapters; Log Log_Error "Failed to detect any devices"]
    ∧ m_initialized this = m_initialized this0
    ∧ device (m_rhi_context this) = device RHI_Context_new
    ∧ device_context (m_rhi_context this) = device_context RHI_Context_new.
Proof.
  intros Hnone. unfold RHI_Device_new. run_body. rewrite Hnone. by eexists.
Qed.

(** ** The attempts to create the device *)

(** Property X21. With an adapter, the constructor attempts creation once, with the
    debug flag exactly when debug instrumentation is requested, and a second
    time exactly when the first attempt reports the SDK component missing;
    the second attempt has no flag, and logs one warning. The attempts
    differ in nothing but the flags: the adapter of the primary physical
    device, the driver type unknown for an adapter and hardware for none,
    the seven feature levels and the SDK version. *)
Theorem RHI_Device_new_creation_attempts context this0 physical_device :
  GetPrimaryPhysicalDevice = Some physical_device →
  RHI_Device_new context this0 ≠ Undefined →
  let out := events_of (RHI_Device_new context this0) in
  let adapter := data physical_device in
  let driver_type :=
    if bool_decide (adapter ≠ nullptr) then D3D_DRIVER_TYPE_UNKNOWN
    else D3D_DRIVER_TYPE_HARDWARE in
  let flags := if debug RHI_Context_new then D3D11_CREATE_DEVICE_DEBUG else 0 in
  let first :=
    (D3D11CreateDevice 0 adapter driver_type flags feature_levels D3D11_SDK_VERSION).1.1 in
  creation_attempts out
  = (if bool_decide (first = DXGI_ERROR_SDK_COMPONENT_MISSING) then [flags; 0] else [flags])
  ∧ length (warnings out)
    = (if bool_decide (first = DXGI_ERROR_SDK_COMPONENT_MISSING) then 1 else 0)%nat
  ∧ ∀ e, e ∈ out →
      match e with
      | Called_D3D11CreateDevice adapter' driver_type' _ feature_levels' sdk_version =>
          adapter' = adapter ∧ driver_type' = driver_type
          ∧ feature_levels' = feature_levels ∧ sdk_version = D3D11_SDK_VERSION
      | _ => True
      end.
Proof.
  intros Hpd Hdefined. cbv zeta.
  remember (RHI_Device_new context this0) as flow eqn:Hflow.
  revert Hflow Hdefined. enter. rewrite Hpd. simplify_run. explore.
  all: intros ->; [..]; try (intros Hundefined; by destruct Hundefined).
  all: intros _; cbn [fst events_of].
  all: split; [reflexivity|]; split; [reflexivity|].
  all: intros e Hin;
       repeat (apply elem_of_cons in Hin as [->|Hin]; [done|]);
       by apply elem_of_nil in Hin.
Qed.

(** Property X22. The retry does not depend on the debug request: when
    debug instrumentation is not requested and the first attempt reports
    the SDK component missing all the same, the constructor logs the
    warning about the debug flag and repeats the call with the very same
    arguments, flags included. What follows is decided by the answer to
    this second call alone: if it fails, the constructor logs the error and
    returns with the device uninitialised; if it succeeds, the constructor
    goes on, without a query for the annotation interface, and leaves the
    device initialised, holding what the second call wrote. *)
Theorem RHI_Device_new_retries_without_debug_request context this0 physical_device
    device1 context1 result device_ device_context_ :
  debug RHI_Context_new = false →
  GetPrimaryPhysicalDevice = Some physical_device →
  let adapter := data physical_device in
  let driver_type :=
    if bool_decide (adapter ≠ nullptr) then D3D_DRIVER_TYPE_UNKNOWN
    else D3D_DRIVER_TYPE_HARDWARE in
  D3D11CreateDevice 0 adapter driver_type 0 feature_levels D3D11_SDK_VERSION
  = (DXGI_ERROR_SDK_COMPONENT_MISSING, device1, context1) →
  D3D11CreateDevice 1 adapter driver_type 0 feature_levels D3D11_SDK_VERSION
  = (result, device_, device_context_) →
  RHI_Device_new context this0 ≠ Undefined →
  ∃ this warning rest,
    RHI_Device_new context this0
    = (let out :=
         [Called_DetectAdapters;
          Called_D3D11CreateDevice adapter driver_type 0 feature_levels D3D11_SDK_VERSION;
          Log Log_Warning warning;
          Called_D3D11CreateDevice adapter driver_type 0 feature_levels D3D11_SDK_VERSION]
         ++ rest in
       if FAILED result then Return this out else Next () this out)
    ∧ (FAILED result = true → rest = [Log Log_Error "Failed to create device, %s."])
    ∧ (∀ message, FAILED result = false → Log Log_Error message ∉ rest)
    ∧ (Called_QueryInterface_Annotation ∉ rest)
    ∧ m_initialized this = (if FAILED result then m_initialized this0 else true)
    ∧ device (m_rhi_context this) = device_
    ∧ device_context (m_rhi_context this) = device_context_.
Proof.
  intros Hdebug Hpd adapter driver_type Hfirst Hretry.
  enter. rewrite Hpd. simplify_run. rewrite Hdebug. simplify_run. normalise_flags.
  fold adapter driver_type. rewrite Hfirst. simplify_run.
  rewrite bool_decide_eq_true_2 by done. simplify_run. rewrite Hretry. simplify_run.
  destruct (FAILED result) eqn:Hfailed; simplify_run.
  - intros _. eexists _, _, [_]. split; [reflexivity|]. split; [done|]. split; [done|].
    split; [|done]. intros Hin.
    repeat (apply elem_of_cons in Hin as [Hin|Hin]; [discriminate Hin|]).
    by apply elem_of_nil in Hin.
  - destruct (GetFeatureLevel device_); simplify_run.
    all: repeat match goal with
         | |- context [match ?c with Some _ => _ | None => _ end] =>
             destruct c eqn:?; simplify_run
         end.
    all: rewrite ?Hdebug; simplify_run.
    all: intros Hdefined; try by destruct Hdefined.
    all: first [eexists _, _, []; split; [reflexivity|]
               |eexists _, _, [_; _]; split; [reflexivity|]].
    all: split; [done|].
    all: split; [intros message _ Hin;
                 repeat (apply elem_of_cons in Hin as [Hin|Hin]; [discriminate Hin|]);
                 by apply elem_of_nil in Hin|].
    all: split; [|done]; intros Hin.
    all: repeat (apply elem_of_cons in Hin as [Hin|Hin]; [discriminate Hin|]).
    all: by apply elem_of_nil in Hin.
Qed.

(** Property X23. Without a debug request the annotation interface is never
    queried: with an adapter, the engine context and its settings in place,
    and a first answer other than the missing SDK component, the device is
    initialised exactly when creation succeeded, it holds the device and
    the immediate context the runtime wrote, and its annotation handle is
    the one of the fresh context. *)
Theorem RHI_Device_new_without_debug context this0 physical_device context_ settings
    result device_ device_context_ :
  debug RHI_Context_new = false →
  GetPrimaryPhysicalDevice = Some physical_device →
  context = Some context_ →
  GetSubsystem_Settings context_ = Some settings →
  let adapter := data physical_device in
  let driver_type :=
    if bool_decide (adapter ≠ nullptr) then D3D_DRIVER_TYPE_UNKNOWN
    else D3D_DRIVER_TYPE_HARDWARE in
  D3D11CreateDevice 0 adapter driver_type 0 feature_levels D3D11_SDK_VERSION
  = (result, device_, device_context_) →
  result ≠ DXGI_ERROR_SDK_COMPONENT_MISSING →
  ∃ this out,
    RHI_Device_new context this0
    = (if FAILED result then Return this out else Next () this out)
    ∧ creation_attempts out = [0]
    ∧ (Called_QueryInterface_Annotation ∉ out)
    ∧ m_initialized this = (if FAILED result then m_initialized this0 else true)
    ∧ device (m_rhi_context this) = device_
    ∧ device_context (m_rhi_context this) = device_context_
    ∧ annotation (m_rhi_context this) = annotation RHI_Context_new.
Proof.
  intros Hdebug Hpd -> Hsettings adapter driver_type Hcreate Hother.
  enter. rewrite Hpd. simplify_run. rewrite Hdebug. simplify_run. normalise_flags.
  fold adapter driver_type. rewrite Hcreate. simplify_run.
  rewrite bool_decide_eq_false_2 by done. simplify_run.
  destruct (FAILED result); simplify_run.
  - eexists _, _. split; [reflexivity|]. split; [reflexivity|]. split; [|done].
    intros Hin. repeat (apply elem_of_cons in Hin as [Hin|Hin]; [discriminate Hin|]).
    by apply elem_of_nil in Hin.
  - destruct (GetFeatureLevel device_); simplify_run; rewrite ?Hsettings; simplify_run;
      rewrite Hdebug; simplify_run.
    all: eexists _, _; (split; [reflexivity|]); (split; [reflexivity|]); (split; [|done]).
    all: intros Hin; repeat (apply elem_of_cons in Hin as [Hin|Hin]; [discriminate Hin|]);
      by apply elem_of_nil in Hin.
Qed.

(** ** The engine context *)

(** Property X24. The engine context is used only to register the feature level,
    and the levels 12.0 and 12.1 are not registered. So with a null engine
    context, once a device has been created, the constructor dereferences
    the null pointer exactly when the level of the device is one of 9.1 to
    11.1. *)
Theorem RHI_Device_new_with_null_context this0 physical_device result device_
    device_context_ :
  GetPrimaryPhysicalDevice = Some physical_device →
  let adapter := data physical_device in
  let driver_type :=
    if bool_decide (adapter ≠ nullptr) then D3D_DRIVER_TYPE_UNKNOWN
    else D3D_DRIVER_TYPE_HARDWARE in
  let flags := if debug RHI_Context_new then D3D11_CREATE_DEVICE_DEBUG else 0 in
  D3D11CreateDevice 0 adapter driver_type flags feature_levels D3D11_SDK_VERSION
  = (result, device_, device_context_) →
  FAILED result = false →
  RHI_Device_new None this0 = Undefined
  ↔ GetFeatureLevel device_ ≠ D3D_FEATURE_LEVEL_12_0
    ∧ GetFeatureLevel device_ ≠ D3D_FEATURE_LEVEL_12_1.
Proof.
  intros Hpd adapter driver_type flags Hcreate Hok.
  assert (result ≠ DXGI_ERROR_SDK_COMPONENT_MISSING) as Hother
    by (intros ->; discriminate Hok).
  enter. rewrite Hpd. simplify_run. subst flags.
  destruct (debug RHI_Context_new) eqn:Hdebug; simplify_run; normalise_flags.
  all: fold adapter driver_type; rewrite Hcreate; simplify_run.
  all: rewrite bool_decide_eq_false_2 by done; simplify_run; rewrite Hok; simplify_run.
  all: destruct (GetFeatureLevel device_); simplify_run; rewrite ?Hdebug; simplify_run.
  all: try (split; [done|by intros [? ?]]).
  all: try by (split; [done|]).
  all: destruct (QueryInterface_Annotation device_context_) as [result' annotation_];
    destruct (FAILED result'); simplify_run; split; (done || by intros [? ?]).
Qed.

End Machine.

Lemma RHI_Device_new_without_adapter_witness :
  ∃ this,
    RHI_Device_new (H := sample_machine_with true None sample_D3D11CreateDevice)
      (Some sample_context) sample_device
    = Return this [Called_DetectAdapters; Log Log_Error "Failed to detect any devices"]
    ∧ m_initialized this = false.
Proof.
  destruct (RHI_Device_new_without_adapter
              (H := sample_machine_with true None sample_D3D11CreateDevice)
              (Some sample_context) sample_device eq_refl)
    as (this & Hrun & Hinitialized & _).
  by exists this.
Defined.

Lemma RHI_Device_new_creation_attempts_witness :
  RHI_Device_new (H := sample_machine) (Some sample_context) sample_device ≠ Undefined
  ∧ creation_attempts
      (events_of (RHI_Device_new (H := sample_machine) (Some sample_context) sample_device))
    = [D3D11_CREATE_DEVICE_DEBUG; 0].
Proof.
  split; [done|].
  exact (proj1 (RHI_Device_new_creation_attempts (H := sample_machine)
                  (Some sample_context) sample_device {| data := 64%N |} eq_refl
                  ltac:(done))).
Defined.

Lemma RHI_Device_new_retries_without_debug_request_witness :
  RHI_Device_new
    (H := sample_machine_with false (Some {| data := 64%N |}) sample_runtime_recovering)
    (Some sample_context) sample_device
  ≠ Undefined
  ∧ ∃ this warning rest,
      RHI_Device_new
        (H := sample_machine_with false (Some {| data := 64%N |}) sample_runtime_recovering)
        (Some sample_context) sample_device
      = Next () this
          ([Called_DetectAdapters;
            Called_D3D11CreateDevice 64%N D3D_DRIVER_TYPE_UNKNOWN 0 feature_levels
              D3D11_SDK_VERSION;
            Log Log_Warning warning;
            Called_D3D11CreateDevice 64%N D3D_DRIVER_TYPE_UNKNOWN 0 feature_levels
              D3D11_SDK_VERSION] ++ rest)
      ∧ m_initialized this = true
      ∧ device (m_rhi_context this) = 256%N.
Proof.
  split; [done|].
  destruct (RHI_Device_new_retries_without_debug_request
              (H := sample_machine_with false (Some {| data := 64%N |})
                      sample_runtime_recovering)
              (Some sample_context) sample_device {| data := 64%N |}
              nullptr nullptr S_OK 256%N 512%N
              eq_refl eq_refl eq_refl eq_refl ltac:(done))
    as (this & warning & rest & Hrun & _ & _ & _ & Hinitialized & Hdevice & _).
  by exists this, warning, rest.
Defined.

Lemma RHI_Device_new_without_debug_witness :
  ∃ this out,
    RHI_Device_new
      (H := sample_machine_with false (Some {| data := 64%N |}) sample_D3D11CreateDevice)
      (Some sample_context) sample_device
    = Next () this out
    ∧ creation_attempts out = [0]
    ∧ (Called_QueryInterface_Annotation ∉ out)
    ∧ m_initialized this = true.
Proof.
  destruct (RHI_Device_new_without_debug
              (H := sample_machine_with false (Some {| data := 64%N |})
                      sample_D3D11CreateDevice)
              (Some sample_context) sample_device {| data := 64%N |} sample_context
              {| settings_id := 1%N |} S_OK 256%N 512%N
              eq_refl eq_refl eq_refl eq_refl eq_refl ltac:(done))
    as (this & out & Hrun & Hattempts & Hannotation & Hinitialized & _).
  by exists this, out.
Defined.

Lemma RHI_Device_new_with_null_context_witness :
  RHI_Device_new
    (H := sample_machine_with false (Some {| data := 64%N |}) sample_D3D11CreateDevice)
    None sample_device
  = Undefined.
Proof.
  apply (RHI_Device_new_with_null_context
           (H := sample_machine_with false (Some {| data := 64%N |})
                   sample_D3D11CreateDevice)
           sample_device {| data := 64%N |} S_OK 256%N 512%N eq_refl eq_refl eq_refl).
  by split.
Defined.

End Device_more.

(** * Properties of RHI_ConstantBuffer *)

Section ConstantBuffer_properties.
Import Spartan.ConstantBuffer.

(** What [Create] hands to [_Create]. *)
Lemma Create_prepares _Create sizeof_T element_count this :
  0 ≤ sizeof_T < 2 ^ 32 →
  0 ≤ element_count < 2 ^ 32 →
  ∃ prepared,
    Create _Create sizeof_T element_count this = _Create prepared
    ∧ m_stride prepared = sizeof_T
    ∧ m_element_count prepared = element_count
    ∧ m_size_gpu prepared = (sizeof_T * element_count) mod 2 ^ 32
    ∧ m_offset_index prepared = m_offset_index this
    ∧ m_offset_dynamic_index prepared = m_offset_dynamic_index this.
Proof.
  intros Hsize Hcount. eexists. split; [reflexivity|].
  unfold to_uint64, to_uint32. cbn -[Z.pow Z.modulo].
  rewrite (Z.mod_small sizeof_T) by lia.
  pose proof (Z.mod_pos_bound (sizeof_T * element_count) (2 ^ 32) ltac:(lia)) as Hbound.
  rewrite (Z.mod_small (_ mod 2 ^ 32) (2 ^ 64)) by lia.
  done.
Qed.

(** Property X25. [Create] computes the size of the buffer in 32 bits: for a
    stride and an element count below 2^32, the object handed to [_Create]
    has the size stride times count modulo 2^32, which is the product
    itself exactly when the product is below 2^32. The offsets are left as
    they were. *)
Theorem Create_size_is_taken_modulo_2_32 _Create sizeof_T element_count this :
  0 ≤ sizeof_T < 2 ^ 32 →
  0 ≤ element_count < 2 ^ 32 →
  ∃ prepared,
    Create _Create sizeof_T element_count this = _Create prepared
    ∧ GetStride prepared = sizeof_T
    ∧ GetElementCount prepared = element_count
    ∧ m_size_gpu prepared = (sizeof_T * element_count) mod 2 ^ 32
    ∧ (m_size_gpu prepared = sizeof_T * element_count ↔ sizeof_T * element_count < 2 ^ 32)
    ∧ m_offset_index prepared = m_offset_index this
    ∧ m_offset_dynamic_index prepared = m_offset_dynamic_index this.
Proof.
  intros Hsize Hcount.
  destruct (Create_prepares _Create sizeof_T element_count this Hsize Hcount)
    as (prepared & Hrun & Hstride & Helements & Hgpu & Hoffset & Hdynamic).
  exists prepared. unfold GetStride, GetElementCount. rewrite Hgpu.
  repeat split; try done.
  - intros Heq. rewrite <-Heq. apply Z.mod_pos_bound. lia.
  - intros Hfits. apply Z.mod_small. nia.
Qed.

Lemma Create_size_is_taken_modulo_2_32_witness :
  ∃ prepared,
    Create sample_Create 65536 65536 (RHI_ConstantBuffer_new 0 (Some 1%N) true)
    = sample_Create prepared
    ∧ GetStride prepared = 65536
    ∧ m_size_gpu prepared = 0.
Proof.
  destruct (Create_size_is_taken_modulo_2_32 sample_Create 65536 65536
              (RHI_ConstantBuffer_new 0 (Some 1%N) true) ltac:(lia) ltac:(lia))
    as (prepared & Hrun & Hstride & _ & Hsize & _).
  exists prepared. split; [exact Hrun|]. split; [exact Hstride|]. exact Hsize.
Defined.

(** Property X26. When the size fits in 32 bits and [_Create] leaves stride, count
    and size alone, every element of the created buffer lies inside it: for
    an offset index below the element count, the static offset is index
    times stride, the element ends at or before the size of the buffer, and
    the elements of two different indices do not overlap. The same holds
    for the dynamic offset. *)
Theorem offsets_lie_inside_the_buffer _Create sizeof_T element_count this created ok i j :
  0 ≤ sizeof_T < 2 ^ 32 →
  0 ≤ element_count < 2 ^ 32 →
  sizeof_T * element_count < 2 ^ 32 →
  (∀ b, m_stride (_Create b).2 = m_stride b
        ∧ m_element_count (_Create b).2 = m_element_count b
        ∧ m_size_gpu (_Create b).2 = m_size_gpu b) →
  Create _Create sizeof_T element_count this = (ok, created) →
  0 ≤ i < j → j < element_count →
  GetOffset (SetOffsetIndex i created) = i * sizeof_T
  ∧ GetOffsetDynamic (SetOffsetIndexDynamic i created) = i * sizeof_T
  ∧ GetOffset (SetOffsetIndex i created) + GetStride created
    ≤ GetOffset (SetOffsetIndex j created)
  ∧ GetOffset (SetOffsetIndex j created) + GetStride created ≤ m_size_gpu created.
Proof.
  intros Hsize Hcount Hfits Hpreserves Hcreate Hi Hj.
  destruct (Create_prepares _Create sizeof_T element_count this Hsize Hcount)
    as (prepared & Hrun & Hstride & Helements & Hgpu & _).
  destruct (Hpreserves prepared) as (Hs & _ & Hg).
  rewrite <-Hrun, Hcreate in Hs, Hg. cbn [snd] in Hs, Hg.
  unfold GetStride in *. rewrite Hstride in Hs. rewrite Hgpu in Hg.
  rewrite Z.mod_small in Hg by nia.
  unfold GetOffset, GetOffsetDynamic, to_uint32. cbn -[Z.pow Z.modulo].
  rewrite Hs, Hg, !Z.mod_small by nia. nia.
Qed.

Lemma offsets_lie_inside_the_buffer_witness :
  ∃ created,
    Create sample_Create 256 16 (RHI_ConstantBuffer_new 0 (Some 1%N) true) = (true, created)
    ∧ GetOffset (SetOffsetIndex 3 created) = 768
    ∧ GetOffset (SetOffsetIndex 15 created) + GetStride created ≤ m_size_gpu created.
Proof.
  eexists. split; [reflexivity|].
  destruct (offsets_lie_inside_the_buffer sample_Create 256 16
              (RHI_ConstantBuffer_new 0 (Some 1%N) true) _ true 3 15
              ltac:(lia) ltac:(lia) ltac:(lia) ltac:(done) eq_refl ltac:(lia) ltac:(lia))
    as (Hoffset & _ & _ & Hinside).
  split; [exact Hoffset|exact Hinside].
Defined.

End ConstantBuffer_properties.

(** * Properties of ModelImporter *)

Section Importer.
Import ModelImporter.

(** ** The extension of a path *)

Lemma find_last_of_None c s :
  find_last_of c s = None ↔ c ∉ list_ascii_of_string s.
Proof.
  induction s as [|a s IH]; cbn.
  - split; [intros _; apply not_elem_of_nil|done].
  - destruct (find_last_of c s) as [i|].
    + split; [done|]. intros Hnot. exfalso. apply Hnot. right.
      destruct (decide (c ∈ list_ascii_of_string s)) as [|Hc]; [done|].
      by apply IH in Hc.
    + destruct (Ascii.eqb_spec a c) as [->|Hne].
      * split; [done|]. intros Hnot. exfalso. apply Hnot. left.
      * split; [|done]. intros _ [->|Hin]%elem_of_cons; [done|].
        by apply (proj1 IH).
Qed.

Lemma find_last_of_append c p q :
  find_last_of c q = None →
  find_last_of c (String.append p (String c q)) = Some (String.length p).
Proof.
  intros Hq. induction p as [|a p IH]; simpl.
  - by rewrite Hq, Ascii.eqb_refl.
  - by rewrite IH.
Qed.

Lemma substring_append p r : substring 0 (String.length p) (String.append p r) = p.
Proof.
  induction p as [|a p IH]; simpl.
  - by destruct r.
  - by rewrite IH.
Qed.

(** Property X27. The extension is cut at the last dot of the whole path: what
    follows that dot is dropped, whatever it is, a directory separator
    included; a path with no dot is kept as it is. *)
Theorem remove_extension_cuts_at_last_dot p q :
  "."%char ∉ list_ascii_of_string q →
  remove_extension (String.append p (String "." q)) = p
  ∧ remove_extension q = q.
Proof.
  intros Hq%find_last_of_None. unfold remove_extension. split.
  - rewrite find_last_of_append by done. apply substring_append.
  - by rewrite Hq.
Qed.

Lemma remove_extension_cuts_at_last_dot_witness :
  remove_extension "models.v2/car" = "models"%string
  ∧ remove_extension "v2/car" = "v2/car"%string.
Proof.
  apply (remove_extension_cuts_at_last_dot "models" "v2/car").
  vm_compute. intros Hin.
  repeat (apply elem_of_cons in Hin as [Hin|Hin]; [discriminate Hin|]).
  by apply elem_of_nil in Hin.
Defined.

(** ** The search for a texture *)

Section FileSystem.
Context (GetPathWithoutFileName : string → string).
Context (FileExists : string → bool).
Context (GetSupportedImageFormats : bool → list string).
Context (TEXTURE_PATH_UNKNOWN : string).

Lemma try_extensions_finds_first fileName extensions fullpath :
  let result := try_extensions FileExists fileName extensions fullpath in
  (∃ tried extension rest,
     extensions = tried ++ extension :: rest
     ∧ result = String.append fileName extension
     ∧ FileExists result = true
     ∧ ∀ e, e ∈ tried → FileExists (String.append fileName e) = false)
  ∨ (result = fullpath
     ∧ ∀ e, e ∈ extensions → FileExists (String.append fileName e) = false).
Proof.
  cbv zeta. induction extensions as [|extension extensions IH]; cbn.
  - right. split; [done|]. by intros e ?%elem_of_nil.
  - destruct (FileExists (String.append fileName extension)) eqn:Hexists.
    + left. exists [], extension, extensions. split; [done|]. split; [done|].
      split; [done|]. by intros e ?%elem_of_nil.
    + destruct IH as [(tried & found & rest & -> & Hresult & Hfound & Htried)|[Hresult Hnone]].
      * left. exists (extension :: tried), found, rest. split; [done|]. split; [done|].
        split; [done|]. intros e [->|?]%elem_of_cons; auto.
      * right. split; [done|]. intros e [->|?]%elem_of_cons; auto.
Qed.

(** Property X28. [TryPathWithMultipleExtensions] returns the path with its
    extension replaced by the first of the supported extensions, in their
    order, for which the file exists; if there is none, it returns the path
    it was given, unchanged. *)
Theorem TryPathWithMultipleExtensions_finds_first fullpath :
  let fileName := remove_extension fullpath in
  let result :=
    TryPathWithMultipleExtensions FileExists GetSupportedImageFormats fullpath in
  (∃ tried extension rest,
     GetSupportedImageFormats true = tried ++ extension :: rest
     ∧ result = String.append fileName extension
     ∧ FileExists result = true
     ∧ ∀ e, e ∈ tried → FileExists (String.append fileName e) = false)
  ∨ (result = fullpath
     ∧ ∀ e, e ∈ GetSupportedImageFormats true →
            FileExists (String.append fileName e) = false).
Proof. apply try_extensions_finds_first. Qed.

(** Property X29. [FindTexture] returns the path of a file that exists, or the
    marker of an unknown path. The path relative to the directory of the
    model wins if it exists as given; the marker is returned only when
    neither it nor any path made of it with a supported extension
    exists. *)
Theorem FindTexture_finds_an_existing_file m_fullModelPath texturePath :
  let exact := String.append (GetPathWithoutFileName m_fullModelPath) texturePath in
  let result :=
    FindTexture GetPathWithoutFileName FileExists GetSupportedImageFormats
      TEXTURE_PATH_UNKNOWN m_fullModelPath texturePath in
  (FileExists exact = true → result = exact)
  ∧ (result = TEXTURE_PATH_UNKNOWN ∨ FileExists result = true)
  ∧ (FileExists result = false →
     result = TEXTURE_PATH_UNKNOWN
     ∧ FileExists exact = false
     ∧ ∀ e, e ∈ GetSupportedImageFormats true →
            FileExists (String.append (remove_extension exact) e) = false).
Proof.
  cbv zeta. unfold FindTexture.
  set (exact := String.append (GetPathWithoutFileName m_fullModelPath) texturePath).
  destruct (FileExists exact) eqn:Hexact.
  - split; [done|]. split; [by right|]. intros Hnot. congruence.
  - split; [done|].
    destruct (FileExists (TryPathWithMultipleExtensions FileExists GetSupportedImageFormats
                            exact)) eqn:Hsecond.
    + split; [by right|]. intros Hnot. congruence.
    + split; [by left|]. intros _. split; [done|]. split; [done|].
      unfold TryPathWithMultipleExtensions in Hsecond.
      destruct (try_extensions_finds_first (remove_extension exact)
                  (GetSupportedImageFormats true) exact)
        as [(tried & found & rest & _ & _ & Hfound & _)|[_ Hnone]]; [congruence|done].
Qed.

End FileSystem.

Lemma FindTexture_finds_an_existing_file_witness :
  FindTexture sample_GetPathWithoutFileName sample_FileExists
    sample_GetSupportedImageFormats "unknown" "models/car.obj" "body.png"
  = "models/car/body.png"%string.
Proof.
  apply (proj1 (FindTexture_finds_an_existing_file sample_GetPathWithoutFileName
                  sample_FileExists sample_GetSupportedImageFormats "unknown"
                  "models/car.obj" "body.png")).
  by vm_compute.
Defined.

(** ** The indices of a mesh *)

Lemma push_back_all (indices : list Z) (face : aiFace) :
  foldl (λ indices index, indices ++ [index]) indices face = indices ++ face.
Proof.
  revert indices. induction face as [|index face IH]; intros indices; cbn.
  - by rewrite app_nil_r.
  - by rewrite IH, <-app_assoc.
Qed.

Lemma ProcessMesh_indices_from indices (mFaces : list aiFace) :
  foldl (λ indices face,
           if (length face <? 3)%nat then indices
           else foldl (λ indices index, indices ++ [index]) indices face)
    indices mFaces
  = indices ++ concat (filter (λ face, (3 ≤ length face)%nat) mFaces).
Proof.
  revert indices. induction mFaces as [|face mFaces IH]; intros indices.
  - cbn. by rewrite app_nil_r.
  - cbn [foldl]. rewrite IH, push_back_all. destruct (Nat.ltb_spec (length face) 3).
    + by rewrite filter_cons_False by lia.
    + rewrite filter_cons_True by lia. cbn [concat]. by rewrite app_assoc.
Qed.

(** Property X30. [ProcessMesh] collects the indices of the faces that
    have at least three, face by face in the order of the mesh, and drops
    the faces with fewer (points and lines). When no face has more than
    three indices, as after triangulation, the indices collected are three
    for each face kept: they form a triangle list. *)
Theorem ProcessMesh_indices_form_triangles (mFaces : list aiFace) :
  let kept := filter (λ face, (3 ≤ length face)%nat) mFaces in
  ProcessMesh_indices mFaces = concat kept
  ∧ ((∀ face, face ∈ mFaces → (length face ≤ 3)%nat) →
     length (ProcessMesh_indices mFaces) = (3 * length kept)%nat).
Proof.
  cbv zeta. unfold ProcessMesh_indices. rewrite ProcessMesh_indices_from. cbn [app].
  split; [done|]. intros Htriangles.
  induction mFaces as [|face mFaces IH]; [done|].
  assert (length face ≤ 3)%nat as Hface by (apply Htriangles; left).
  assert (∀ face, face ∈ mFaces → (length face ≤ 3)%nat) as Hrest
    by (intros f Hf; apply Htriangles; by right).
  destruct (decide (3 ≤ length face)%nat) as [Hkept|Hdropped].
  - specialize (IH Hrest). rewrite filter_cons_True by done. cbn [concat].
    rewrite length_app, length_cons. unfold aiFace in *. rewrite IH. lia.
  - rewrite filter_cons_False by done. by apply IH.
Qed.

End Importer.
